(** * Crypto trading journal: trade aggregation and presentation logic

    A shallow embedding of [src/app/page.tsx] (the journal backed by the
    storage collaborator) and of the earlier in-memory journal
    ([src/unnamed/part_000]), with the properties of the specification
    proved about it.

    Numbers are JavaScript Numbers, that is IEEE 754 binary64 values.  They
    are modelled by [spec_float] of the Standard Library, instantiated at
    precision 53 and maximal exponent 1024: every arithmetic operation
    rounds to nearest, ties to even, exactly as the engine does.

    Strings are sequences of code units; the model covers the code units
    U+0000 to U+00FF, one per character of a Rocq [string]. *)

From Stdlib Require Import ZArith Bool List Ascii String Lia.
From Stdlib Require Import Sorting.Sorted Sorting.Permutation.
From Stdlib Require Import Floats.SpecFloat.
Import ListNotations.

Local Open Scope string_scope.
Local Open Scope list_scope.
Local Open Scope Z_scope.

(** ** JavaScript Numbers *)

Module Num.

Definition prec : Z := 53.
Definition emax : Z := 1024.

Definition number : Type := spec_float.

(** Well-formed binary64 values: the mantissa of a finite value is
    canonical.  Every Number of a JavaScript program is well formed. *)
Definition wf (x : number) : Prop := valid_binary prec emax x = true.

Definition zero : number := S754_zero false.
Definition NaN : number := S754_nan.
Definition Infinity : number := S754_infinity false.

Definition add (x y : number) : number := SFadd prec emax x y.
Definition sub (x y : number) : number := SFsub prec emax x y.
Definition mul (x y : number) : number := SFmul prec emax x y.
Definition div (x y : number) : number := SFdiv prec emax x y.
Definition opp (x : number) : number := SFopp x.

(** [x < y], [x > y], [x <= y], [x >= y] and [x === y] on Numbers. *)
Definition lt (x y : number) : bool := SFltb x y.
Definition gt (x y : number) : bool := SFltb y x.
Definition le (x y : number) : bool := SFleb x y.
Definition ge (x y : number) : bool := SFleb y x.
Definition eqb (x y : number) : bool := SFeqb x y.

(** [Number.isFinite] and [Number.isNaN]. *)
Definition isFinite (x : number) : bool :=
  match x with
  | S754_zero _ | S754_finite _ _ _ => true
  | S754_infinity _ | S754_nan => false
  end.

Definition isNaN (x : number) : bool :=
  match x with
  | S754_nan => true
  | _ => false
  end.

(** The Number of an integer (exact below 2^53, rounded above). *)
Definition ofZ (z : Z) : number := binary_normalize prec emax z 0 false.

Definition ofNat (n : nat) : number := ofZ (Z.of_nat n).

(** The Number nearest to [m * 10^e], for a non-negative integer [m]: the
    value of a decimal literal with digits [m] and decimal exponent [e].
    [negative] is the sign of the literal, kept on a zero result. *)
Definition ofDecimal (negative : bool) (m : Z) (e : Z) : number :=
  if m <=? 0 then S754_zero negative
  else if 0 <=? e then
    binary_normalize prec emax (cond_Zopp negative (m * 10 ^ e)) 0 negative
  else
    let '(q, e', l) := SFdiv_core_binary prec emax m 0 (10 ^ (- e)) 0 in
    binary_round_aux prec emax negative q e' l.

(** [Math.round]: the nearest integer, a tie going towards +Infinity.  The
    sign of the argument is kept on a zero result. *)
Definition Math_round (x : number) : number :=
  match x with
  | S754_finite s m e =>
      if 0 <=? e then x
      else
        let v := cond_Zopp s (Zpos m) in
        let r := Z.shiftr (2 * v + 2 ^ (- e)) (- e + 1) in
        if r =? 0 then S754_zero s else ofZ r
  | _ => x
  end.

End Num.

Import Num.

Declare Scope num_scope.
Delimit Scope num_scope with num.
Bind Scope num_scope with number.
Infix "+" := Num.add : num_scope.
Infix "-" := Num.sub : num_scope.
Infix "*" := Num.mul : num_scope.
Infix "/" := Num.div : num_scope.
Infix "<?" := Num.lt : num_scope.
Infix ">?" := Num.gt : num_scope.
Infix "<=?" := Num.le : num_scope.
Infix ">=?" := Num.ge : num_scope.

(** ** The data model (page.tsx 16-71, part_000 14-38) *)

Inductive TradeDirection : Type := Long | Short.

Definition TradeDirection_eqb (a b : TradeDirection) : bool :=
  match a, b with
  | Long, Long | Short, Short => true
  | _, _ => false
  end.

Record Trade : Type := mkTrade {
  id : string;
  pair : string;
  direction : TradeDirection;
  strategy : string;
  entryPrice : number;
  exitPrice : number;
  pnl : number;
  date : string;
  sentiment : string;
  positionSize : number
}.

(** ** calculatePnL (page.tsx 119-133, part_000 40-54; the two are the same) *)

Definition calculatePnL (direction : TradeDirection)
    (entry exit size : number) : number :=
  if negb (isFinite entry) || negb (isFinite exit) || negb (isFinite size)
  then zero
  else
    let difference :=
      match direction with
      | Long => (exit - entry)%num
      | Short => (entry - exit)%num
      end in
    (difference * size)%num.

(** ** Strings: the built-ins the journal calls *)

Module Str.

Definition code (c : ascii) : Z := Z.of_N (N_of_ascii c).

(** A string is truthy when it is not empty. *)
Definition truthy (s : string) : bool :=
  match s with
  | EmptyString => false
  | String _ _ => true
  end.

(** WhiteSpace and LineTerminator code units below U+0100: TAB, LF, VT, FF,
    CR, SP and NBSP. *)
Definition isWhiteSpace (c : ascii) : bool :=
  let n := code c in
  ((9 <=? n) && (n <=? 13)) || (n =? 32) || (n =? 160).

Fixpoint trimStart (s : string) : string :=
  match s with
  | EmptyString => EmptyString
  | String c rest => if isWhiteSpace c then trimStart rest else s
  end.

Fixpoint trimEnd (s : string) : string :=
  match s with
  | EmptyString => EmptyString
  | String c rest =>
      let rest' := trimEnd rest in
      if isWhiteSpace c && negb (truthy rest') then EmptyString
      else String c rest'
  end.

(** The identifier under edit, [string | null], is truthy when it is a
    string that is not empty; [truthyKey] gives that string. *)
Definition truthyKey (v : option string) : option string :=
  match v with
  | Some key => if truthy key then Some key else None
  | None => None
  end.

(** [String.prototype.trim]. *)
Definition trim (s : string) : string := trimEnd (trimStart s).

(** Lower-casing of one code unit below U+0100: A-Z, and the capital
    letters U+00C0-U+00DE except the multiplication sign U+00D7. *)
Definition lowerChar (c : ascii) : ascii :=
  let n := code c in
  if ((65 <=? n) && (n <=? 90))
     || ((192 <=? n) && (n <=? 222) && negb (n =? 215))
  then ascii_of_N (Z.to_N (n + 32))
  else c.

(** [String.prototype.toLowerCase]. *)
Fixpoint toLowerCase (s : string) : string :=
  match s with
  | EmptyString => EmptyString
  | String c rest => String (lowerChar c) (toLowerCase rest)
  end.

(** [String.prototype.includes]: [search] occurs in [s] at some position. *)
Fixpoint includes (s search : string) : bool :=
  if String.prefix search s then true
  else
    match s with
    | EmptyString => false
    | String _ rest => includes rest search
    end.

Definition digitVal (c : ascii) : option Z :=
  let n := code c in
  if (48 <=? n) && (n <=? 57) then Some (n - 48) else None.

(** Reads the longest run of decimal digits at the head of [s]: the value
    accumulated onto [acc], the number of digits read, and what follows. *)
Fixpoint readDigits (acc count : Z) (s : string) : Z * Z * string :=
  match s with
  | EmptyString => (acc, count, s)
  | String c rest =>
      match digitVal c with
      | Some d => readDigits (10 * acc + d) (count + 1) rest
      | None => (acc, count, s)
      end
  end.

(** The value of the ExponentPart at the head of [s], 0 when [s] does not
    start with one (an indicator without digits is not an ExponentPart). *)
Definition readExponent (s : string) : Z :=
  match s with
  | String c rest =>
      if (code c =? 101) || (code c =? 69) then
        let '(negative, rest') :=
          match rest with
          | String "-" r => (true, r)
          | String "+" r => (false, r)
          | _ => (false, rest)
          end in
        let '(v, n, _) := readDigits 0 0 rest' in
        if n =? 0 then 0 else if negative then - v else v
      else 0
  | EmptyString => 0
  end.

(** [parseFloat]: leading white space is skipped, the longest prefix that
    is a StrDecimalLiteral is converted, and there is NaN when no prefix
    is one.  The literal [Infinity] is accepted, signed or not. *)
Definition parseFloat (input : string) : number :=
  let s := trimStart input in
  let '(negative, s1) :=
    match s with
    | String "-" r => (true, r)
    | String "+" r => (false, r)
    | _ => (false, s)
    end in
  if String.prefix "Infinity" s1 then S754_infinity negative
  else
    let '(intPart, nInt, s2) := readDigits 0 0 s1 in
    let '(mant, nFrac, s3) :=
      match s2 with
      | String "." r => readDigits intPart 0 r
      | _ => (intPart, 0, s2)
      end in
    if nInt + nFrac =? 0 then NaN
    else ofDecimal negative mant (readExponent s3 - nFrac).

(** *** An instance of date parsing

    [new Date(value).getTime()] on the date-only form [YYYY-MM-DD] gives
    the milliseconds from the epoch to that day's midnight in UTC.  What an
    engine does with other strings is left to it; every definition below is
    parametric in the date parser, and [isoDateTime] is the instance used
    to evaluate them: it accepts the date-only form of a day that exists
    and answers NaN otherwise.  (For a day beyond the end of its month,
    such as 2023-02-29, an engine may roll over to the next month instead;
    no property below is stated at such a value.) *)

Definition isLeapYear (y : Z) : bool :=
  ((y mod 4 =? 0) && negb (y mod 100 =? 0)) || (y mod 400 =? 0).

Definition daysInMonth (y m : Z) : Z :=
  if m =? 2 then (if isLeapYear y then 29 else 28)
  else if (m =? 4) || (m =? 6) || (m =? 9) || (m =? 11) then 30
  else 31.

Definition daysFromCivil (y m d : Z) : Z :=
  let y' := if m <=? 2 then y - 1 else y in
  let era := y' / 400 in
  let yoe := y' - era * 400 in
  let doy := (153 * (if 2 <? m then m - 3 else m + 9) + 2) / 5 + d - 1 in
  let doe := yoe * 365 + yoe / 4 - yoe / 100 + doy in
  era * 146097 + doe - 719468.

Definition isoDateTime (value : string) : number :=
  match list_ascii_of_string value with
  | [y1; y2; y3; y4; s1; m1; m2; s2; d1; d2] =>
      match digitVal y1, digitVal y2, digitVal y3, digitVal y4,
            digitVal m1, digitVal m2, digitVal d1, digitVal d2 with
      | Some a, Some b, Some c, Some d, Some e, Some f, Some g, Some h =>
          let y := 1000 * a + 100 * b + 10 * c + d in
          let m := 10 * e + f in
          let dd := 10 * g + h in
          if (code s1 =? 45) && (code s2 =? 45)
             && (1 <=? m) && (m <=? 12)
             && (1 <=? dd) && (dd <=? daysInMonth y m)
          then ofZ (daysFromCivil y m dd * 86400000)
          else NaN
      | _, _, _, _, _, _, _, _ => NaN
      end
  | _ => NaN
  end.

End Str.

Import Str.

(** ** The form (page.tsx 31-40 and 135-144; part_000 29-38 and 108-117) *)

Record TradeFormData : Type := mkTradeFormData {
  form_pair : string;
  form_direction : TradeDirection;
  form_strategy : string;
  form_entryPrice : string;
  form_exitPrice : string;
  form_positionSize : string;
  form_date : string;
  form_sentiment : string
}.

(** [today] stands for [new Date().toISOString().slice(0, 10)]. *)
Definition createEmptyFormState (today : string) : TradeFormData :=
  {| form_pair := "";
     form_direction := Long;
     form_strategy := "";
     form_entryPrice := "";
     form_exitPrice := "";
     form_positionSize := "";
     form_date := today;
     form_sentiment := "" |}.

(** ** calculatedPnL (page.tsx 512-527, part_000 313-328; the two are the
    same).  [None] is the [null] of the source. *)

Definition calculatedPnL (formData : TradeFormData) : option number :=
  let parsedEntry := parseFloat (form_entryPrice formData) in
  let parsedExit := parseFloat (form_exitPrice formData) in
  let parsedSize := parseFloat (form_positionSize formData) in
  if negb (isFinite parsedEntry)
     || negb (isFinite parsedExit)
     || negb (isFinite parsedSize)
     || (parsedSize <=? zero)%num
  then None
  else Some (calculatePnL (form_direction formData)
               parsedEntry parsedExit parsedSize).

(** An error value, returned by the collaborator or thrown: whether it is
    an instance of [Error], and its message. *)
Record JsError : Type := mkJsError {
  instanceofError : bool;
  message : string
}.

(** The effects a handler has on the outside, in the order they happen:
    [alert], [console.error] and the two mutating calls of the
    collaborator. *)
Inductive Event (Payload : Type) : Type :=
  | Alert (text : string)
  | ConsoleError (e : JsError)
  | DbInsert (payload : Payload)
  | DbUpdate (key : string) (payload : Payload).

Arguments Alert {Payload} text.
Arguments ConsoleError {Payload} e.
Arguments DbInsert {Payload} payload.
Arguments DbUpdate {Payload} key payload.

(** [Array.prototype.sort] with a comparator.  The sort is stable; a NaN
    answer of the comparator counts as +0; an element moves behind another
    one exactly when the comparator answers a positive number for the two.
    It is written as the stable insertion sort: for a consistent comparator
    every stable sort produces the same array.  (A comparator that answers
    NaN for some pairs only is not consistent, and the order then depends
    on the algorithm of the engine; the properties about the order below
    assume sort values other than NaN, the others speak of the members
    only.) *)
Section ArraySort.
Context {A : Type}.
Variable comparefn : A -> A -> number.

Definition SortCompare (x y : A) : number :=
  let v := comparefn x y in
  if isNaN v then zero else v.

Fixpoint sortInsert (x : A) (sorted : list A) : list A :=
  match sorted with
  | [] => [x]
  | y :: rest =>
      if (SortCompare x y >? zero)%num then y :: sortInsert x rest
      else x :: sorted
  end.

Definition Array_sort (entries : list A) : list A :=
  fold_right sortInsert [] entries.
End ArraySort.

(** ** The journal backed by the storage collaborator (page.tsx) *)

Module Page.

Inductive DirectionFilter : Type :=
  | Only (d : TradeDirection)
  | All.

Record TradeFilters : Type := mkTradeFilters {
  filter_pair : string;
  filter_direction : DirectionFilter;
  filter_strategy : string;
  startDate : string;
  endDate : string
}.

Inductive SortKey : Type :=
  | date_desc | date_asc | pnl_desc | pnl_asc | size_desc | size_asc.

(** A stored numeric field: [string | number | null]. *)
Inductive RawNumeric : Type :=
  | RawNumber (n : number)
  | RawString (s : string)
  | RawNull.

Record TradeRow : Type := mkTradeRow {
  row_id : string;
  row_pair : string;
  row_direction : TradeDirection;
  row_strategy : string;
  entry_price : RawNumeric;
  exit_price : RawNumeric;
  row_pnl : RawNumeric;
  position_size : RawNumeric;
  row_sentiment : option string;
  trade_date : string
}.

(** page.tsx 73-82 *)
Definition parseNumericField (value : RawNumeric) : number :=
  match value with
  | RawNumber n => n
  | RawString s =>
      let parsed := parseFloat s in
      if isFinite parsed then parsed else zero
  | RawNull => zero
  end.

(** page.tsx 84-95 *)
Definition mapRowToTrade (row : TradeRow) : Trade :=
  {| id := row_id row;
     pair := row_pair row;
     direction := row_direction row;
     strategy := row_strategy row;
     entryPrice := parseNumericField (entry_price row);
     exitPrice := parseNumericField (exit_price row);
     pnl := parseNumericField (row_pnl row);
     date := trade_date row;
     sentiment := match row_sentiment row with
                  | Some text => text
                  | None => ""
                  end;
     positionSize := parseNumericField (position_size row) |}.

(** page.tsx 97-103 *)
Definition createDefaultFilters : TradeFilters :=
  {| filter_pair := "";
     filter_direction := All;
     filter_strategy := "";
     startDate := "";
     endDate := "" |}.

(** The payload handed to the collaborator (page.tsx 414-424). *)
Record Payload : Type := mkPayload {
  payload_pair : string;
  payload_direction : TradeDirection;
  payload_strategy : string;
  payload_entry_price : number;
  payload_exit_price : number;
  payload_position_size : number;
  payload_pnl : number;
  payload_sentiment : option string;
  payload_trade_date : string
}.

(** What the collaborator answers: [{ data, error }]. *)
Record Response : Type := mkResponse {
  data : option TradeRow;
  error : option JsError
}.

(** The state of the component (page.tsx 173-187); [loadError] is its
    [error]. *)
Record AppState : Type := mkAppState {
  trades : list Trade;
  isLoading : bool;
  loadError : option string;
  isModalOpen : bool;
  editingTradeId : option string;
  formData : TradeFormData;
  showAllTrades : bool;
  pageSize : nat;
  filters : TradeFilters;
  sortKey : SortKey;
  isSubmitting : bool
}.

Definition setTrades (v : list Trade) (s : AppState) : AppState :=
  mkAppState v (isLoading s) (loadError s) (isModalOpen s) (editingTradeId s)
    (formData s) (showAllTrades s) (pageSize s) (filters s) (sortKey s)
    (isSubmitting s).

Definition setIsSubmitting (v : bool) (s : AppState) : AppState :=
  mkAppState (trades s) (isLoading s) (loadError s) (isModalOpen s)
    (editingTradeId s) (formData s) (showAllTrades s) (pageSize s)
    (filters s) (sortKey s) v.

Section Engine.
(** [getTime value] stands for [new Date(value).getTime()], [today] for
    the day the form is opened, and [db_insert], [db_update] for the
    answers of the collaborator to the two mutating calls. *)
Variable getTime : string -> number.
Variable today : string.
Variable db_insert : Payload -> Response.
Variable db_update : string -> Payload -> Response.

(** page.tsx 114-117 *)
Definition sortTradesByDateDesc (entries : list Trade) : list Trade :=
  Array_sort (fun a b => (getTime (date b) - getTime (date a))%num) entries.

(** The callback of [trades.filter] (page.tsx 221-257). *)
Definition filterCallback (filters : TradeFilters) (trade : Trade) : bool :=
  if truthy (filter_pair filters)
     && negb (includes (toLowerCase (pair trade))
                       (toLowerCase (trim (filter_pair filters))))
  then false
  else if truthy (filter_strategy filters)
     && negb (includes (toLowerCase (strategy trade))
                       (toLowerCase (trim (filter_strategy filters))))
  then false
  else if match filter_direction filters with
          | All => false
          | Only d => negb (TradeDirection_eqb (direction trade) d)
          end
  then false
  else if truthy (startDate filters)
     && (let startTime := getTime (startDate filters) in
         negb (isNaN startTime)
         && (getTime (date trade) <? startTime)%num)
  then false
  else if truthy (endDate filters)
     && (let endTime := getTime (endDate filters) in
         negb (isNaN endTime)
         && (getTime (date trade) >? endTime)%num)
  then false
  else true.

(** page.tsx 220-258 *)
Definition filteredTrades (trades : list Trade) (filters : TradeFilters)
    : list Trade :=
  filter (filterCallback filters) trades.

(** The comparator of [entries.sort] (page.tsx 262-279). *)
Definition compareTrades (sortKey : SortKey) (a b : Trade) : number :=
  match sortKey with
  | date_asc => (getTime (date a) - getTime (date b))%num
  | pnl_desc => (pnl b - pnl a)%num
  | pnl_asc => (pnl a - pnl b)%num
  | size_desc => (positionSize b - positionSize a)%num
  | size_asc => (positionSize a - positionSize b)%num
  | date_desc => (getTime (date b) - getTime (date a))%num
  end.

(** page.tsx 260-281 *)
Definition sortedTrades (filteredTrades : list Trade) (sortKey : SortKey)
    : list Trade :=
  Array_sort (compareTrades sortKey) filteredTrades.

(** The statistics (page.tsx 290-298).  The counts are array lengths;
    they enter the divisions as Numbers. *)
Definition totalPnL (filteredTrades : list Trade) : number :=
  fold_left (fun acc trade => (acc + pnl trade)%num) filteredTrades zero.

Definition totalTrades (filteredTrades : list Trade) : nat :=
  List.length filteredTrades.

Definition winningTrades (filteredTrades : list Trade) : nat :=
  List.length
    (filter (fun trade => (pnl trade >? zero)%num) filteredTrades).

Definition avgPnl (filteredTrades : list Trade) : number :=
  if (0 <? totalTrades filteredTrades)%nat
  then (totalPnL filteredTrades / ofNat (totalTrades filteredTrades))%num
  else zero.

Definition longTrades (filteredTrades : list Trade) : nat :=
  List.length
    (filter (fun trade => TradeDirection_eqb (direction trade) Long)
       filteredTrades).

Definition shortTrades (filteredTrades : list Trade) : nat :=
  (totalTrades filteredTrades - longTrades filteredTrades)%nat.

Definition losingTrades (filteredTrades : list Trade) : nat :=
  (totalTrades filteredTrades - winningTrades filteredTrades)%nat.

Definition winRate (filteredTrades : list Trade) : number :=
  if (0 <? totalTrades filteredTrades)%nat
  then Math_round
         ((ofNat (winningTrades filteredTrades)
           / ofNat (totalTrades filteredTrades)) * ofZ 100)%num
  else zero.

(** page.tsx 529-536 *)
Definition visibleTrades (showAllTrades : bool) (pageSize : nat)
    (sortedTrades : list Trade) : list Trade :=
  let hasMoreTrades := (pageSize <? List.length sortedTrades)%nat in
  if showAllTrades || negb hasMoreTrades then sortedTrades
  else firstn pageSize sortedTrades.

(** page.tsx 348-352 *)
Definition closeModal (s : AppState) : AppState :=
  mkAppState (trades s) (isLoading s) (loadError s) false None
    (createEmptyFormState today) (showAllTrades s) (pageSize s)
    (filters s) (sortKey s) (isSubmitting s).

(** The text shown when a mutation fails (page.tsx 471-475). *)
Definition submitFailureText (e : JsError) : string :=
  if instanceofError e then message e
  else "Failed to save trade. Please try again.".

(** page.tsx 382-479: the state once the handler has settled, and the
    effects it had.  A validation failure returns before any state
    setter and before the collaborator is called. *)
Definition handleSubmit (s : AppState) : AppState * list (Event Payload) :=
  let formData := formData s in
  if negb (truthy (trim (form_pair formData))) then
    (s, [Alert "Please enter a trading pair."])
  else if negb (truthy (trim (form_strategy formData))) then
    (s, [Alert "Please enter a strategy name."])
  else
    let parsedEntry := parseFloat (form_entryPrice formData) in
    let parsedExit := parseFloat (form_exitPrice formData) in
    let parsedSize := parseFloat (form_positionSize formData) in
    let entryPrice := if isFinite parsedEntry then parsedEntry else zero in
    let exitPrice := if isFinite parsedExit then parsedExit else zero in
    let positionSize := if isFinite parsedSize then parsedSize else zero in
    if negb (isFinite parsedEntry) || negb (isFinite parsedExit) then
      (s, [Alert "Please enter valid numeric values for entry and exit price."])
    else if negb (isFinite parsedSize) || (parsedSize <=? zero)%num then
      (s, [Alert "Please enter a position size greater than zero."])
    else
      let pnl :=
        calculatePnL (form_direction formData)
          entryPrice exitPrice positionSize in
      let payload :=
        {| payload_pair := form_pair formData;
           payload_direction := form_direction formData;
           payload_strategy := form_strategy formData;
           payload_entry_price := entryPrice;
           payload_exit_price := exitPrice;
           payload_position_size := positionSize;
           payload_pnl := pnl;
           payload_sentiment :=
             if truthy (trim (form_sentiment formData))
             then Some (form_sentiment formData) else None;
           payload_trade_date := form_date formData |} in
      let s1 := setIsSubmitting true s in
      let '(s2, events) :=
        match truthyKey (editingTradeId s) with
        | Some key =>
            let r := db_update key payload in
            match error r with
            | Some e =>
                (s1, [DbUpdate key payload; ConsoleError e;
                      Alert (submitFailureText e)])
            | None =>
                let s' :=
                  match data r with
                  | Some row =>
                      let updatedTrade := mapRowToTrade row in
                      setTrades
                        (sortTradesByDateDesc
                           (map (fun trade =>
                                   if String.eqb (id trade) key
                                   then updatedTrade else trade)
                              (trades s1)))
                        s1
                  | None => s1
                  end in
                (closeModal s', [DbUpdate key payload])
            end
        | None =>
            let r := db_insert payload in
            match error r with
            | Some e =>
                (s1, [DbInsert payload; ConsoleError e;
                      Alert (submitFailureText e)])
            | None =>
                let s' :=
                  match data r with
                  | Some row =>
                      setTrades
                        (sortTradesByDateDesc
                           (mapRowToTrade row :: trades s1))
                        s1
                  | None => s1
                  end in
                (closeModal s', [DbInsert payload])
            end
        end in
      (setIsSubmitting false s2, events).
End Engine.

End Page.

(** ** The in-memory journal (part_000) *)

Module Legacy.

(** part_000 56-105 *)
Definition initialTrades : list Trade :=
  [ {| id := "1";
       pair := "BTC / USDT";
       direction := Long;
       strategy := "Trend Break";
       entryPrice := ofZ 61250;
       exitPrice := ofZ 63100;
       date := "2024-04-12";
       sentiment := "high conviction";
       positionSize := ofDecimal false 5 (-1);
       pnl := calculatePnL Long (ofZ 61250) (ofZ 63100)
                (ofDecimal false 5 (-1)) |};
    {| id := "2";
       pair := "ETH / USDT";
       direction := Short;
       strategy := "Mean Revert";
       entryPrice := ofZ 3120;
       exitPrice := ofZ 3040;
       date := "2024-04-10";
       sentiment := "watch gas fees";
       positionSize := ofZ 20;
       pnl := calculatePnL Short (ofZ 3120) (ofZ 3040) (ofZ 20) |};
    {| id := "3";
       pair := "SOL / USDT";
       direction := Long;
       strategy := "Breakout";
       entryPrice := ofZ 142;
       exitPrice := ofZ 136;
       date := "2024-04-07";
       sentiment := "late entry";
       positionSize := ofZ 30;
       pnl := calculatePnL Long (ofZ 142) (ofZ 136) (ofZ 30) |};
    {| id := "4";
       pair := "BTC / USDT";
       direction := Short;
       strategy := "Range Bounce";
       entryPrice := ofZ 59880;
       exitPrice := ofZ 58920;
       date := "2024-04-03";
       sentiment := "double confirmation";
       positionSize := ofDecimal false 3 (-1);
       pnl := calculatePnL Short (ofZ 59880) (ofZ 58920)
                (ofDecimal false 3 (-1)) |} ].

(** The state of the component (part_000 144-151). *)
Record AppState : Type := mkAppState {
  trades : list Trade;
  isModalOpen : bool;
  editingTradeId : option string;
  formData : TradeFormData;
  showAllTrades : bool;
  pageSize : nat
}.

Definition setTrades (v : list Trade) (s : AppState) : AppState :=
  mkAppState v (isModalOpen s) (editingTradeId s) (formData s)
    (showAllTrades s) (pageSize s).

Section Engine.
(** [today] is the day the form is opened and [now] stands for
    [Date.now().toString()], the identifier given to a new trade. *)
Variable today : string.
Variable now : string.

(** part_000 213-217 *)
Definition closeModal (s : AppState) : AppState :=
  mkAppState (trades s) false None (createEmptyFormState today)
    (showAllTrades s) (pageSize s).

(** part_000 230-300: the state after the handler and the alerts it
    raised.  There is no collaborator: the effects carry no payload. *)
Definition handleSubmit (s : AppState) : AppState * list (Event unit) :=
  let formData := formData s in
  if negb (truthy (trim (form_pair formData))) then
    (s, [Alert "Please enter a trading pair."])
  else if negb (truthy (trim (form_strategy formData))) then
    (s, [Alert "Please enter a strategy name."])
  else
    let parsedEntry := parseFloat (form_entryPrice formData) in
    let parsedExit := parseFloat (form_exitPrice formData) in
    let parsedSize := parseFloat (form_positionSize formData) in
    let entryPrice := if isFinite parsedEntry then parsedEntry else zero in
    let exitPrice := if isFinite parsedExit then parsedExit else zero in
    let positionSize := if isFinite parsedSize then parsedSize else zero in
    if negb (isFinite parsedEntry) || negb (isFinite parsedExit) then
      (s, [Alert "Please enter valid numeric values for entry and exit price."])
    else if negb (isFinite parsedSize) || (parsedSize <=? zero)%num then
      (s, [Alert "Please enter a position size greater than zero."])
    else
      let pnl :=
        calculatePnL (form_direction formData)
          entryPrice exitPrice positionSize in
      let s' :=
        match truthyKey (editingTradeId s) with
        | Some key =>
            setTrades
              (map (fun trade =>
                      if String.eqb (id trade) key
                      then {| id := id trade;
                              pair := form_pair formData;
                              direction := form_direction formData;
                              strategy := form_strategy formData;
                              entryPrice := entryPrice;
                              exitPrice := exitPrice;
                              pnl := pnl;
                              date := form_date formData;
                              sentiment := form_sentiment formData;
                              positionSize := positionSize |}
                      else trade)
                 (trades s))
              s
        | None =>
            let newTrade :=
              {| id := now;
                 pair := form_pair formData;
                 direction := form_direction formData;
                 strategy := form_strategy formData;
                 entryPrice := entryPrice;
                 exitPrice := exitPrice;
                 pnl := pnl;
                 date := form_date formData;
                 sentiment := form_sentiment formData;
                 positionSize := positionSize |} in
            setTrades (newTrade :: trades s) s
        end in
      (closeModal s', []).
End Engine.

End Legacy.

(** ** The specification's own words

    The definitions below follow the specification, not the code; the
    theorems compare them with the code.  Where the code departs from the
    wording, the wording ([dateRangeStated]) and the rule the code obeys
    ([dateRange]) stand side by side.  The win rate is the formula read in
    exact arithmetic ([winRate], an integer); the theorems compare it with
    the Number the code computes. *)

Module Spec.

Import Page.

(** Section 3: [(direction == Long ? exitPrice - entryPrice
    : entryPrice - exitPrice) * positionSize]. *)
Definition profitLoss (direction : TradeDirection)
    (entryPrice exitPrice positionSize : number) : number :=
  match direction with
  | Long => ((exitPrice - entryPrice) * positionSize)%num
  | Short => ((entryPrice - exitPrice) * positionSize)%num
  end.

Definition profitLossHolds (t : Trade) : Prop :=
  pnl t = profitLoss (direction t) (entryPrice t) (exitPrice t)
            (positionSize t).

(** A text parses when [parseFloat] finds a finite number in it. *)
Definition parses (text : string) : bool := isFinite (parseFloat text).

(** Section 4.1: a number passes through, a text is parsed as a decimal
    number, a failed parse or an absent field gives 0. *)
Definition coerceNumeric (field : RawNumeric) : number :=
  match field with
  | RawNumber n => n
  | RawString text => if parses text then parseFloat text else zero
  | RawNull => zero
  end.

(** Section 4.2, statistics. *)
Fixpoint count (p : Trade -> bool) (l : list Trade) : nat :=
  match l with
  | [] => 0%nat
  | t :: rest => ((if p t then 1 else 0) + count p rest)%nat
  end.

(** The sum of the profitLoss values, accumulated from 0 in list order. *)
Fixpoint sumFrom (acc : number) (l : list Trade) : number :=
  match l with
  | [] => acc
  | t :: rest => sumFrom (acc + pnl t)%num rest
  end.

Definition isWinning (t : Trade) : bool := (pnl t >? zero)%num.

(** [round (p / q)] for integers [p] and [q > 0], in exact arithmetic: the
    integer nearest to the quotient, a tie going upwards as [Math.round]
    takes it. *)
Definition round (p q : Z) : Z := (2 * p + q) / (2 * q).

(** winRate = round(winningTrades / totalTrades x 100), defined as 0 when
    totalTrades = 0: the formula read in exact arithmetic. *)
Definition winRate (l : list Trade) : Z :=
  match List.length l with
  | O => 0
  | S _ =>
      round (Z.of_nat (count isWinning l) * 100) (Z.of_nat (List.length l))
  end.

(** The exact percentage winningTrades / totalTrades x 100 lies half-way
    between two whole numbers. *)
Definition halfway (l : list Trade) : bool :=
  match List.length l with
  | O => false
  | S _ =>
      (2 * (Z.of_nat (count isWinning l) * 100) + Z.of_nat (List.length l))
        mod (2 * Z.of_nat (List.length l)) =? 0
  end.

(** Section 4.2, filter.  [sub] occurs in [s]. *)
Definition Substring (sub s : string) : Prop :=
  exists before after, s = (before ++ sub ++ after)%string.

(** A text predicate is active when the trimmed filter text is not empty;
    an active one is passed when the trimmed, lower-cased filter text
    occurs in the lower-cased field. *)
Definition textActive (filterText : string) : Prop :=
  trim filterText <> "".

Definition textPredicate (filterText field : string) : Prop :=
  textActive filterText ->
  Substring (toLowerCase (trim filterText)) (toLowerCase field).

Definition directionPredicate (wanted : DirectionFilter) (t : Trade) : Prop :=
  match wanted with
  | All => True
  | Only d => direction t = d
  end.

Section Dates.
Variable getTime : string -> number.

(** A bound is a parseable date when it is present and the engine makes
    a date of it. *)
Definition parseable (bound : string) : bool :=
  truthy bound && negb (isNaN (getTime bound)).

(** The date range as the specification words it: the date of the trade
    is [>=] a parseable start and [<=] a parseable end. *)
Definition dateRangeStated (startBound endBound : string) (t : Trade)
    : bool :=
  (if parseable startBound
   then (getTime (date t) >=? getTime startBound)%num else true)
  && (if parseable endBound
      then (getTime (date t) <=? getTime endBound)%num else true).

(** The date range as the code decides it: the date of the trade is not
    before a parseable start and not after a parseable end. *)
Definition dateRange (startBound endBound : string) (t : Trade) : bool :=
  (if parseable startBound
   then negb (getTime (date t) <? getTime startBound)%num else true)
  && (if parseable endBound
      then negb (getTime (date t) >? getTime endBound)%num else true).
End Dates.

(** A filter with its two date bounds cleared, and one with its two text
    filters cleared. *)
Definition withoutDates (f : TradeFilters) : TradeFilters :=
  mkTradeFilters (filter_pair f) (filter_direction f) (filter_strategy f)
    "" "".

Definition withoutTexts (f : TradeFilters) : TradeFilters :=
  mkTradeFilters "" (filter_direction f) "" (startDate f) (endDate f).

(** Section 3 has the profit/loss a real number: a well-formed Number
    other than NaN (an overflow to an infinity is allowed). *)
Definition isNumber (x : number) : Prop := wf x /\ isNaN x = false.

(** The filter reduced to one of its four predicates. *)
Definition onlyPair (f : TradeFilters) : TradeFilters :=
  mkTradeFilters (filter_pair f) All "" "" "".

Definition onlyStrategy (f : TradeFilters) : TradeFilters :=
  mkTradeFilters "" All (filter_strategy f) "" "".

Definition onlyDirection (f : TradeFilters) : TradeFilters :=
  mkTradeFilters "" (filter_direction f) "" "" "".

Definition onlyDates (f : TradeFilters) : TradeFilters :=
  mkTradeFilters "" All "" (startDate f) (endDate f).

(** [a] stands somewhere before [b] in [l]. *)
Definition precedes {A : Type} (a b : A) (l : list A) : Prop :=
  exists l1 l2 l3, l = l1 ++ a :: l2 ++ b :: l3.

(** Section 7, validation failure: a missing pair or strategy, a price
    that is not a finite number, a size that is not a finite number above
    zero. *)
Definition invalidForm (formData : TradeFormData) : Prop :=
  trim (form_pair formData) = ""
  \/ trim (form_strategy formData) = ""
  \/ parses (form_entryPrice formData) = false
  \/ parses (form_exitPrice formData) = false
  \/ ~ (parses (form_positionSize formData) = true
        /\ (parseFloat (form_positionSize formData) >? zero)%num = true).

(** Section 4.2, preview: undefined when entry or exit is unparseable, or
    size is unparseable or [<= 0]. *)
Definition previewUndefined (formData : TradeFormData) : Prop :=
  parses (form_entryPrice formData) = false
  \/ parses (form_exitPrice formData) = false
  \/ parses (form_positionSize formData) = false
  \/ (parseFloat (form_positionSize formData) <=? zero)%num = true.

End Spec.

(** ** The rest of the component (page.tsx) *)

Module PageUI.

Import Page.

Definition setIsLoading (v : bool) (s : AppState) : AppState :=
  mkAppState (trades s) v (loadError s) (isModalOpen s) (editingTradeId s)
    (formData s) (showAllTrades s) (pageSize s) (filters s) (sortKey s)
    (isSubmitting s).

Definition setError (v : option string) (s : AppState) : AppState :=
  mkAppState (trades s) (isLoading s) v (isModalOpen s) (editingTradeId s)
    (formData s) (showAllTrades s) (pageSize s) (filters s) (sortKey s)
    (isSubmitting s).

Definition setFilters (v : TradeFilters) (s : AppState) : AppState :=
  mkAppState (trades s) (isLoading s) (loadError s) (isModalOpen s)
    (editingTradeId s) (formData s) (showAllTrades s) (pageSize s) v
    (sortKey s) (isSubmitting s).

Definition setShowAllTrades (v : bool) (s : AppState) : AppState :=
  mkAppState (trades s) (isLoading s) (loadError s) (isModalOpen s)
    (editingTradeId s) (formData s) v (pageSize s) (filters s) (sortKey s)
    (isSubmitting s).

(** page.tsx 283-288 *)
Definition hasActiveFilters (filters : TradeFilters) : bool :=
  match filter_direction filters with
  | All => false
  | Only _ => true
  end
  || truthy (trim (filter_pair filters))
  || truthy (trim (filter_strategy filters))
  || truthy (startDate filters)
  || truthy (endDate filters).

(** page.tsx 377-380 *)
Definition resetFilters (s : AppState) : AppState :=
  setShowAllTrades false (setFilters createDefaultFilters s).

(** What the collaborator answers to the listing: [{ data, error }]. *)
Record ListResponse : Type := mkListResponse {
  list_data : option (list TradeRow);
  list_error : option JsError
}.

(** The effects of the delete handler, in the order they happen:
    [window.confirm], the delete call of the collaborator,
    [console.error] and [alert]. *)
Inductive DeleteEvent : Type :=
  | Confirm (text : string)
  | DbDelete (key : string)
  | DeleteConsoleError (e : JsError)
  | DeleteAlert (text : string).

Section Engine.
(** [getTime value] stands for [new Date(value).getTime()]; [formatDate]
    for the function of that name (page.tsx 160-170), whose text depends
    on the locale data and the time zone of the engine; [confirm] for the
    answer of the user to [window.confirm]; [db_delete] for the error, if
    any, the collaborator answers to the delete call. *)
Variable getTime : string -> number.
Variable formatDate : string -> string.
Variable confirm : string -> bool.
Variable db_delete : string -> option JsError.

(** page.tsx 189-218, given the answer of the collaborator: the state once
    the effect has settled, and what it wrote to the console. *)
Definition fetchTrades (response : ListResponse) (s : AppState)
    : AppState * list (Event Payload) :=
  let s1 := setIsLoading true s in
  match list_error response with
  | Some fetchErr =>
      (setIsLoading false
         (setError
            (Some (if instanceofError fetchErr then message fetchErr
                   else "Failed to load trades."))
            s1),
       [ConsoleError fetchErr])
  | None =>
      let mappedTrades :=
        match list_data response with
        | Some rows => map mapRowToTrade rows
        | None => []
        end in
      (setIsLoading false
         (setError None
            (setTrades (sortTradesByDateDesc getTime mappedTrades) s1)),
       [])
  end.

(** The question put to the user (page.tsx 482-485). *)
Definition confirmationMessage (key : string) (trades : list Trade)
    : string :=
  match find (fun item => String.eqb (id item) key) trades with
  | Some trade =>
      ("Delete trade " ++ pair trade ++ " on " ++ formatDate (date trade)
       ++ "? This cannot be undone.")%string
  | None => "Delete this trade? This cannot be undone."
  end.

(** page.tsx 481-510 *)
Definition handleDelete (key : string) (s : AppState)
    : AppState * list DeleteEvent :=
  let text := confirmationMessage key (trades s) in
  if negb (confirm text) then (s, [Confirm text])
  else
    match db_delete key with
    | Some deleteErr =>
        (s, [Confirm text; DbDelete key; DeleteConsoleError deleteErr;
             DeleteAlert
               (if instanceofError deleteErr then message deleteErr
                else "Failed to delete trade. Please try again.")])
    | None =>
        (setTrades
           (filter (fun item => negb (String.eqb (id item) key)) (trades s))
           s,
         [Confirm text; DbDelete key])
    end.
End Engine.

End PageUI.

(** ** The rest of the component (part_000) *)

Module LegacyUI.

Import Legacy.

Section Engine.
Variable formatDate : string -> string.
Variable confirm : string -> bool.

(** The question put to the user (part_000 303-306). *)
Definition confirmationMessage (key : string) (trades : list Trade)
    : string :=
  match find (fun item => String.eqb (id item) key) trades with
  | Some trade =>
      ("Delete trade " ++ pair trade ++ " on " ++ formatDate (date trade)
       ++ "? This cannot be undone.")%string
  | None => "Delete this trade? This cannot be undone."
  end.

(** part_000 302-311: the state after the handler and the question it
    asked. *)
Definition handleDelete (key : string) (s : AppState)
    : AppState * list string :=
  let text := confirmationMessage key (trades s) in
  if confirm text
  then (setTrades
          (filter (fun item => negb (String.eqb (id item) key)) (trades s))
          s,
        [text])
  else (s, [text]).
End Engine.

End LegacyUI.

(** ** Notions used to state what the component does *)

Module Reading.

Import Page.

(** The field a sort key orders by, and whether it orders upwards. *)
Definition sortValue (getTime : string -> number) (key : SortKey)
    (t : Trade) : number :=
  match key with
  | date_desc | date_asc => getTime (date t)
  | pnl_desc | pnl_asc => pnl t
  | size_desc | size_asc => positionSize t
  end.

Definition ascending (key : SortKey) : bool :=
  match key with
  | date_asc | pnl_asc | size_asc => true
  | date_desc | pnl_desc | size_desc => false
  end.

(** The calls of the collaborator among the effects of a submission. *)
Definition isCall (ev : Event Payload) : bool :=
  match ev with
  | DbInsert _ | DbUpdate _ _ => true
  | Alert _ | ConsoleError _ => false
  end.

(** A collaborator that stores the payload as it is and answers the stored
    row under the identifier [key]. *)
Definition storedRow (key : string) (p : Payload) : TradeRow :=
  {| row_id := key;
     row_pair := payload_pair p;
     row_direction := payload_direction p;
     row_strategy := payload_strategy p;
     entry_price := RawNumber (payload_entry_price p);
     exit_price := RawNumber (payload_exit_price p);
     row_pnl := RawNumber (payload_pnl p);
     position_size := RawNumber (payload_position_size p);
     row_sentiment := payload_sentiment p;
     trade_date := payload_trade_date p |}.

Definition stores (key : string) (p : Payload) : Response :=
  {| data := Some (storedRow key p); error := None |}.

(** Two Numbers with the same value: equal, or zeros of either sign. *)
Definition isZero (x : number) : bool :=
  match x with
  | S754_zero _ => true
  | _ => false
  end.

(** [x] is the positive Number of value [M / 2^g], held with a mantissa of
    53 bits. *)
Definition hasValue (x : number) (M g : Z) : Prop :=
  exists (m : positive) (e : Z),
    x = S754_finite false m e
    /\ 2 ^ 52 <= Zpos m < 2 ^ 53
    /\ 0 <= e + g
    /\ Zpos m * 2 ^ (e + g) = M.

End Reading.

(** ** Sample inputs, used to evaluate the definitions *)

Module Samples.

Definition today : string := "2024-04-12".

(** A form filled with the first sample trade. *)
Definition filledForm : TradeFormData :=
  {| form_pair := "BTC / USDT";
     form_direction := Long;
     form_strategy := "Trend Break";
     form_entryPrice := "61250";
     form_exitPrice := "63100";
     form_positionSize := "0.5";
     form_date := "2024-04-12";
     form_sentiment := "high conviction" |}.

(** The same form with the pair left blank. *)
Definition blankPairForm : TradeFormData :=
  {| form_pair := "   ";
     form_direction := Long;
     form_strategy := "Trend Break";
     form_entryPrice := "61250";
     form_exitPrice := "63100";
     form_positionSize := "0.5";
     form_date := "2024-04-12";
     form_sentiment := "" |}.

(** The same form with an entry price that is no number. *)
Definition garbledForm : TradeFormData :=
  {| form_pair := "BTC / USDT";
     form_direction := Long;
     form_strategy := "Trend Break";
     form_entryPrice := "abc";
     form_exitPrice := "63100";
     form_positionSize := "0.5";
     form_date := "2024-04-12";
     form_sentiment := "" |}.

Definition payload : Page.Payload :=
  {| Page.payload_pair := "BTC / USDT";
     Page.payload_direction := Long;
     Page.payload_strategy := "Trend Break";
     Page.payload_entry_price := ofZ 61250;
     Page.payload_exit_price := ofZ 63100;
     Page.payload_position_size := ofDecimal false 5 (-1);
     Page.payload_pnl := ofZ 925;
     Page.payload_sentiment := Some "high conviction";
     Page.payload_trade_date := "2024-04-12" |}.

(** A collaborator that stores nothing and reports no error. *)
Definition silent : Page.Response :=
  {| Page.data := None; Page.error := None |}.

Definition pageState (formData : TradeFormData) : Page.AppState :=
  {| Page.trades := Legacy.initialTrades;
     Page.isLoading := false;
     Page.loadError := None;
     Page.isModalOpen := true;
     Page.editingTradeId := None;
     Page.formData := formData;
     Page.showAllTrades := false;
     Page.pageSize := 5;
     Page.filters := Page.createDefaultFilters;
     Page.sortKey := Page.date_desc;
     Page.isSubmitting := false |}.

Definition pageSubmit (formData : TradeFormData)
    : Page.AppState * list (Event Page.Payload) :=
  Page.handleSubmit isoDateTime today (fun _ => silent) (fun _ _ => silent)
    (pageState formData).

Definition legacyState (formData : TradeFormData) : Legacy.AppState :=
  {| Legacy.trades := Legacy.initialTrades;
     Legacy.isModalOpen := true;
     Legacy.editingTradeId := None;
     Legacy.formData := formData;
     Legacy.showAllTrades := false;
     Legacy.pageSize := 5 |}.

Definition createdTrade : Trade :=
  {| id := "1712880000000";
     pair := "BTC / USDT";
     direction := Long;
     strategy := "Trend Break";
     entryPrice := ofZ 61250;
     exitPrice := ofZ 63100;
     pnl := ofZ 925;
     date := "2024-04-12";
     sentiment := "high conviction";
     positionSize := ofDecimal false 5 (-1) |}.

(** A stored row whose numeric fields come in the three shapes. *)
Definition row : Page.TradeRow :=
  {| Page.row_id := "7";
     Page.row_pair := "ETH / USDT";
     Page.row_direction := Short;
     Page.row_strategy := "Mean Revert";
     Page.entry_price := Page.RawString "3120";
     Page.exit_price := Page.RawNumber (ofZ 3040);
     Page.row_pnl := Page.RawString "n/a";
     Page.position_size := Page.RawNull;
     Page.row_sentiment := None;
     Page.trade_date := "2024-04-10" |}.

(** The first two sample trades of the in-memory journal. *)
Definition btcLong : Trade := nth 0 Legacy.initialTrades createdTrade.
Definition ethShort : Trade := nth 1 Legacy.initialTrades createdTrade.

(** A trade that closed flat, and one whose date is not a date. *)
Definition flatTrade : Trade :=
  {| id := "5";
     pair := "SOL / USDT";
     direction := Long;
     strategy := "Breakout";
     entryPrice := ofZ 142;
     exitPrice := ofZ 142;
     pnl := zero;
     date := "2024-04-07";
     sentiment := "";
     positionSize := ofZ 30 |}.

Definition undatedTrade : Trade :=
  {| id := "6";
     pair := "SOL / USDT";
     direction := Long;
     strategy := "Breakout";
     entryPrice := ofZ 142;
     exitPrice := ofZ 136;
     pnl := ofZ (-180);
     date := "n/a";
     sentiment := "";
     positionSize := ofZ 30 |}.

Definition fromNewYear : Page.TradeFilters :=
  {| Page.filter_pair := "";
     Page.filter_direction := Page.All;
     Page.filter_strategy := "";
     Page.startDate := "2024-01-01";
     Page.endDate := "" |}.

Definition midApril : Page.TradeFilters :=
  {| Page.filter_pair := "";
     Page.filter_direction := Page.All;
     Page.filter_strategy := "";
     Page.startDate := "2024-04-05";
     Page.endDate := "2024-04-11" |}.

Definition blankTexts : Page.TradeFilters :=
  {| Page.filter_pair := "  ";
     Page.filter_direction := Page.Only Long;
     Page.filter_strategy := " ";
     Page.startDate := "";
     Page.endDate := "" |}.

Definition btcOnly : Page.TradeFilters :=
  {| Page.filter_pair := " btc ";
     Page.filter_direction := Page.All;
     Page.filter_strategy := "";
     Page.startDate := "";
     Page.endDate := "" |}.

End Samples.

(** ** Further sample inputs *)

Module Cases.

Definition offline : JsError :=
  {| instanceofError := true; message := "offline" |}.

(** A collaborator that refuses every call. *)
Definition refuses : Page.Response :=
  {| Page.data := None; Page.error := Some offline |}.

(** The filled form, opened to edit the second sample trade. *)
Definition editState : Page.AppState :=
  {| Page.trades := Legacy.initialTrades;
     Page.isLoading := false;
     Page.loadError := None;
     Page.isModalOpen := true;
     Page.editingTradeId := Some "2";
     Page.formData := Samples.filledForm;
     Page.showAllTrades := false;
     Page.pageSize := 5;
     Page.filters := Page.createDefaultFilters;
     Page.sortKey := Page.date_desc;
     Page.isSubmitting := false |}.

Definition legacyEditState : Legacy.AppState :=
  {| Legacy.trades := Legacy.initialTrades;
     Legacy.isModalOpen := true;
     Legacy.editingTradeId := Some "2";
     Legacy.formData := Samples.filledForm;
     Legacy.showAllTrades := false;
     Legacy.pageSize := 5 |}.

Definition rows : list Page.TradeRow :=
  [Samples.row; Reading.storedRow "9" Samples.payload].

Definition listed : PageUI.ListResponse :=
  {| PageUI.list_data := Some rows; PageUI.list_error := None |}.

Definition unlisted : PageUI.ListResponse :=
  {| PageUI.list_data := None; PageUI.list_error := Some offline |}.

Definition blankOnly : Page.TradeFilters :=
  {| Page.filter_pair := "  ";
     Page.filter_direction := Page.All;
     Page.filter_strategy := " ";
     Page.startDate := "";
     Page.endDate := "" |}.

Definition upperBtc : Page.TradeFilters :=
  {| Page.filter_pair := "BTC";
     Page.filter_direction := Page.All;
     Page.filter_strategy := "";
     Page.startDate := "";
     Page.endDate := "" |}.

Definition lowerBtc : Page.TradeFilters :=
  {| Page.filter_pair := "btc";
     Page.filter_direction := Page.All;
     Page.filter_strategy := "";
     Page.startDate := "";
     Page.endDate := "" |}.

(** Bounds that are no dates. *)
Definition garbledBounds : Page.TradeFilters :=
  {| Page.filter_pair := "";
     Page.filter_direction := Page.All;
     Page.filter_strategy := "";
     Page.startDate := "soon";
     Page.endDate := "later" |}.

(** A range whose end lies before its start. *)
Definition inverted : Page.TradeFilters :=
  {| Page.filter_pair := "";
     Page.filter_direction := Page.All;
     Page.filter_strategy := "";
     Page.startDate := "2024-04-11";
     Page.endDate := "2024-04-05" |}.

(** Stand-ins for the date formatter and for the answers of the user. *)
Definition plainDate (value : string) : string := value.
Definition yes (text : string) : bool := true.
Definition no (text : string) : bool := false.
Definition succeeds (key : string) : option JsError := None.

(** A user who confirms one question and declines every other one. *)
Definition confirmsOnly (question text : string) : bool :=
  String.eqb text question.

Definition ethQuestion : string :=
  "Delete trade ETH / USDT on 2024-04-10? This cannot be undone.".

Definition newQuestion : string :=
  "Delete trade BTC / USDT on 2024-04-12? This cannot be undone.".

(** Forty trades, twenty-three of them winning. *)
Definition fortyTrades : list Trade :=
  repeat Samples.btcLong 23 ++ repeat Samples.flatTrade 17.

Definition solLong : Trade := nth 2 Legacy.initialTrades Samples.createdTrade.
Definition btcShort : Trade := nth 3 Legacy.initialTrades Samples.createdTrade.

End Cases.

(** * Properties *)

(** ** The definitions at work *)

Example parseFloat_samples :
  parseFloat "61250" = ofZ 61250
  /\ parseFloat "  0.5 lots" = ofDecimal false 5 (-1)
  /\ parseFloat "-.5e1" = ofZ (-5)
  /\ parseFloat "1e" = ofZ 1
  /\ parseFloat "-0" = S754_zero true
  /\ parseFloat "" = NaN
  /\ parseFloat "." = NaN
  /\ parseFloat "abc" = NaN
  /\ parseFloat "-Infinity" = S754_infinity true
  /\ parseFloat "1e999" = Infinity.
Proof. vm_compute. repeat split. Qed.

Example number_arithmetic_rounds :
  (ofDecimal false 1 (-1) + ofDecimal false 2 (-1))%num
  = ofDecimal false 30000000000000004 (-17)
  /\ ((ofNat 29 / ofNat 200) * ofZ 100)%num
     = ofDecimal false 14499999999999998 (-15).
Proof. vm_compute. repeat split. Qed.

Example Math_round_samples :
  Math_round (ofDecimal false 145 (-1)) = ofZ 15
  /\ Math_round (ofDecimal true 145 (-1)) = ofZ (-14)
  /\ Math_round (ofDecimal true 5 (-1)) = S754_zero true
  /\ Math_round (ofDecimal false 49999999999999994 (-17)) = zero
  /\ Math_round (ofDecimal false 14499999999999998 (-15)) = ofZ 14.
Proof. vm_compute. repeat split. Qed.

Example string_samples :
  trim "  btc " = "btc"
  /\ trim "   " = ""
  /\ toLowerCase "BTC / Usdt" = "btc / usdt"
  /\ includes "btc / usdt" "c / u" = true
  /\ includes "btc / usdt" "eth" = false.
Proof. vm_compute. repeat split. Qed.

Example isoDateTime_samples :
  isoDateTime "2024-04-12" = ofZ 1712880000000
  /\ isoDateTime "1970-01-01" = zero
  /\ isoDateTime "2023-02-29" = NaN
  /\ isoDateTime "n/a" = NaN
  /\ isoDateTime "" = NaN.
Proof. vm_compute. repeat split. Qed.

Example view_samples :
  map id (Page.sortedTrades isoDateTime Legacy.initialTrades Page.pnl_desc)
  = ["2"; "1"; "4"; "3"]
  /\ map id (Page.sortedTrades isoDateTime Legacy.initialTrades Page.pnl_asc)
     = ["3"; "4"; "1"; "2"]
  /\ map id (Page.sortedTrades isoDateTime Legacy.initialTrades Page.date_asc)
     = ["4"; "3"; "2"; "1"]
  /\ map id (Page.filteredTrades isoDateTime Legacy.initialTrades
               Samples.btcOnly)
     = ["1"; "4"]
  /\ map id (Page.filteredTrades isoDateTime Legacy.initialTrades
               Samples.midApril)
     = ["2"; "3"]
  /\ map id (Page.visibleTrades false 2 Legacy.initialTrades) = ["1"; "2"]
  /\ map id (Page.visibleTrades true 2 Legacy.initialTrades)
     = ["1"; "2"; "3"; "4"].
Proof. vm_compute. repeat split. Qed.

Example statistics_samples :
  Page.totalPnL Legacy.initialTrades = ofZ 2633
  /\ Page.winningTrades Legacy.initialTrades = 3%nat
  /\ Page.losingTrades Legacy.initialTrades = 1%nat
  /\ Page.winRate Legacy.initialTrades = ofZ 75
  /\ Page.avgPnl Legacy.initialTrades = ofDecimal false 65825 (-2)
  /\ Page.winRate (repeat Samples.btcLong 29 ++ repeat Samples.flatTrade 171)
     = ofZ 14.
Proof. vm_compute. repeat split. Qed.

(** ** Numbers: comparisons with zero *)

Lemma isFinite_not_NaN (x : number) : isFinite x = true -> isNaN x = false.
Proof. destruct x; simpl; congruence. Qed.

Lemma le_zero_iff_not_gt (x : number) :
  isNaN x = false -> (x <=? zero)%num = negb (x >? zero)%num.
Proof.
  destruct x as [s | s | | s m e]; simpl; try congruence; intros _;
    destruct s; reflexivity.
Qed.

Lemma truthy_false_iff (s : string) : truthy s = false <-> s = "".
Proof. destruct s; simpl; split; congruence. Qed.

Lemma truthy_true_iff (s : string) : truthy s = true <-> s <> "".
Proof. destruct s; simpl; split; congruence. Qed.

(** ** calculatePnL *)

Lemma calculatePnL_guarded (d : TradeDirection) (entry exit size : number) :
  isFinite entry = false \/ isFinite exit = false \/ isFinite size = false ->
  calculatePnL d entry exit size = zero.
Proof.
  unfold calculatePnL.
  intros [H | [H | H]]; rewrite H; simpl;
    rewrite ?orb_true_r; reflexivity.
Qed.

Lemma calculatePnL_finite (d : TradeDirection) (entry exit size : number) :
  isFinite entry = true -> isFinite exit = true -> isFinite size = true ->
  calculatePnL d entry exit size = Spec.profitLoss d entry exit size.
Proof.
  unfold calculatePnL, Spec.profitLoss.
  intros -> -> ->; simpl. destruct d; reflexivity.
Qed.

(** ** The form validation, shared by both handlers *)

(** The test the two handlers and the preview make on the three numeric
    texts of the form. *)
Lemma invalidForm_tests (fd : TradeFormData) :
  Spec.invalidForm fd <->
  negb (truthy (trim (form_pair fd))) = true
  \/ negb (truthy (trim (form_strategy fd))) = true
  \/ negb (isFinite (parseFloat (form_entryPrice fd)))
     || negb (isFinite (parseFloat (form_exitPrice fd))) = true
  \/ negb (isFinite (parseFloat (form_positionSize fd)))
     || (parseFloat (form_positionSize fd) <=? zero)%num = true.
Proof.
  unfold Spec.invalidForm, Spec.parses.
  rewrite !negb_true_iff, !truthy_false_iff, !orb_true_iff, !negb_true_iff.
  assert (Hsize :
    ~ (isFinite (parseFloat (form_positionSize fd)) = true
       /\ (parseFloat (form_positionSize fd) >? zero)%num = true)
    <-> isFinite (parseFloat (form_positionSize fd)) = false
        \/ (parseFloat (form_positionSize fd) <=? zero)%num = true).
  { destruct (isFinite (parseFloat (form_positionSize fd))) eqn:Hf.
    - rewrite (le_zero_iff_not_gt _ (isFinite_not_NaN _ Hf)).
      destruct (parseFloat (form_positionSize fd) >? zero)%num; simpl;
        intuition congruence.
    - intuition congruence. }
  rewrite Hsize. tauto.
Qed.

Section PageSubmit.
Variable getTime : string -> number.
Variable today : string.
Variable db_insert : Page.Payload -> Page.Response.
Variable db_update : string -> Page.Payload -> Page.Response.

Let handleSubmit := Page.handleSubmit getTime today db_insert db_update.

Lemma Page_handleSubmit_invalid (s : Page.AppState) :
  Spec.invalidForm (Page.formData s) ->
  exists text, handleSubmit s = (s, [Alert text]).
Proof.
  intros H. apply invalidForm_tests in H.
  unfold handleSubmit, Page.handleSubmit.
  destruct (negb (truthy (trim (form_pair (Page.formData s))))) eqn:E1;
    [eexists; reflexivity|].
  destruct (negb (truthy (trim (form_strategy (Page.formData s))))) eqn:E2;
    [eexists; reflexivity|].
  destruct (negb (isFinite (parseFloat (form_entryPrice (Page.formData s))))
            || negb (isFinite (parseFloat (form_exitPrice (Page.formData s)))))
    eqn:E3; [eexists; reflexivity|].
  destruct (negb (isFinite (parseFloat (form_positionSize (Page.formData s))))
            || (parseFloat (form_positionSize (Page.formData s)) <=? zero)%num)
    eqn:E4; [eexists; reflexivity|].
  exfalso. intuition congruence.
Qed.

(** What a payload that reaches the collaborator looks like. *)
Lemma Page_handleSubmit_payload (s : Page.AppState)
    (ev : Event Page.Payload) (p : Page.Payload) :
  In ev (snd (handleSubmit s)) ->
  ev = DbInsert p \/ (exists key, ev = DbUpdate key p) ->
  isFinite (Page.payload_entry_price p) = true
  /\ isFinite (Page.payload_exit_price p) = true
  /\ isFinite (Page.payload_position_size p) = true
  /\ Page.payload_pnl p
     = calculatePnL (Page.payload_direction p) (Page.payload_entry_price p)
         (Page.payload_exit_price p) (Page.payload_position_size p).
Proof.
  unfold handleSubmit, Page.handleSubmit.
  destruct (negb (truthy (trim (form_pair (Page.formData s))))) eqn:E1.
  { simpl. intros [<- | []] [H | [k H]]; discriminate. }
  destruct (negb (truthy (trim (form_strategy (Page.formData s))))) eqn:E2.
  { simpl. intros [<- | []] [H | [k H]]; discriminate. }
  destruct (negb (isFinite (parseFloat (form_entryPrice (Page.formData s))))
            || negb (isFinite (parseFloat (form_exitPrice (Page.formData s)))))
    eqn:E3.
  { simpl. intros [<- | []] [H | [k H]]; discriminate. }
  destruct (negb (isFinite (parseFloat (form_positionSize (Page.formData s))))
            || (parseFloat (form_positionSize (Page.formData s)) <=? zero)%num)
    eqn:E4.
  { simpl. intros [<- | []] [H | [k H]]; discriminate. }
  apply orb_false_iff in E3 as [E3a E3b].
  apply orb_false_iff in E4 as [E4a E4b].
  apply negb_false_iff in E3a, E3b, E4a.
  rewrite E3a, E3b, E4a.
  destruct (truthyKey (Page.editingTradeId s)) as [key|];
    match goal with
    | |- context [Page.error ?r] => destruct (Page.error r)
    end; simpl;
    intros Hin Hev;
    repeat (destruct Hin as [<- | Hin]; [| try contradiction]);
    destruct Hev as [Hev | [k Hev]]; try discriminate;
    inversion Hev; subst; simpl; auto.
Qed.
End PageSubmit.

Section LegacySubmit.
Variable today : string.
Variable now : string.

Let handleSubmit := Legacy.handleSubmit today now.

Lemma Legacy_handleSubmit_invalid (s : Legacy.AppState) :
  Spec.invalidForm (Legacy.formData s) ->
  exists text, handleSubmit s = (s, [Alert text]).
Proof.
  intros H. apply invalidForm_tests in H.
  unfold handleSubmit, Legacy.handleSubmit.
  destruct (negb (truthy (trim (form_pair (Legacy.formData s))))) eqn:E1;
    [eexists; reflexivity|].
  destruct (negb (truthy (trim (form_strategy (Legacy.formData s))))) eqn:E2;
    [eexists; reflexivity|].
  destruct (negb (isFinite (parseFloat (form_entryPrice (Legacy.formData s))))
            || negb (isFinite (parseFloat (form_exitPrice (Legacy.formData s)))))
    eqn:E3; [eexists; reflexivity|].
  destruct (negb (isFinite (parseFloat (form_positionSize (Legacy.formData s))))
            || (parseFloat (form_positionSize (Legacy.formData s)) <=? zero)%num)
    eqn:E4; [eexists; reflexivity|].
  exfalso. intuition congruence.
Qed.

(** A trade of the collection after the handler either was there before
    or carries the guarded profit/loss of its own finite fields. *)
Lemma Legacy_handleSubmit_trades (s : Legacy.AppState) (t : Trade) :
  In t (Legacy.trades (fst (handleSubmit s))) ->
  In t (Legacy.trades s)
  \/ (isFinite (entryPrice t) = true
      /\ isFinite (exitPrice t) = true
      /\ isFinite (positionSize t) = true
      /\ pnl t = calculatePnL (direction t) (entryPrice t) (exitPrice t)
                   (positionSize t)).
Proof.
  unfold handleSubmit, Legacy.handleSubmit.
  destruct (negb (truthy (trim (form_pair (Legacy.formData s))))) eqn:E1;
    [simpl; auto|].
  destruct (negb (truthy (trim (form_strategy (Legacy.formData s))))) eqn:E2;
    [simpl; auto|].
  destruct (negb (isFinite (parseFloat (form_entryPrice (Legacy.formData s))))
            || negb (isFinite (parseFloat (form_exitPrice (Legacy.formData s)))))
    eqn:E3; [simpl; auto|].
  destruct (negb (isFinite (parseFloat (form_positionSize (Legacy.formData s))))
            || (parseFloat (form_positionSize (Legacy.formData s)) <=? zero)%num)
    eqn:E4; [simpl; auto|].
  apply orb_false_iff in E3 as [E3a E3b].
  apply orb_false_iff in E4 as [E4a E4b].
  apply negb_false_iff in E3a, E3b, E4a.
  rewrite E3a, E3b, E4a.
  destruct (truthyKey (Legacy.editingTradeId s)) as [key|]; simpl.
  - rewrite in_map_iff. intros [t0 [Ht Hin]].
    destruct (String.eqb (id t0) key).
    + right. subst t. simpl. auto.
    + left. subst t. exact Hin.
  - intros [<- | Hin]; [right; simpl; auto | left; exact Hin].
Qed.
End LegacySubmit.

(** ** The derived profit/loss *)

(** C1.  Every payload that create or update hands to the collaborator,
    every trade the in-memory journal stores on create or update, and every
    sample trade carries the profit/loss [(exit - entry) * size] for Long
    and [(entry - exit) * size] for Short, in Number arithmetic; the Long
    sample 61250, 63100, 0.5 gives 925 and the Short sample 3120, 3040, 20
    gives 1600. *)
Theorem C1_profit_loss_formula :
  (forall getTime today db_insert db_update s ev p,
      In ev (snd (Page.handleSubmit getTime today db_insert db_update s)) ->
      ev = DbInsert p \/ (exists key, ev = DbUpdate key p) ->
      Page.payload_pnl p
      = Spec.profitLoss (Page.payload_direction p)
          (Page.payload_entry_price p) (Page.payload_exit_price p)
          (Page.payload_position_size p))
  /\ (forall today now s t,
      In t (Legacy.trades (fst (Legacy.handleSubmit today now s))) ->
      In t (Legacy.trades s) \/ Spec.profitLossHolds t)
  /\ Forall Spec.profitLossHolds Legacy.initialTrades
  /\ calculatePnL Long (ofZ 61250) (ofZ 63100) (ofDecimal false 5 (-1))
     = ofZ 925
  /\ calculatePnL Short (ofZ 3120) (ofZ 3040) (ofZ 20) = ofZ 1600.
Proof.
  split; [| split; [| split; [| split]]].
  - intros getTime today db_insert db_update s ev p Hin Hev.
    destruct (Page_handleSubmit_payload _ _ _ _ _ _ _ Hin Hev)
      as (He & Hx & Hs & ->).
    now apply calculatePnL_finite.
  - intros today now s t Hin.
    destruct (Legacy_handleSubmit_trades _ _ _ _ Hin)
      as [Hold | (He & Hx & Hs & Hp)]; [left; exact Hold | right].
    unfold Spec.profitLossHolds. rewrite Hp.
    now apply calculatePnL_finite.
  - unfold Legacy.initialTrades, Spec.profitLossHolds.
    repeat constructor.
  - vm_compute. reflexivity.
  - vm_compute. reflexivity.
Qed.

(** C10.  calculatePnL answers exactly 0 as soon as one of entry, exit and
    size is NaN or an infinity, and the profit/loss that create and update
    persist is what calculatePnL answers on the persisted direction, entry,
    exit and size. *)
Theorem C10_calculatePnL_guard :
  (forall d entry exit size,
      isFinite entry = false \/ isFinite exit = false
      \/ isFinite size = false ->
      calculatePnL d entry exit size = zero)
  /\ (forall getTime today db_insert db_update s ev p,
      In ev (snd (Page.handleSubmit getTime today db_insert db_update s)) ->
      ev = DbInsert p \/ (exists key, ev = DbUpdate key p) ->
      Page.payload_pnl p
      = calculatePnL (Page.payload_direction p)
          (Page.payload_entry_price p) (Page.payload_exit_price p)
          (Page.payload_position_size p))
  /\ (forall today now s t,
      In t (Legacy.trades (fst (Legacy.handleSubmit today now s))) ->
      In t (Legacy.trades s)
      \/ pnl t = calculatePnL (direction t) (entryPrice t) (exitPrice t)
                   (positionSize t)).
Proof.
  split; [| split].
  - exact calculatePnL_guarded.
  - intros getTime today db_insert db_update s ev p Hin Hev.
    now destruct (Page_handleSubmit_payload _ _ _ _ _ _ _ Hin Hev)
      as (_ & _ & _ & ->).
  - intros today now s t Hin.
    destruct (Legacy_handleSubmit_trades _ _ _ _ Hin)
      as [Hold | (_ & _ & _ & Hp)]; auto.
Qed.

(** ** The live preview *)

Lemma previewUndefined_test (fd : TradeFormData) :
  Spec.previewUndefined fd <->
  negb (isFinite (parseFloat (form_entryPrice fd)))
  || negb (isFinite (parseFloat (form_exitPrice fd)))
  || negb (isFinite (parseFloat (form_positionSize fd)))
  || (parseFloat (form_positionSize fd) <=? zero)%num = true.
Proof.
  unfold Spec.previewUndefined, Spec.parses.
  rewrite !orb_true_iff, !negb_true_iff. tauto.
Qed.

(** C8.  The preview is undefined ([null]) exactly when the entry text or
    the exit text is unparseable, or the size text is unparseable or
    parses to a value [<= 0]; otherwise it is the profit/loss formula on
    the parsed values.  On an unparseable text the Normalizer gives 0 where
    the preview gives [null]. *)
Theorem C8_preview_undefined :
  forall fd : TradeFormData,
    (calculatedPnL fd = None <-> Spec.previewUndefined fd)
    /\ (~ Spec.previewUndefined fd ->
        calculatedPnL fd
        = Some (Spec.profitLoss (form_direction fd)
                  (parseFloat (form_entryPrice fd))
                  (parseFloat (form_exitPrice fd))
                  (parseFloat (form_positionSize fd))))
    /\ (Spec.parses (form_entryPrice fd) = false ->
        calculatedPnL fd = None
        /\ Page.parseNumericField (Page.RawString (form_entryPrice fd))
           = zero).
Proof.
  intros fd.
  pose proof (previewUndefined_test fd) as Htest.
  unfold calculatedPnL.
  destruct (negb (isFinite (parseFloat (form_entryPrice fd)))
            || negb (isFinite (parseFloat (form_exitPrice fd)))
            || negb (isFinite (parseFloat (form_positionSize fd)))
            || (parseFloat (form_positionSize fd) <=? zero)%num) eqn:E.
  - split; [tauto | split].
    + intros Hn. exfalso. apply Hn, Htest. reflexivity.
    + intros Hp. split; [reflexivity |].
      unfold Spec.parses in Hp. simpl. now rewrite Hp.
  - split; [| split].
    + split; [discriminate |].
      intros Hu. apply Htest in Hu. discriminate.
    + intros _.
      rewrite !orb_false_iff, !negb_false_iff in E.
      destruct E as [[[He Hx] Hs] _].
      now rewrite calculatePnL_finite.
    + intros Hp. unfold Spec.parses in Hp.
      rewrite Hp in E. discriminate.
Qed.

(** ** Validation *)

(** C9.  A submission whose trimmed pair or trimmed strategy is empty,
    whose entry or exit text does not parse to a finite number, or whose
    size text does not parse to a finite number above 0, leaves the whole
    state, the trade collection included, as it was, and its only effect is
    one alert: the collaborator is not called. *)
Theorem C9_validation_failure_is_atomic :
  (forall getTime today db_insert db_update s,
      Spec.invalidForm (Page.formData s) ->
      exists text,
        Page.handleSubmit getTime today db_insert db_update s
        = (s, [Alert text]))
  /\ (forall today now s,
      Spec.invalidForm (Legacy.formData s) ->
      exists text, Legacy.handleSubmit today now s = (s, [Alert text])).
Proof.
  split.
  - intros. now apply Page_handleSubmit_invalid.
  - intros. now apply Legacy_handleSubmit_invalid.
Qed.

(** ** The Normalizer *)

(** C2.  The Normalizer is a total function: a numeric field that is a
    number passes through unchanged, a text is parsed as a decimal number,
    a text that does not parse and an absent field become 0, and an absent
    sentiment becomes the empty string. *)
Theorem C2_normalizer_total :
  (forall field, Page.parseNumericField field = Spec.coerceNumeric field)
  /\ (forall n, Page.parseNumericField (Page.RawNumber n) = n)
  /\ (forall text, Spec.parses text = true ->
        Page.parseNumericField (Page.RawString text) = parseFloat text)
  /\ (forall text, Spec.parses text = false ->
        Page.parseNumericField (Page.RawString text) = zero)
  /\ Page.parseNumericField Page.RawNull = zero
  /\ (forall text,
        isFinite (Page.parseNumericField (Page.RawString text)) = true)
  /\ (forall row,
        entryPrice (Page.mapRowToTrade row)
        = Spec.coerceNumeric (Page.entry_price row)
        /\ exitPrice (Page.mapRowToTrade row)
           = Spec.coerceNumeric (Page.exit_price row)
        /\ pnl (Page.mapRowToTrade row)
           = Spec.coerceNumeric (Page.row_pnl row)
        /\ positionSize (Page.mapRowToTrade row)
           = Spec.coerceNumeric (Page.position_size row)
        /\ (Page.row_sentiment row = None ->
            sentiment (Page.mapRowToTrade row) = "")
        /\ (forall text, Page.row_sentiment row = Some text ->
            sentiment (Page.mapRowToTrade row) = text)).
Proof.
  assert (Hc : forall field,
             Page.parseNumericField field = Spec.coerceNumeric field).
  { intros [n | text |]; reflexivity. }
  split; [exact Hc |].
  split; [reflexivity |].
  split; [intros text H; simpl; unfold Spec.parses in H; now rewrite H |].
  split; [intros text H; simpl; unfold Spec.parses in H; now rewrite H |].
  split; [reflexivity |].
  split; [intros text; simpl;
          destruct (isFinite (parseFloat text)) eqn:E; auto |].
  intros row. simpl. rewrite !Hc.
  repeat split.
  - intros ->. reflexivity.
  - intros text ->. reflexivity.
Qed.

(** ** Strings: containment *)

Lemma prefix_iff (sub s : string) :
  String.prefix sub s = true <-> exists after, s = (sub ++ after)%string.
Proof.
  revert s. induction sub as [| c sub IH]; intros s.
  - split; [intros _; now exists s | intros _; destruct s; reflexivity].
  - destruct s as [| c' s]; simpl.
    + split; [discriminate | intros [after H]; discriminate].
    + destruct (ascii_dec c c') as [<- | Hne].
      * rewrite IH. split; intros [after H]; exists after.
        -- now rewrite H.
        -- now injection H.
      * split; [discriminate |].
        intros [after H]. injection H as H1 H2. congruence.
Qed.

Lemma includes_iff (s sub : string) :
  includes s sub = true <-> Spec.Substring sub s.
Proof.
  unfold Spec.Substring.
  induction s as [| c s IH].
  - change (includes "" sub)
      with (if String.prefix sub "" then true else false).
    destruct (String.prefix sub "") eqn:E.
    + split; [intros _ | reflexivity].
      apply prefix_iff in E as [after E]. now exists "", after.
    + split; [discriminate |].
      intros [[| b before] [after H]]; simpl in H.
      * assert (String.prefix sub "" = true)
          by (apply prefix_iff; now exists after).
        congruence.
      * discriminate.
  - change (includes (String c s) sub)
      with (if String.prefix sub (String c s) then true else includes s sub).
    destruct (String.prefix sub (String c s)) eqn:E.
    + split; [intros _ | reflexivity].
      apply prefix_iff in E as [after E]. now exists "", after.
    + rewrite IH. split.
      * intros (before & after & H). exists (String c before), after.
        simpl. now rewrite H.
      * intros ([| b before] & after & H); simpl in H.
        -- assert (String.prefix sub (String c s) = true)
             by (apply prefix_iff; now exists after).
           congruence.
        -- injection H as _ H. now exists before, after.
Qed.

Lemma includes_empty (s : string) : includes s "" = true.
Proof. destruct s; reflexivity. Qed.

(** The text check of the callback rejects nothing exactly when the text
    predicate of the specification holds. *)
Lemma text_check_iff (filterText field : string) :
  truthy filterText
  && negb (includes (toLowerCase field) (toLowerCase (trim filterText)))
  = false
  <-> Spec.textPredicate filterText field.
Proof.
  unfold Spec.textPredicate, Spec.textActive.
  rewrite <- includes_iff.
  destruct (includes (toLowerCase field) (toLowerCase (trim filterText)))
    eqn:E.
  - rewrite andb_false_r. tauto.
  - rewrite andb_true_r. split.
    + intros Ht Hactive. exfalso.
      apply truthy_false_iff in Ht. subst filterText. now apply Hactive.
    + intros H. destruct (trim filterText) eqn:Et.
      * simpl in E. rewrite includes_empty in E. discriminate.
      * exfalso. assert (false = true) by (apply H; discriminate).
        discriminate.
Qed.

Lemma textPredicate_blank (filterText field : string) :
  trim filterText = "" -> Spec.textPredicate filterText field.
Proof. intros H Hactive. now elim Hactive. Qed.

Lemma TradeDirection_eqb_iff (a b : TradeDirection) :
  TradeDirection_eqb a b = true <-> a = b.
Proof. destruct a, b; simpl; split; congruence. Qed.

(** ** Filtering *)

Section Filtering.
Variable getTime : string -> number.

Let filterCallback := Page.filterCallback getTime.
Let filteredTrades := Page.filteredTrades getTime.

(** The callback keeps a trade exactly when the four predicates hold. *)
Lemma filterCallback_iff (f : Page.TradeFilters) (t : Trade) :
  filterCallback f t = true <->
  Spec.textPredicate (Page.filter_pair f) (pair t)
  /\ Spec.textPredicate (Page.filter_strategy f) (strategy t)
  /\ Spec.directionPredicate (Page.filter_direction f) t
  /\ Spec.dateRange getTime (Page.startDate f) (Page.endDate f) t = true.
Proof.
  rewrite <- !text_check_iff.
  unfold filterCallback, Page.filterCallback.
  unfold Spec.dateRange, Spec.parseable, Spec.directionPredicate.
  destruct (truthy (Page.filter_pair f) && _); [intuition discriminate |].
  destruct (truthy (Page.filter_strategy f) && _);
    [intuition discriminate |].
  destruct (Page.filter_direction f) as [d |].
  - rewrite <- TradeDirection_eqb_iff.
    destruct (TradeDirection_eqb (direction t) d); simpl;
      [| intuition discriminate].
    destruct (truthy (Page.startDate f)),
             (isNaN (getTime (Page.startDate f))),
             (getTime (date t) <? getTime (Page.startDate f))%num,
             (truthy (Page.endDate f)),
             (isNaN (getTime (Page.endDate f))),
             (getTime (date t) >? getTime (Page.endDate f))%num;
      simpl; intuition discriminate.
  - destruct (truthy (Page.startDate f)),
             (isNaN (getTime (Page.startDate f))),
             (getTime (date t) <? getTime (Page.startDate f))%num,
             (truthy (Page.endDate f)),
             (isNaN (getTime (Page.endDate f))),
             (getTime (date t) >? getTime (Page.endDate f))%num;
      simpl; intuition discriminate.
Qed.

Lemma filterCallback_disabled (f : Page.TradeFilters) (t : Trade) :
  Page.filter_pair f = "" -> Page.filter_strategy f = "" ->
  Page.filter_direction f = Page.All ->
  Page.startDate f = "" -> Page.endDate f = "" ->
  filterCallback f t = true.
Proof.
  intros Hp Hs Hd Hb He.
  unfold filterCallback, Page.filterCallback.
  rewrite Hp, Hs, Hd, Hb, He. reflexivity.
Qed.

Lemma filter_all_true (p : Trade -> bool) (l : list Trade) :
  (forall t, p t = true) -> filter p l = l.
Proof.
  intros H. induction l as [| t l IH]; simpl; [reflexivity |].
  now rewrite H, IH.
Qed.
End Filtering.

(** C4.  A trade is in the filtered result exactly when it is in the input
    and satisfies each of the pair, strategy, direction and date-range
    predicates, each depending on its own part of the filter only: it is
    kept by the whole filter exactly when it is kept by the filter reduced
    to each predicate in turn.  With every filter disabled the result is
    the input list itself, in its order. *)
Theorem C4_filter_conjunctive :
  forall (getTime : string -> number) (trades : list Trade)
         (f : Page.TradeFilters),
    (forall t,
        In t (Page.filteredTrades getTime trades f) <->
        In t trades
        /\ Spec.textPredicate (Page.filter_pair f) (pair t)
        /\ Spec.textPredicate (Page.filter_strategy f) (strategy t)
        /\ Spec.directionPredicate (Page.filter_direction f) t
        /\ Spec.dateRange getTime (Page.startDate f) (Page.endDate f) t
           = true)
    /\ (forall t,
        In t (Page.filteredTrades getTime trades f) <->
        In t (Page.filteredTrades getTime trades (Spec.onlyPair f))
        /\ In t (Page.filteredTrades getTime trades (Spec.onlyStrategy f))
        /\ In t (Page.filteredTrades getTime trades (Spec.onlyDirection f))
        /\ In t (Page.filteredTrades getTime trades (Spec.onlyDates f)))
    /\ (Page.filter_pair f = "" -> Page.filter_strategy f = "" ->
        Page.filter_direction f = Page.All ->
        Page.startDate f = "" -> Page.endDate f = "" ->
        Page.filteredTrades getTime trades f = trades)
    /\ Page.filteredTrades getTime trades Page.createDefaultFilters = trades.
Proof.
  intros getTime trades f.
  assert (Hblank : forall field, Spec.textPredicate "" field)
    by (intros field; now apply textPredicate_blank).
  split; [| split; [| split]].
  - intros t. unfold Page.filteredTrades.
    rewrite filter_In, filterCallback_iff. tauto.
  - intros t. unfold Page.filteredTrades.
    rewrite !filter_In, !filterCallback_iff.
    cbn [Spec.onlyPair Spec.onlyStrategy Spec.onlyDirection Spec.onlyDates
         Page.filter_pair Page.filter_strategy Page.filter_direction
         Page.startDate Page.endDate Spec.directionPredicate].
    assert (Hd : forall e, Spec.dateRange getTime "" "" e = true)
      by reflexivity.
    rewrite !Hd.
    specialize (Hblank (pair t)) as H1.
    specialize (Hblank (strategy t)) as H2.
    tauto.
  - intros Hp Hs Hd Hb He. unfold Page.filteredTrades.
    apply filter_all_true. intros t.
    now apply filterCallback_disabled.
  - unfold Page.filteredTrades. apply filter_all_true. intros t.
    now apply filterCallback_disabled.
Qed.

Lemma dateRange_absent (getTime : string -> number) (t : Trade) :
  Spec.dateRange getTime "" "" t = true.
Proof. reflexivity. Qed.

(** The filter reduced to its pair text, and to its strategy text, on the
    input list. *)
Lemma filteredTrades_onlyPair (getTime : string -> number)
    (trades : list Trade) (f : Page.TradeFilters) (t : Trade) :
  In t (Page.filteredTrades getTime trades (Spec.onlyPair f)) <->
  In t trades /\ Spec.textPredicate (Page.filter_pair f) (pair t).
Proof.
  unfold Page.filteredTrades. rewrite filter_In, filterCallback_iff.
  cbn [Spec.onlyPair Page.filter_pair Page.filter_strategy
       Page.filter_direction Page.startDate Page.endDate
       Spec.directionPredicate].
  rewrite dateRange_absent.
  pose proof (textPredicate_blank "" (strategy t) eq_refl). tauto.
Qed.

Lemma filteredTrades_onlyStrategy (getTime : string -> number)
    (trades : list Trade) (f : Page.TradeFilters) (t : Trade) :
  In t (Page.filteredTrades getTime trades (Spec.onlyStrategy f)) <->
  In t trades /\ Spec.textPredicate (Page.filter_strategy f) (strategy t).
Proof.
  unfold Page.filteredTrades. rewrite filter_In, filterCallback_iff.
  cbn [Spec.onlyStrategy Page.filter_pair Page.filter_strategy
       Page.filter_direction Page.startDate Page.endDate
       Spec.directionPredicate].
  rewrite dateRange_absent.
  pose proof (textPredicate_blank "" (pair t) eq_refl). tauto.
Qed.

(** C5.  Of the trades of the input list, the pair text keeps exactly
    those that pass the rule: the text is active when its trimmed form is
    not empty, and an active text is passed when, trimmed and lower-cased,
    it occurs in the lower-cased pair of the trade.  The strategy text obeys
    the same rule on the strategy.  Within the whole filter the two texts
    contribute exactly these two rules.  A text of white space only keeps
    the whole input list, and a trade of the list whose pair contains the
    text is kept. *)
Theorem C5_text_predicates :
  forall (getTime : string -> number) (trades : list Trade)
         (f : Page.TradeFilters),
    (forall t,
        In t (Page.filteredTrades getTime trades (Spec.onlyPair f)) <->
        In t trades
        /\ (Spec.textActive (Page.filter_pair f) ->
            Spec.Substring (toLowerCase (trim (Page.filter_pair f)))
              (toLowerCase (pair t))))
    /\ (forall t,
        In t (Page.filteredTrades getTime trades (Spec.onlyStrategy f)) <->
        In t trades
        /\ (Spec.textActive (Page.filter_strategy f) ->
            Spec.Substring (toLowerCase (trim (Page.filter_strategy f)))
              (toLowerCase (strategy t))))
    /\ (forall t,
        In t (Page.filteredTrades getTime trades f) <->
        In t trades
        /\ (Spec.textActive (Page.filter_pair f) ->
            Spec.Substring (toLowerCase (trim (Page.filter_pair f)))
              (toLowerCase (pair t)))
        /\ (Spec.textActive (Page.filter_strategy f) ->
            Spec.Substring (toLowerCase (trim (Page.filter_strategy f)))
              (toLowerCase (strategy t)))
        /\ In t (Page.filteredTrades getTime trades (Spec.withoutTexts f)))
    /\ (trim (Page.filter_pair f) = "" ->
        Page.filteredTrades getTime trades (Spec.onlyPair f) = trades)
    /\ (trim (Page.filter_strategy f) = "" ->
        Page.filteredTrades getTime trades (Spec.onlyStrategy f) = trades)
    /\ (trim (Page.filter_pair f) = "" ->
        trim (Page.filter_strategy f) = "" ->
        Page.filteredTrades getTime trades f
        = Page.filteredTrades getTime trades (Spec.withoutTexts f))
    /\ (forall t,
        In t trades ->
        Spec.Substring (toLowerCase (trim (Page.filter_pair f)))
          (toLowerCase (pair t)) ->
        In t (Page.filteredTrades getTime trades (Spec.onlyPair f)))
    /\ (forall t,
        In t trades ->
        Spec.Substring (toLowerCase (trim (Page.filter_strategy f)))
          (toLowerCase (strategy t)) ->
        In t (Page.filteredTrades getTime trades (Spec.onlyStrategy f))).
Proof.
  intros getTime trades f.
  assert (Hblank : forall field, Spec.textPredicate "" field)
    by (intros field; now apply textPredicate_blank).
  assert (Hall : forall g : Page.TradeFilters,
             (forall t, In t trades -> Page.filterCallback getTime g t = true) ->
             Page.filteredTrades getTime trades g = trades).
  { intros g Hg. unfold Page.filteredTrades.
    induction trades as [| t l IH]; [reflexivity |].
    cbn [filter]. rewrite (Hg t) by now left.
    f_equal. apply IH. intros u Hu. apply Hg. now right. }
  split; [| split; [| split; [| split; [| split; [| split; [| split]]]]]].
  - intros t. apply filteredTrades_onlyPair.
  - intros t. apply filteredTrades_onlyStrategy.
  - intros t. unfold Page.filteredTrades.
    rewrite !filter_In, !filterCallback_iff. simpl.
    fold (Spec.textPredicate (Page.filter_pair f) (pair t)).
    fold (Spec.textPredicate (Page.filter_strategy f) (strategy t)).
    specialize (Hblank (pair t)) as H1.
    specialize (Hblank (strategy t)) as H2.
    tauto.
  - intros Hp. apply Hall. intros t Ht.
    assert (H : In t (Page.filteredTrades getTime trades (Spec.onlyPair f))).
    { apply filteredTrades_onlyPair. split; [exact Ht |].
      now apply textPredicate_blank. }
    unfold Page.filteredTrades in H. now apply filter_In in H.
  - intros Hs. apply Hall. intros t Ht.
    assert (H : In t (Page.filteredTrades getTime trades
                        (Spec.onlyStrategy f))).
    { apply filteredTrades_onlyStrategy. split; [exact Ht |].
      now apply textPredicate_blank. }
    unfold Page.filteredTrades in H. now apply filter_In in H.
  - intros Hp Hs. unfold Page.filteredTrades.
    apply filter_ext. intros t.
    destruct (Page.filterCallback getTime f t) eqn:E1,
             (Page.filterCallback getTime (Spec.withoutTexts f) t) eqn:E2;
      try reflexivity; exfalso.
    + apply filterCallback_iff in E1 as (_ & _ & Hd & Hr).
      assert (Page.filterCallback getTime (Spec.withoutTexts f) t = true)
        by (apply filterCallback_iff; simpl; auto).
      congruence.
    + apply filterCallback_iff in E2 as (_ & _ & Hd & Hr). simpl in Hd, Hr.
      assert (Page.filterCallback getTime f t = true).
      { apply filterCallback_iff.
        repeat split; auto; now apply textPredicate_blank. }
      congruence.
  - intros t Ht Hsub. apply filteredTrades_onlyPair.
    split; [exact Ht | intros _; exact Hsub].
  - intros t Ht Hsub. apply filteredTrades_onlyStrategy.
    split; [exact Ht | intros _; exact Hsub].
Qed.

(** ** Numbers: rounding keeps the sign of an exact difference *)

Lemma digits2_pos_bounds (m : positive) :
  2 ^ (Zpos (digits2_pos m) - 1) <= Zpos m < 2 ^ Zpos (digits2_pos m).
Proof.
  induction m as [m IH | m IH |]; cbn [digits2_pos].
  - rewrite Pos2Z.inj_succ.
    replace (Z.succ (Z.pos (digits2_pos m)) - 1) with (Z.succ (Z.pos (digits2_pos m) - 1)) by lia.
    rewrite !Z.pow_succ_r by lia. lia.
  - rewrite Pos2Z.inj_succ.
    replace (Z.succ (Z.pos (digits2_pos m)) - 1) with (Z.succ (Z.pos (digits2_pos m) - 1)) by lia.
    rewrite !Z.pow_succ_r by lia. lia.
  - simpl. lia.
Qed.

Lemma shr_1_m (mrs : shr_record) :
  0 <= shr_m mrs -> shr_m (shr_1 mrs) = shr_m mrs / 2.
Proof.
  destruct mrs as [m r s]. cbn [shr_m]. intros Hm.
  destruct m as [| [p | p |] | p]; cbn [shr_1 shr_m]; try lia.
  - reflexivity.
  - apply Z.div_unique with 1; lia.
  - apply Z.div_unique with 0; lia.
  - reflexivity.
Qed.

Lemma iter_shr_1_m (n : positive) (mrs : shr_record) :
  0 <= shr_m mrs ->
  shr_m (iter_pos shr_1 n mrs) = shr_m mrs / 2 ^ Zpos n.
Proof.
  revert mrs. induction n as [n IH | n IH |]; intros mrs Hm; cbn [iter_pos].
  - assert (H1 : 0 <= shr_m (shr_1 mrs)) by (rewrite shr_1_m by lia; apply Z.div_pos; lia).
    assert (H2 : 0 <= shr_m (iter_pos shr_1 n (shr_1 mrs))) by (rewrite IH by lia; apply Z.div_pos; lia).
    rewrite IH, IH, shr_1_m by assumption.
    rewrite !Z.div_div by lia.
    f_equal. change 2 with (2 ^ 1) at 1.
    rewrite <- !Z.pow_add_r by lia. f_equal. lia.
  - assert (H2 : 0 <= shr_m (iter_pos shr_1 n mrs)) by (rewrite IH by lia; apply Z.div_pos; lia).
    rewrite IH, IH by assumption.
    rewrite !Z.div_div by lia.
    f_equal. rewrite <- !Z.pow_add_r by lia. f_equal. lia.
  - rewrite shr_1_m by lia. reflexivity.
Qed.

Lemma fexp_ge_emin (e : Z) : emin prec emax <= fexp prec emax e.
Proof. unfold fexp. lia. Qed.

Lemma fexp_below (e : Z) : emin prec emax < e -> fexp prec emax e < e.
Proof. unfold fexp, emin, prec, emax. lia. Qed.

Lemma shr_record_of_loc_m (m : Z) (l : location) :
  shr_m (shr_record_of_loc m l) = m.
Proof. destruct l as [| []]; reflexivity. Qed.

Lemma shr_fexp_positive (m e : Z) (l : location) :
  0 < m -> emin prec emax <= e ->
  0 < shr_m (fst (shr_fexp prec emax m e l))
  /\ emin prec emax <= snd (shr_fexp prec emax m e l).
Proof.
  intros Hm He. unfold shr_fexp, shr.
  destruct m as [| p | p]; try lia. cbn [Zdigits2].
  pose proof (digits2_pos_bounds p) as Hd.
  pose proof (fexp_below (Zpos (digits2_pos p) + e)) as Hf.
  pose proof (fexp_ge_emin (Zpos (digits2_pos p) + e)) as Hg.
  destruct (fexp prec emax (Zpos (digits2_pos p) + e) - e) as [| n | n] eqn:En;
    cbn [fst snd]; rewrite ?shr_record_of_loc_m; try (split; lia).
  rewrite iter_shr_1_m, shr_record_of_loc_m
    by (rewrite shr_record_of_loc_m; lia).
  split; [| lia].
  apply Z.div_str_pos. split; [lia |].
  apply Z.le_trans with (2 ^ (Zpos (digits2_pos p) - 1)); [| lia].
  apply Z.pow_le_mono_r; lia.
Qed.

Lemma round_nearest_even_ge (m : Z) (l : location) :
  m <= round_nearest_even m l.
Proof.
  destruct l as [| []]; cbn [round_nearest_even]; try lia.
  destruct (Z.even m); lia.
Qed.

Lemma binary_round_aux_signed (sx : bool) (m e : Z) (l : location) :
  0 < m -> emin prec emax <= e ->
  (exists m' e', binary_round_aux prec emax sx m e l = S754_finite sx m' e')
  \/ binary_round_aux prec emax sx m e l = S754_infinity sx.
Proof.
  intros Hm He. unfold binary_round_aux.
  pose proof (shr_fexp_positive m e l Hm He) as [H1 H2].
  destruct (shr_fexp prec emax m e l) as [mrs' e'].
  cbn [fst snd] in H1, H2.
  pose proof (round_nearest_even_ge (shr_m mrs') (loc_of_shr_record mrs'))
    as Hr.
  pose proof (shr_fexp_positive
                (round_nearest_even (shr_m mrs') (loc_of_shr_record mrs'))
                e' loc_Exact ltac:(lia) H2) as [H3 _].
  destruct (shr_fexp prec emax _ e' loc_Exact) as [mrs'' e''].
  cbn [fst] in H3.
  destruct (shr_m mrs'') as [| q | q]; try lia.
  destruct (e'' <=? emax - prec); [left; eauto | right; reflexivity].
Qed.

Lemma binary_round_signed (sx : bool) (mx : positive) (ex : Z) :
  emin prec emax <= ex ->
  (exists m' e', binary_round prec emax sx mx ex = S754_finite sx m' e')
  \/ binary_round prec emax sx mx ex = S754_infinity sx.
Proof.
  intros He. unfold binary_round.
  pose proof (fexp_ge_emin (Zpos (digits2_pos mx) + ex)) as Hg.
  destruct (shl_align mx ex (fexp prec emax (Zpos (digits2_pos mx) + ex)))
    as [mz ez] eqn:E.
  apply binary_round_aux_signed; [lia |].
  unfold shl_align in E.
  destruct (fexp prec emax (Zpos (digits2_pos mx) + ex) - ex);
    injection E as _ <-; first [lia | apply fexp_ge_emin].
Qed.

(** The sign test on a normalised integer. *)
Lemma binary_normalize_positive (m e : Z) :
  emin prec emax <= e ->
  SFltb zero (binary_normalize prec emax m e false) = (0 <? m).
Proof.
  intros He. destruct m as [| p | p]; cbn [binary_normalize].
  - reflexivity.
  - destruct (binary_round_signed false p e He) as [(m' & e' & ->) | ->];
      reflexivity.
  - destruct (binary_round_signed true p e He) as [(m' & e' & ->) | ->];
      reflexivity.
Qed.

Lemma iter_xO_value (m d : positive) :
  Zpos (Pos.iter xO m d) = Zpos m * 2 ^ Zpos d.
Proof.
  induction d as [| d IH] using Pos.peano_ind.
  - cbn [Pos.iter]. lia.
  - rewrite Pos.iter_succ, Pos2Z.inj_xO, IH, Pos2Z.inj_succ,
      Z.pow_succ_r by lia.
    lia.
Qed.

Lemma shl_align_value (mx : positive) (ex ez : Z) :
  ez <= ex -> Zpos (fst (shl_align mx ex ez)) = Zpos mx * 2 ^ (ex - ez).
Proof.
  intros H. unfold shl_align.
  destruct (ez - ex) as [| d | d] eqn:E; try lia; cbn [fst].
  - replace (ex - ez) with 0 by lia. lia.
  - rewrite iter_xO_value. f_equal. f_equal. lia.
Qed.

Lemma bounded_canonical (m : positive) (e : Z) :
  bounded prec emax m e = true ->
  emin prec emax <= e
  /\ Zpos m < 2 ^ 53
  /\ (emin prec emax < e -> 2 ^ 52 <= Zpos m).
Proof.
  unfold bounded, canonical_mantissa, fexp.
  rewrite andb_true_iff, Z.eqb_eq. intros [Hc _].
  unfold prec, emin in *.
  assert (Hd : Zpos (digits2_pos m) <= 53) by lia.
  assert (Hd' : 3 - emax - 53 < e -> Zpos (digits2_pos m) = 53) by lia.
  assert (He : 3 - emax - 53 <= e) by lia.
  clear Hc.
  pose proof (digits2_pos_bounds m) as [Hl Hu].
  split; [exact He | split].
  - apply Z.lt_le_trans with (2 ^ Zpos (digits2_pos m)); [exact Hu |].
    apply Z.pow_le_mono_r; lia.
  - intros Hlt. rewrite (Hd' Hlt) in Hl. exact Hl.
Qed.

(** A finite value with the larger exponent has the larger magnitude. *)
Lemma aligned_magnitude (mx my : positive) (ex ey : Z) :
  bounded prec emax mx ex = true -> bounded prec emax my ey = true ->
  ey < ex -> Zpos my < Zpos mx * 2 ^ (ex - ey).
Proof.
  intros Hx Hy Hlt.
  apply bounded_canonical in Hx as (Hx1 & Hx2 & Hx3).
  apply bounded_canonical in Hy as (Hy1 & Hy2 & Hy3).
  assert (H52 : 2 ^ 52 <= Zpos mx) by (apply Hx3; lia).
  assert (Hp : 2 ^ 1 <= 2 ^ (ex - ey)) by (apply Z.pow_le_mono_r; lia).
  change (2 ^ 1) with 2 in Hp.
  change (2 ^ 53) with (2 * 2 ^ 52) in Hy2.
  nia.
Qed.

Lemma sub_finite_positive (sx sy : bool) (mx my : positive) (ex ey : Z) :
  bounded prec emax mx ex = true -> bounded prec emax my ey = true ->
  SFltb zero (SFsub prec emax (S754_finite sx mx ex) (S754_finite sy my ey))
  = SFltb (S754_finite sy my ey) (S754_finite sx mx ex).
Proof.
  intros Hx Hy.
  pose proof (bounded_canonical _ _ Hx) as (Hx1 & _).
  pose proof (bounded_canonical _ _ Hy) as (Hy1 & _).
  cbn [SFsub]. rewrite binary_normalize_positive by lia.
  rewrite !shl_align_value by lia.
  unfold SFltb, SFcompare.
  destruct (Z.compare_spec ey ex) as [Heq | Hlt | Hgt].
  - subst ey. rewrite Z.min_id, Z.sub_diag, !Z.mul_1_r.
    change (Pos.compare_cont Eq my mx) with (Pos.compare my mx).
    destruct sx, sy; cbn [cond_Zopp];
      destruct (Pos.compare_spec my mx); cbn [CompOpp];
      first [apply Z.ltb_lt; lia | apply Z.ltb_ge; lia].
  - pose proof (aligned_magnitude _ _ _ _ Hx Hy Hlt) as Hm.
    rewrite Z.min_r, Z.sub_diag, Z.mul_1_r by lia.
    destruct sx, sy; cbn [cond_Zopp];
      first [apply Z.ltb_lt; lia | apply Z.ltb_ge; lia].
  - pose proof (aligned_magnitude _ _ _ _ Hy Hx Hgt) as Hm.
    rewrite Z.min_l, Z.sub_diag, Z.mul_1_r by lia.
    destruct sx, sy; cbn [cond_Zopp];
      first [apply Z.ltb_lt; lia | apply Z.ltb_ge; lia].
Qed.

(** [x - y > 0] exactly when [x > y], for well-formed Numbers. *)
Lemma sub_positive_iff (x y : number) :
  wf x -> wf y -> (Num.sub x y >? zero)%num = (x >? y)%num.
Proof.
  unfold wf, Num.gt, Num.lt, Num.sub.
  destruct x as [sx | sx | | sx mx ex], y as [sy | sy | | sy my ey];
    cbn [valid_binary]; intros Hx Hy;
    try (now apply sub_finite_positive);
    try reflexivity;
    try (destruct sx; reflexivity);
    try (destruct sy; reflexivity);
    try (destruct sx, sy; reflexivity).
Qed.

Ltac compare_cases :=
  repeat
    (try discriminate; try reflexivity;
     match goal with
     | H : context [Z.compare ?a ?b] |- _ =>
         destruct (Z.compare_spec a b)
     | H : context [Pos.compare_cont Eq ?a ?b] |- _ =>
         change (Pos.compare_cont Eq a b) with (Pos.compare a b) in *;
         destruct (Pos.compare_spec a b)
     | |- context [Z.compare ?a ?b] =>
         destruct (Z.compare_spec a b)
     | |- context [Pos.compare_cont Eq ?a ?b] =>
         change (Pos.compare_cont Eq a b) with (Pos.compare a b) in *;
         destruct (Pos.compare_spec a b)
     end; cbn [CompOpp] in *);
  try discriminate; try reflexivity; try lia.

Lemma SFcompare_antisym (x y : number) :
  SFcompare y x = option_map CompOpp (SFcompare x y).
Proof.
  destruct x as [sx | sx | | sx mx ex], y as [sy | sy | | sy my ey];
    cbn [SFcompare option_map];
    try reflexivity;
    try (destruct sx; reflexivity);
    try (destruct sy; reflexivity);
    try (destruct sx, sy; reflexivity).
  destruct sx, sy; cbn [CompOpp]; try reflexivity; f_equal; compare_cases.
Qed.

Lemma lt_asym (x y : number) :
  (x <? y)%num = true -> (y <? x)%num = false.
Proof.
  unfold Num.lt, SFltb. rewrite (SFcompare_antisym y x).
  destruct (SFcompare y x) as [[] |]; cbn; congruence.
Qed.

Lemma lt_negtrans (x y z : number) :
  isNaN y = false ->
  (y <? x)%num = false -> (z <? y)%num = false -> (z <? x)%num = false.
Proof.
  unfold Num.lt, SFltb.
  destruct x as [sx | sx | | sx mx ex], y as [sy | sy | | sy my ey],
           z as [sz | sz | | sz mz ez];
    cbn [isNaN SFcompare]; intros Hn Hyx Hzy;
    try discriminate; try reflexivity;
    repeat match goal with s : bool |- _ => destruct s end;
    try discriminate; try reflexivity;
    compare_cases.
Qed.

Lemma SFcompare_None (x y : number) :
  SFcompare x y = None -> isNaN x = true \/ isNaN y = true.
Proof.
  destruct x as [sx | sx | | sx mx ex], y as [sy | sy | | sy my ey];
    cbn [SFcompare isNaN]; auto; discriminate.
Qed.

Lemma not_lt_is_ge (x y : number) :
  isNaN x = false -> isNaN y = false ->
  negb (x <? y)%num = (x >=? y)%num.
Proof.
  intros Hx Hy. unfold Num.lt, Num.ge, SFltb, SFleb.
  rewrite (SFcompare_antisym x y).
  destruct (SFcompare x y) as [[] |] eqn:E; cbn; try reflexivity.
  apply SFcompare_None in E. destruct E; congruence.
Qed.

Lemma not_gt_is_le (x y : number) :
  isNaN x = false -> isNaN y = false ->
  negb (x >? y)%num = (x <=? y)%num.
Proof. intros Hx Hy. exact (not_lt_is_ge y x Hy Hx). Qed.

Lemma distinct_lt_or_gt (x y : number) :
  isNaN x = false -> isNaN y = false -> Num.eqb x y = false ->
  (x <? y)%num = true \/ (y <? x)%num = true.
Proof.
  intros Hx Hy. unfold Num.eqb, Num.lt, SFeqb, SFltb.
  rewrite (SFcompare_antisym x y).
  destruct (SFcompare x y) as [[] |] eqn:E; cbn; auto; try discriminate.
  apply SFcompare_None in E. destruct E; congruence.
Qed.

Lemma SortCompare_positive {A : Type} (cmp : A -> A -> number) (x y : A) :
  (SortCompare cmp x y >? zero)%num = (cmp x y >? zero)%num.
Proof.
  unfold SortCompare. destruct (cmp x y); reflexivity.
Qed.

Section SortFacts.
Context {A : Type}.
Variable comparefn : A -> A -> number.
Variable P : A -> Prop.

Let after (x y : A) : bool := (SortCompare comparefn x y >? zero)%num.
Let R (x y : A) : Prop := after x y = false.

Hypothesis after_asym :
  forall x y, P x -> P y -> after x y = true -> after y x = false.
Hypothesis after_negtrans :
  forall x y z, P x -> P y -> P z ->
    after x y = false -> after y z = false -> after x z = false.

Lemma sortInsert_perm (x : A) (l : list A) :
  Permutation (x :: l) (sortInsert comparefn x l).
Proof.
  induction l as [| y l IH]; cbn [sortInsert]; [reflexivity |].
  destruct (SortCompare comparefn x y >? zero)%num; [| reflexivity].
  rewrite perm_swap. now apply perm_skip.
Qed.

Lemma Array_sort_perm (l : list A) :
  Permutation l (Array_sort comparefn l).
Proof.
  induction l as [| x l IH]; cbn [Array_sort fold_right]; [reflexivity |].
  rewrite <- sortInsert_perm. now apply perm_skip.
Qed.

Lemma sortInsert_sorted (x : A) (l : list A) :
  P x -> Forall P l -> StronglySorted R l ->
  StronglySorted R (sortInsert comparefn x l).
Proof.
  intros Hx. induction l as [| y l IH]; intros HP Hs; cbn [sortInsert].
  - repeat constructor.
  - apply Forall_cons_iff in HP as [Hy HP].
    apply StronglySorted_inv in Hs as [Hs Hall].
    destruct (SortCompare comparefn x y >? zero)%num eqn:E.
    + constructor; [now apply IH |].
      apply (Permutation_Forall (sortInsert_perm x l)).
      constructor; [| exact Hall].
      now apply after_asym.
    + constructor; [now constructor |].
      constructor; [exact E |].
      rewrite Forall_forall in *. intros z Hz.
      apply after_negtrans with y; auto.
      now apply Hall.
Qed.

Lemma Array_sort_sorted (l : list A) :
  Forall P l -> StronglySorted R (Array_sort comparefn l).
Proof.
  induction l as [| x l IH]; intros HP; cbn [Array_sort fold_right].
  - constructor.
  - apply Forall_cons_iff in HP as [Hx HP].
    apply sortInsert_sorted; auto.
    apply (Permutation_Forall (Array_sort_perm l)). exact HP.
Qed.

Lemma sorted_precedes (a b : A) (l : list A) :
  StronglySorted R l -> Spec.precedes a b l -> R a b.
Proof.
  intros Hs (l1 & l2 & l3 & ->).
  induction l1 as [| c l1 IH]; cbn [app] in Hs;
    apply StronglySorted_inv in Hs as [Hs Hall].
  - rewrite Forall_forall in Hall. apply Hall.
    apply in_or_app. right. now left.
  - now apply IH.
Qed.
End SortFacts.

Lemma in_both_precedes {A : Type} (a b : A) (l : list A) :
  In a l -> In b l -> a <> b ->
  Spec.precedes a b l \/ Spec.precedes b a l.
Proof.
  intros Ha Hb Hne.
  apply in_split in Ha as (l1 & l2 & ->).
  apply in_app_or in Hb as [Hb | [Hb | Hb]]; [| congruence |].
  - right. apply in_split in Hb as (l3 & l4 & ->).
    exists l3, l4, l2. now rewrite <- app_assoc.
  - left. apply in_split in Hb as (l3 & l4 & ->).
    now exists l1, l3, l4.
Qed.

Section PnlSort.
Variable getTime : string -> number.

Let P (t : Trade) : Prop := Spec.isNumber (pnl t).

Lemma after_pnl_asc (a b : Trade) :
  wf (pnl a) -> wf (pnl b) ->
  (SortCompare (Page.compareTrades getTime Page.pnl_asc) a b >? zero)%num
  = (pnl a >? pnl b)%num.
Proof.
  intros Ha Hb. rewrite SortCompare_positive.
  cbn [Page.compareTrades]. now apply sub_positive_iff.
Qed.

Lemma after_pnl_desc (a b : Trade) :
  wf (pnl a) -> wf (pnl b) ->
  (SortCompare (Page.compareTrades getTime Page.pnl_desc) a b >? zero)%num
  = (pnl b >? pnl a)%num.
Proof.
  intros Ha Hb. rewrite SortCompare_positive.
  cbn [Page.compareTrades]. now apply sub_positive_iff.
Qed.

Lemma pnl_asc_ordered (l : list Trade) (a b : Trade) :
  Forall P l -> In a l -> In b l ->
  Spec.precedes a b (Page.sortedTrades getTime l Page.pnl_asc) ->
  (pnl a >? pnl b)%num = false.
Proof.
  intros HP Ha Hb Hpre.
  pose proof HP as HP'. rewrite Forall_forall in HP'.
  rewrite <- after_pnl_asc by (now apply HP').
  revert Hpre. apply sorted_precedes.
  apply Array_sort_sorted with (P := P); [| | exact HP].
  - intros x y [Hx _] [Hy _]. rewrite !after_pnl_asc by assumption.
    apply lt_asym.
  - intros x y z [Hx _] [Hy Hny] [Hz _].
    rewrite !after_pnl_asc by assumption.
    now apply lt_negtrans.
Qed.

Lemma pnl_desc_ordered (l : list Trade) (a b : Trade) :
  Forall P l -> In a l -> In b l ->
  Spec.precedes a b (Page.sortedTrades getTime l Page.pnl_desc) ->
  (pnl b >? pnl a)%num = false.
Proof.
  intros HP Ha Hb Hpre.
  pose proof HP as HP'. rewrite Forall_forall in HP'.
  rewrite <- after_pnl_desc by (now apply HP').
  revert Hpre. apply sorted_precedes.
  apply Array_sort_sorted with (P := P); [| | exact HP].
  - intros x y [Hx _] [Hy _]. rewrite !after_pnl_desc by assumption.
    apply lt_asym.
  - intros x y z [Hx _] [Hy Hny] [Hz _].
    rewrite !after_pnl_desc by assumption.
    intros H1 H2. exact (lt_negtrans _ _ _ Hny H2 H1).
Qed.

(** With [a] the smaller profit/loss: [a] comes first ascending and [b]
    comes first descending, and never the other way round. *)
Lemma pnl_sorts_directed (l : list Trade) (a b : Trade) :
  Forall P l -> In a l -> In b l -> (pnl a <? pnl b)%num = true ->
  Spec.precedes a b (Page.sortedTrades getTime l Page.pnl_asc)
  /\ ~ Spec.precedes b a (Page.sortedTrades getTime l Page.pnl_asc)
  /\ Spec.precedes b a (Page.sortedTrades getTime l Page.pnl_desc)
  /\ ~ Spec.precedes a b (Page.sortedTrades getTime l Page.pnl_desc).
Proof.
  intros HP Ha Hb Hlt.
  assert (Hne : a <> b).
  { intros ->. pose proof (lt_asym _ _ Hlt). congruence. }
  assert (Hasc : ~ Spec.precedes b a
                   (Page.sortedTrades getTime l Page.pnl_asc)).
  { intros Hpre. pose proof (pnl_asc_ordered l b a HP Hb Ha Hpre) as H.
    unfold Num.gt in H. unfold Num.lt in Hlt. congruence. }
  assert (Hdesc : ~ Spec.precedes a b
                    (Page.sortedTrades getTime l Page.pnl_desc)).
  { intros Hpre. pose proof (pnl_desc_ordered l a b HP Ha Hb Hpre) as H.
    unfold Num.gt in H. unfold Num.lt in Hlt. congruence. }
  repeat split; auto.
  - destruct (in_both_precedes a b
                (Page.sortedTrades getTime l Page.pnl_asc)); auto;
      try contradiction;
      apply (Permutation_in _ (Array_sort_perm _ l)); assumption.
  - destruct (in_both_precedes a b
                (Page.sortedTrades getTime l Page.pnl_desc)); auto;
      try contradiction;
      apply (Permutation_in _ (Array_sort_perm _ l)); assumption.
Qed.
End PnlSort.


(** ** Sorting by profit/loss *)

(** C7.  In a (filtered) list whose profitLoss values are Numbers, two
    trades with distinct profitLoss stand in exactly reversed order under
    the ascending and the descending profitLoss sort: one order holds
    ascending exactly when the other holds descending, one of the two
    holds, and never both. *)
Theorem C7_pnl_sort_reversal :
  forall (getTime : string -> number) (l : list Trade) (a b : Trade),
    (forall t, In t l -> Spec.isNumber (pnl t)) ->
    In a l -> In b l -> Num.eqb (pnl a) (pnl b) = false ->
    let ascending := Page.sortedTrades getTime l Page.pnl_asc in
    let descending := Page.sortedTrades getTime l Page.pnl_desc in
    (Spec.precedes a b ascending <-> Spec.precedes b a descending)
    /\ (Spec.precedes b a ascending <-> Spec.precedes a b descending)
    /\ (Spec.precedes a b ascending \/ Spec.precedes b a ascending)
    /\ ~ (Spec.precedes a b ascending /\ Spec.precedes b a ascending).
Proof.
  intros getTime l a b HP Ha Hb Hneq ascending descending.
  assert (HF : Forall (fun t => Spec.isNumber (pnl t)) l)
    by (now apply Forall_forall).
  destruct (distinct_lt_or_gt (pnl a) (pnl b)) as [Hlt | Hlt];
    try (now apply HP); try assumption.
  - destruct (pnl_sorts_directed getTime l a b HF Ha Hb Hlt)
      as (H1 & H2 & H3 & H4).
    subst ascending descending. tauto.
  - destruct (pnl_sorts_directed getTime l b a HF Hb Ha Hlt)
      as (H1 & H2 & H3 & H4).
    subst ascending descending. tauto.
Qed.

(** ** Numbers: a quotient and a product are within one unit in the last
    place of their exact values *)

Lemma digits2_unique (p : positive) (d : Z) :
  2 ^ (d - 1) <= Zpos p < 2 ^ d -> Zpos (digits2_pos p) = d.
Proof.
  intros [Hl Hu].
  pose proof (digits2_pos_bounds p) as [Hl' Hu'].
  assert (Hd : 0 < d).
  { destruct (Z_lt_le_dec 0 d) as [H | H]; [exact H | exfalso].
    assert (2 ^ d <= 2 ^ 0) by (apply Z.pow_le_mono_r; lia).
    change (2 ^ 0) with 1 in *. lia. }
  set (D := Zpos (digits2_pos p)) in *.
  destruct (Z.lt_trichotomy D d) as [H | [H | H]]; [exfalso | exact H | exfalso].
  - assert (2 ^ D <= 2 ^ (d - 1)) by (apply Z.pow_le_mono_r; lia). lia.
  - assert (2 ^ d <= 2 ^ (D - 1)) by (apply Z.pow_le_mono_r; lia). lia.
Qed.

Lemma round_nearest_even_le (m : Z) (l : location) :
  round_nearest_even m l <= m + 1.
Proof.
  destruct l as [| []]; cbn [round_nearest_even]; try lia.
  destruct (Z.even m); lia.
Qed.

Lemma shr_m_value (mrs : shr_record) (e K : Z) :
  0 <= shr_m mrs -> 0 <= K ->
  shr_m (fst (shr mrs e K)) = shr_m mrs / 2 ^ K
  /\ snd (shr mrs e K) = e + K.
Proof.
  intros Hm HK. destruct K as [| k | k]; cbn [shr fst snd]; try lia.
  - rewrite Z.div_1_r. split; [reflexivity | lia].
  - split; [now apply iter_shr_1_m | reflexivity].
Qed.

Lemma fexp_normal (z : Z) : -1074 <= z - 53 -> fexp prec emax z = z - 53.
Proof. unfold fexp, emin, prec, emax. lia. Qed.

Lemma binary_round_aux_faithful (m e K : Z) (l : location) :
  0 <= K -> 2 ^ (52 + K) <= m < 2 ^ (53 + K) ->
  -1074 <= e + K -> e + K < 971 ->
  exists M,
    Reading.hasValue (binary_round_aux prec emax false m e l) M (- (e + K))
    /\ m / 2 ^ K <= M <= m / 2 ^ K + 1
    /\ M <= 2 ^ 53
    /\ (K = 0 -> l = loc_Exact -> M = m).
Proof.
  intros HK [Hl Hu] He1 He2.
  assert (H52 : 0 < 2 ^ 52) by (apply Z.pow_pos_nonneg; lia).
  assert (HK2 : 0 < 2 ^ K) by (apply Z.pow_pos_nonneg; lia).
  rewrite Z.pow_add_r in Hl, Hu by lia.
  assert (Hm : 0 < m) by nia.
  destruct m as [| p | p]; try lia.
  assert (Hd : Zdigits2 (Zpos p) = 53 + K).
  { cbn [Zdigits2]. apply digits2_unique.
    replace (53 + K - 1) with (52 + K) by lia.
    rewrite !Z.pow_add_r by lia. lia. }
  unfold binary_round_aux, shr_fexp. rewrite Hd.
  rewrite fexp_normal by lia.
  replace (53 + K + e - 53 - e) with K by lia.
  pose proof (shr_m_value (shr_record_of_loc (Zpos p) l) e K) as Hshr.
  rewrite shr_record_of_loc_m in Hshr.
  destruct Hshr as [Hs1 Hs2]; [lia | lia |].
  destruct (shr (shr_record_of_loc (Zpos p) l) e K) as [mrs' e'] eqn:Eshr.
  cbn [fst snd] in Hs1, Hs2. subst e'.
  set (m1 := Zpos p / 2 ^ K) in *.
  assert (Hm1 : 2 ^ 52 <= m1 < 2 ^ 53).
  { split.
    - apply Z.div_le_lower_bound; lia.
    - apply Z.div_lt_upper_bound; lia. }
  set (M := round_nearest_even (shr_m mrs') (loc_of_shr_record mrs')).
  assert (HM : m1 <= M <= m1 + 1).
  { subst M. rewrite <- Hs1. split;
      [apply round_nearest_even_ge | apply round_nearest_even_le]. }
  assert (Hexact : K = 0 -> l = loc_Exact -> M = Zpos p).
  { intros -> ->. cbn in Eshr. injection Eshr as <- _. reflexivity. }
  exists M. split; [| split; [exact HM | split; [lia | exact Hexact]]].
  destruct M as [| q | q] eqn:EM; try lia.
  destruct (Z_lt_le_dec (Zpos q) (2 ^ 53)) as [Hlt | Hge].
  - assert (Hdq : Zdigits2 (Zpos q) = 53).
    { cbn [Zdigits2]. apply digits2_unique. change (53 - 1) with 52. lia. }
    rewrite Hdq, fexp_normal by lia.
    replace (53 + (e + K) - 53 - (e + K)) with 0 by lia.
    cbn [shr shr_record_of_loc shr_m].
    replace (e + K <=? emax - prec) with true
      by (symmetry; apply Z.leb_le; unfold emax, prec; lia).
    exists q, (e + K).
    split; [reflexivity | split; [lia | split; [lia |]]].
    replace (e + K + - (e + K)) with 0 by lia. lia.
  - assert (Hq : Zpos q = 2 ^ 53) by lia.
    assert (Hdq : Zdigits2 (Zpos q) = 54).
    { cbn [Zdigits2]. apply digits2_unique. rewrite Hq.
      change (54 - 1) with 53. split; [lia |].
      apply Z.pow_lt_mono_r; lia. }
    rewrite Hdq, fexp_normal by lia.
    replace (54 + (e + K) - 53 - (e + K)) with 1 by lia.
    cbn [shr iter_pos shr_record_of_loc fst snd].
    assert (Hh : shr_m (shr_1 {| shr_m := Zpos q; shr_r := false; shr_s := false |}) = 2 ^ 52).
    { rewrite shr_1_m by (cbn; lia). cbn [shr_m]. rewrite Hq.
      reflexivity. }
    destruct (shr_m (shr_1 _)) as [| h | h] eqn:Eh; try lia.
    replace (e + K + 1 <=? emax - prec) with true
      by (symmetry; apply Z.leb_le; unfold emax, prec; lia).
    exists h, (e + K + 1).
    split; [reflexivity | split; [| split; [lia |]]].
    + rewrite Hh. split; [lia | apply Z.pow_lt_mono_r; lia].
    + replace (e + K + 1 + - (e + K)) with 1 by lia. rewrite Hh, Hq.
      reflexivity.
Qed.

Lemma hasValue_mantissa (x : number) (M g : Z) :
  Reading.hasValue x M g -> M < 2 ^ 53 ->
  exists m : positive, Zpos m = M /\ x = S754_finite false m (- g).
Proof.
  intros (m & e & -> & Hm & He & Hv) HM.
  assert (Hd : e + g = 0).
  { destruct (Z.eq_dec (e + g) 0) as [H | H]; [exact H | exfalso].
    assert (Hp : 2 ^ 1 <= 2 ^ (e + g)) by (apply Z.pow_le_mono_r; lia).
    change (2 ^ 1) with 2 in Hp.
    assert (0 < 2 ^ 52) by (apply Z.pow_pos_nonneg; lia).
    change (2 ^ 53) with (2 * 2 ^ 52) in *. nia. }
  rewrite Hd, Z.mul_1_r in Hv.
  exists m. split; [exact Hv | f_equal; lia].
Qed.

Lemma shl_align_exponent (mx : positive) (ex ez : Z) :
  ez <= ex -> snd (shl_align mx ex ez) = ez.
Proof.
  intros H. unfold shl_align.
  destruct (ez - ex) as [| d | d] eqn:E; cbn [snd]; lia.
Qed.

(** The Number of a positive integer below 2^53 is that integer. *)
Lemma ofZ_normal (w : Z) :
  0 < w < 2 ^ 53 ->
  exists (m : positive) (a : Z),
    0 <= a <= 52
    /\ ofZ w = S754_finite false m (- a)
    /\ Zpos m = w * 2 ^ a
    /\ 2 ^ 52 <= Zpos m < 2 ^ 53.
Proof.
  intros [Hl Hu]. destruct w as [| p | p]; try lia.
  pose proof (digits2_pos_bounds p) as [Hd1 Hd2].
  set (d := Zpos (digits2_pos p)) in *.
  assert (Hd : 1 <= d <= 53).
  { split; [subst d; lia |].
    destruct (Z_lt_le_dec 53 d) as [H | H]; [exfalso | exact H].
    assert (2 ^ 53 <= 2 ^ (d - 1)) by (apply Z.pow_le_mono_r; lia). lia. }
  unfold ofZ. cbn [binary_normalize]. unfold binary_round.
  fold d. rewrite Z.add_0_r, fexp_normal by lia.
  pose proof (shl_align_value p 0 (d - 53) ltac:(lia)) as Hv.
  pose proof (shl_align_exponent p 0 (d - 53) ltac:(lia)) as Hx.
  destruct (shl_align p 0 (d - 53)) as [mz ez].
  cbn [fst snd] in Hv, Hx. subst ez.
  replace (0 - (d - 53)) with (53 - d) in Hv by lia.
  assert (Hr : 2 ^ 52 <= Zpos mz < 2 ^ 53).
  { rewrite Hv. split.
    - replace 52 with ((d - 1) + (53 - d)) at 1 by lia.
      rewrite Z.pow_add_r by lia.
      apply Z.mul_le_mono_nonneg_r; [apply Z.pow_nonneg; lia | exact Hd1].
    - replace 53 with (d + (53 - d)) at 2 by lia.
      rewrite Z.pow_add_r by lia.
      apply Z.mul_lt_mono_pos_r; [apply Z.pow_pos_nonneg; lia | exact Hd2]. }
  destruct (binary_round_aux_faithful (Zpos mz) (d - 53) 0 loc_Exact)
    as (M & HM & _ & _ & Hex); try lia.
  rewrite (Hex eq_refl eq_refl) in HM.
  apply hasValue_mantissa in HM as (m & Hm & ->); [| lia].
  exists m, (53 - d). rewrite Hm, Hv.
  split; [lia | split; [f_equal; lia | split; [reflexivity |]]].
  rewrite <- Hv. exact Hr.
Qed.

Lemma div_faithful (mx my : positive) (ex ey : Z) :
  2 ^ 52 <= Zpos mx < 2 ^ 53 -> 2 ^ 52 <= Zpos my < 2 ^ 53 ->
  -1000 <= ex - ey <= 900 ->
  exists M K,
    0 <= K <= 1
    /\ Reading.hasValue (SFdiv prec emax (S754_finite false mx ex)
                   (S754_finite false my ey))
         M (53 + ey - ex - K)
    /\ (M - 1) * 2 ^ K * Zpos my <= Zpos mx * 2 ^ 53
    /\ Zpos mx * 2 ^ 53 < (M + 1) * 2 ^ K * Zpos my
    /\ M <= 2 ^ 53.
Proof.
  intros Hx Hy He.
  assert (Hdx : Zpos (digits2_pos mx) = 53)
    by (apply digits2_unique; change (53 - 1) with 52; lia).
  assert (Hdy : Zpos (digits2_pos my) = 53)
    by (apply digits2_unique; change (53 - 1) with 52; lia).
  cbn [SFdiv xorb]. unfold SFdiv_core_binary. cbn [Zdigits2].
  rewrite Hdx, Hdy.
  replace (53 + ex - (53 + ey)) with (ex - ey) by lia.
  rewrite fexp_normal by lia.
  rewrite Z.min_l by lia.
  replace (ex - ey - (ex - ey - 53)) with 53 by lia.
  cbv zeta. 
  pose proof (Z_div_mod (Z.shiftl (Zpos mx) 53) (Zpos my) ltac:(lia)) as Hdiv.
  destruct (Z.div_eucl (Z.shiftl (Zpos mx) 53) (Zpos my)) as [q r].
  rewrite Z.shiftl_mul_pow2 in Hdiv by lia.
  destruct Hdiv as [Hq Hr].
  set (A := 2 ^ 52) in *.
  assert (HA : 0 < A) by (subst A; apply Z.pow_pos_nonneg; lia).
  assert (H53 : 2 ^ 53 = 2 * A) by reflexivity.
  assert (H54 : 2 ^ 54 = 4 * A) by reflexivity.
  rewrite H53 in *.
  assert (Hqb : A <= q < 4 * A) by nia.
  set (K := if Z_lt_le_dec q (2 * A) then 0 else 1).
  assert (HK : 0 <= K <= 1) by (subst K; destruct (Z_lt_le_dec q (2 * A)); lia).
  assert (HqK : 2 ^ (52 + K) <= q < 2 ^ (53 + K)).
  { subst K. destruct (Z_lt_le_dec q (2 * A)).
    - change (2 ^ (52 + 0)) with A. change (2 ^ (53 + 0)) with (2 * A). lia.
    - change (2 ^ (52 + 1)) with (2 * A). change (2 ^ (53 + 1)) with (4 * A).
      lia. }
  destruct (binary_round_aux_faithful q (ex - ey - 53) K
              (new_location (Zpos my) r))
    as (M & HM & HMb & HM53 & _); try lia.
  exists M, K.
  replace (53 + ey - ex - K) with (- (ex - ey - 53 + K)) by lia.
  split; [exact HK | split; [exact HM |]].
  assert (HKp : 0 < 2 ^ K) by (apply Z.pow_pos_nonneg; lia).
  pose proof (Z.div_mod q (2 ^ K) ltac:(lia)) as Hdm.
  pose proof (Z.mod_pos_bound q (2 ^ K) HKp) as Hmb.
  set (q1 := q / 2 ^ K) in *.
  rewrite H53 in HM53.
  split; [| split; [| lia]].
  - apply Z.le_trans with (q * Zpos my); [| lia].
    apply Z.mul_le_mono_nonneg_r; [lia |]. nia.
  - apply Z.lt_le_trans with ((q + 1) * Zpos my); [lia |].
    apply Z.mul_le_mono_nonneg_r; [lia |]. nia.
Qed.

Lemma mul_100_faithful (mq : positive) (eq : Z) :
  2 ^ 52 <= Zpos mq < 2 ^ 53 -> -1000 <= eq <= 800 ->
  exists M K,
    52 <= K <= 53
    /\ Reading.hasValue (SFmul prec emax (S754_finite false mq eq) (ofZ 100))
         M (46 - K - eq)
    /\ (M - 1) * 2 ^ K <= Zpos mq * (100 * 2 ^ 46)
    /\ Zpos mq * (100 * 2 ^ 46) < (M + 1) * 2 ^ K
    /\ M <= 2 ^ 53.
Proof.
  intros Hq He.
  change (ofZ 100) with (S754_finite false 7036874417766400 (-46)).
  cbn [SFmul xorb]. rewrite Pos2Z.inj_mul.
  change (Zpos 7036874417766400) with (100 * 2 ^ 46).
  set (mm := Zpos mq * (100 * 2 ^ 46)).
  set (A := 2 ^ 52) in *.
  assert (HA : 0 < A) by (subst A; apply Z.pow_pos_nonneg; lia).
  assert (H53 : 2 ^ 53 = 2 * A) by reflexivity.
  assert (H104 : 2 ^ 104 = A * A) by reflexivity.
  assert (H105 : 2 ^ 105 = 2 * (A * A)) by reflexivity.
  assert (H106 : 2 ^ 106 = 4 * (A * A)) by reflexivity.
  assert (H46 : 64 * 2 ^ 46 = A) by reflexivity.
  assert (Hmm : A * A <= mm < 4 * (A * A)).
  { subst mm. rewrite H53 in Hq. nia. }
  set (K := if Z_lt_le_dec mm (2 * (A * A)) then 52 else 53).
  assert (HK : 52 <= K <= 53)
    by (subst K; destruct (Z_lt_le_dec mm (2 * (A * A))); lia).
  assert (HmK : 2 ^ (52 + K) <= mm < 2 ^ (53 + K)).
  { subst K. destruct (Z_lt_le_dec mm (2 * (A * A))).
    - change (2 ^ (52 + 52)) with (2 ^ 104).
      change (2 ^ (53 + 52)) with (2 ^ 105). lia.
    - change (2 ^ (52 + 53)) with (2 ^ 105).
      change (2 ^ (53 + 53)) with (2 ^ 106). lia. }
  destruct (binary_round_aux_faithful mm (eq + -46) K loc_Exact)
    as (M & HM & HMb & HM53 & _); try lia.
  exists M, K.
  replace (46 - K - eq) with (- (eq + -46 + K)) by lia.
  split; [exact HK | split; [exact HM |]].
  assert (HKp : 0 < 2 ^ K) by (apply Z.pow_pos_nonneg; lia).
  pose proof (Z.div_mod mm (2 ^ K) ltac:(lia)) as Hdm.
  pose proof (Z.mod_pos_bound mm (2 ^ K) HKp) as Hmb.
  set (q1 := mm / 2 ^ K) in *.
  split; [nia | split; [nia | exact HM53]].
Qed.

Lemma floor_unique (a b q : Z) :
  0 < b -> b * q <= a < b * (q + 1) -> a / b = q.
Proof.
  intros Hb H. symmetry. apply Z.div_unique with (a - b * q); lia.
Qed.

Lemma percent_rounding (w n M C M2 G : Z) :
  0 < w <= n -> 400 * n <= C -> 8 * n <= G ->
  (M - 1) * n <= w * C -> w * C < (M + 1) * n ->
  (M2 - 1) * C <= 100 * M * G -> 100 * M * G < (M2 + 1) * C ->
  let r := (2 * M2 + G) / (2 * G) in
  let R := (200 * w + n) / (2 * n) in
  ((200 * w + n) mod (2 * n) <> 0 -> r = R)
  /\ ((200 * w + n) mod (2 * n) = 0 -> r = R \/ r = R - 1).
Proof.
  intros Hw HC HG H1a H1b H2a H2b r R.
  assert (Hn : 0 < n) by lia.
  assert (HGp : 0 < G) by lia.
  assert (HCp : 0 < C) by lia.
  set (D := M2 * n - 100 * G * w).
  assert (Hup : 2 * D < G).
  { assert (H : D * C <= C * n + 100 * G * n).
    { assert (Ha : (M2 - 1) * C * n <= 100 * M * G * n)
        by (apply Z.mul_le_mono_nonneg_r; lia).
      assert (Hb : 100 * G * (M * n) <= 100 * G * (w * C + n))
        by (apply Z.mul_le_mono_nonneg_l; lia).
      subst D. lia. }
    assert (H' : 4 * (2 * D) * C < 4 * G * C).
    { assert (8 * n * C <= G * C) by (apply Z.mul_le_mono_nonneg_r; lia).
      assert (G * (400 * n) <= G * C) by (apply Z.mul_le_mono_nonneg_l; lia).
      nia. }
    nia. }
  assert (Hlo : - G < 2 * D).
  { assert (H : - (D * C) < C * n + 100 * G * n).
    { assert (Ha : 100 * M * G * n < (M2 + 1) * C * n)
        by (apply Z.mul_lt_mono_pos_r; lia).
      assert (Hb : 100 * G * (w * C - n) <= 100 * G * (M * n))
        by (apply Z.mul_le_mono_nonneg_l; lia).
      subst D. lia. }
    assert (H' : 4 * (- (2 * D)) * C < 4 * G * C).
    { assert (8 * n * C <= G * C) by (apply Z.mul_le_mono_nonneg_r; lia).
      assert (G * (400 * n) <= G * C) by (apply Z.mul_le_mono_nonneg_l; lia).
      nia. }
    nia. }
  pose proof (Z.div_mod (200 * w + n) (2 * n) ltac:(lia)) as Hdm.
  pose proof (Z.mod_pos_bound (200 * w + n) (2 * n) ltac:(lia)) as Hmb.
  fold R in Hdm.
  set (rho := (200 * w + n) mod (2 * n)) in *.
  assert (HE : (2 * M2 + G) * n = 2 * n * G * R + (2 * D + G * rho)).
  { subst D. 
    replace ((2 * M2 + G) * n) with (2 * (M2 * n) + G * (200 * w + n) - 200 * G * w) by ring.
    rewrite Hdm. ring. }
  split.
  - intros Hne. subst r. apply floor_unique; [lia |].
    assert (0 <= 2 * D + G * rho < 2 * n * G) by nia.
    nia.
  - intros Heq. rewrite Heq, Z.mul_0_r, Z.add_0_r in HE.
    destruct (Z_le_gt_dec 0 D) as [Hp | Hn'].
    + left. subst r. apply floor_unique; [lia |]. nia.
    + right. subst r. apply floor_unique; [lia |]. nia.
Qed.

Lemma pow2_split (a b : Z) : 0 <= a -> 0 <= b -> 2 ^ (a + b) = 2 ^ a * 2 ^ b.
Proof. intros. now apply Z.pow_add_r. Qed.

Lemma hasValue_shift (M g : Z) (m : positive) (e : Z) :
  2 ^ 52 <= Zpos m -> 0 <= e + g -> Zpos m * 2 ^ (e + g) = M -> M <= 2 ^ 53 ->
  e + g <= 1.
Proof.
  intros Hm He Hv HM.
  destruct (Z_le_gt_dec (e + g) 1) as [H | H]; [exact H | exfalso].
  assert (Hp : 2 ^ 2 <= 2 ^ (e + g)) by (apply Z.pow_le_mono_r; lia).
  change (2 ^ 2) with 4 in Hp.
  assert (0 < 2 ^ 52) by (apply Z.pow_pos_nonneg; lia).
  change (2 ^ 53) with (2 * 2 ^ 52) in *. nia.
Qed.

Lemma Math_round_value (p : number) (M g : Z) :
  Reading.hasValue p M g -> M <= 2 ^ 53 -> 2 <= g ->
  Math_round p = ofZ ((2 * M + 2 ^ g) / (2 * 2 ^ g)).
Proof.
  intros (m & e & -> & Hm & He & Hv) HM Hg.
  pose proof (hasValue_shift M g m e ltac:(lia) He Hv HM) as Hd.
  cbn [Math_round cond_Zopp].
  replace (0 <=? e) with false by (symmetry; apply Z.leb_gt; lia).
  rewrite Z.shiftr_div_pow2 by lia.
  assert (Hq : (2 * Zpos m + 2 ^ (- e)) / 2 ^ (- e + 1)
               = (2 * M + 2 ^ g) / (2 * 2 ^ g)).
  { assert (Hpd : 0 < 2 ^ (e + g)) by (apply Z.pow_pos_nonneg; lia).
    assert (Hpe : 0 < 2 ^ (- e + 1)) by (apply Z.pow_pos_nonneg; lia).
    rewrite <- (Z.div_mul_cancel_r _ _ (2 ^ (e + g))) by lia.
    f_equal.
    - rewrite Z.mul_add_distr_r, <- pow2_split by lia.
      replace (- e + (e + g)) with g by lia. rewrite <- Hv. ring.
    - rewrite <- pow2_split by lia.
      replace (- e + 1 + (e + g)) with (1 + g) by lia.
      rewrite pow2_split by lia. reflexivity. }
  rewrite Hq.
  destruct ((2 * M + 2 ^ g) / (2 * 2 ^ g) =? 0) eqn:E; [| reflexivity].
  apply Z.eqb_eq in E. rewrite E. reflexivity.
Qed.

Lemma winRate_value (w n : Z) :
  0 < w <= n -> n < 2 ^ 32 ->
  exists r,
    Math_round ((ofZ w / ofZ n) * ofZ 100)%num = ofZ r
    /\ ((200 * w + n) mod (2 * n) <> 0 -> r = (200 * w + n) / (2 * n))
    /\ ((200 * w + n) mod (2 * n) = 0 ->
        r = (200 * w + n) / (2 * n) \/ r = (200 * w + n) / (2 * n) - 1).
Proof.
  intros Hw Hn.
  assert (H3253 : 2 ^ 32 < 2 ^ 53) by (apply Z.pow_lt_mono_r; lia).
  destruct (ofZ_normal w ltac:(lia)) as (mx & a & Ha & -> & Hmx & Hrx).
  destruct (ofZ_normal n ltac:(lia)) as (my & b & Hb & -> & Hmy & Hry).
  assert (Hpa : 0 < 2 ^ a) by (apply Z.pow_pos_nonneg; lia).
  assert (Hpb : 0 < 2 ^ b) by (apply Z.pow_pos_nonneg; lia).
  assert (H52 : 0 < 2 ^ 52) by (apply Z.pow_pos_nonneg; lia).
  assert (H53 : 2 ^ 53 = 2 * 2 ^ 52) by reflexivity.
  assert (Hab : b <= a).
  { destruct (Z_le_gt_dec b a) as [H | H]; [exact H | exfalso].
    assert (Hp : 2 ^ (a + 1) <= 2 ^ b) by (apply Z.pow_le_mono_r; lia).
    rewrite pow2_split in Hp by lia. change (2 ^ 1) with 2 in Hp.
    nia. }
  destruct (div_faithful mx my (- a) (- b) Hrx Hry ltac:(lia))
    as (M & K & HK & HQ & HQa & HQb & HM53).
  unfold Num.div, Num.mul.
  set (c := 53 + - b - - a - K) in *.
  assert (Hc : 52 <= c <= 105) by (subst c; lia).
  assert (HpK : 0 < 2 ^ K) by (apply Z.pow_pos_nonneg; lia).
  assert (HpC : 0 < 2 ^ c) by (apply Z.pow_pos_nonneg; lia).
  assert (HC52 : 2 ^ 52 <= 2 ^ c) by (apply Z.pow_le_mono_r; lia).
  assert (Hsplit : 2 ^ a * 2 ^ 53 = 2 ^ c * (2 ^ K * 2 ^ b)).
  { rewrite <- !pow2_split by lia. f_equal. subst c. lia. }
  assert (H1a : (M - 1) * n <= w * 2 ^ c).
  { apply Z.mul_le_mono_pos_r with (2 ^ K * 2 ^ b); [lia |].
    replace ((M - 1) * n * (2 ^ K * 2 ^ b))
      with ((M - 1) * 2 ^ K * (n * 2 ^ b)) by ring.
    replace (w * 2 ^ c * (2 ^ K * 2 ^ b))
      with (w * (2 ^ c * (2 ^ K * 2 ^ b))) by ring.
    rewrite <- Hsplit, <- Hmy.
    replace (w * (2 ^ a * 2 ^ 53)) with (w * 2 ^ a * 2 ^ 53) by ring.
    rewrite <- Hmx. exact HQa. }
  assert (H1b : w * 2 ^ c < (M + 1) * n).
  { apply Z.mul_lt_mono_pos_r with (2 ^ K * 2 ^ b); [lia |].
    replace ((M + 1) * n * (2 ^ K * 2 ^ b))
      with ((M + 1) * 2 ^ K * (n * 2 ^ b)) by ring.
    replace (w * 2 ^ c * (2 ^ K * 2 ^ b))
      with (w * (2 ^ c * (2 ^ K * 2 ^ b))) by ring.
    rewrite <- Hsplit, <- Hmy.
    replace (w * (2 ^ a * 2 ^ 53)) with (w * 2 ^ a * 2 ^ 53) by ring.
    rewrite <- Hmx. exact HQb. }
  destruct HQ as (mq & eq & -> & Hrq & Hdq & Hvq).
  pose proof (hasValue_shift M c mq eq ltac:(lia) Hdq Hvq HM53) as Hdq1.
  destruct (mul_100_faithful mq eq Hrq ltac:(lia))
    as (M2 & K2 & HK2 & HP & HPa & HPb & HM253).
  set (g := 46 - K2 - eq) in *.
  assert (Hg : 44 <= g <= 200) by (subst g; lia).
  assert (HpK2 : 0 < 2 ^ K2) by (apply Z.pow_pos_nonneg; lia).
  assert (HpG : 0 < 2 ^ g) by (apply Z.pow_pos_nonneg; lia).
  assert (HG44 : 2 ^ 44 <= 2 ^ g) by (apply Z.pow_le_mono_r; lia).
  assert (Hsplit2 : 2 ^ (eq + c) * 2 ^ g * 2 ^ K2 = 2 ^ 46 * 2 ^ c).
  { rewrite <- !pow2_split by lia. f_equal. subst g. lia. }
  assert (Hprod : 100 * M * 2 ^ g * 2 ^ K2
                  = Zpos mq * (100 * 2 ^ 46) * 2 ^ c).
  { rewrite <- Hvq.
    replace (100 * (Zpos mq * 2 ^ (eq + c)) * 2 ^ g * 2 ^ K2)
      with (100 * Zpos mq * (2 ^ (eq + c) * 2 ^ g * 2 ^ K2)) by ring.
    rewrite Hsplit2. ring. }
  assert (H2a : (M2 - 1) * 2 ^ c <= 100 * M * 2 ^ g).
  { apply Z.mul_le_mono_pos_r with (2 ^ K2); [lia |].
    rewrite Hprod.
    replace ((M2 - 1) * 2 ^ c * 2 ^ K2) with ((M2 - 1) * 2 ^ K2 * 2 ^ c)
      by ring.
    apply Z.mul_le_mono_nonneg_r; lia. }
  assert (H2b : 100 * M * 2 ^ g < (M2 + 1) * 2 ^ c).
  { apply Z.mul_lt_mono_pos_r with (2 ^ K2); [lia |].
    rewrite Hprod.
    replace ((M2 + 1) * 2 ^ c * 2 ^ K2) with ((M2 + 1) * 2 ^ K2 * 2 ^ c)
      by ring.
    apply Z.mul_lt_mono_pos_r; lia. }
  exists ((2 * M2 + 2 ^ g) / (2 * 2 ^ g)).
  split; [apply Math_round_value; [exact HP | exact HM253 | lia] |].
  assert (H32 : 2 ^ 32 * 400 <= 2 ^ 52) by (vm_compute; discriminate).
  assert (H32' : 2 ^ 32 * 8 <= 2 ^ 44) by (vm_compute; discriminate).
  apply percent_rounding with (M := M) (C := 2 ^ c); try assumption; lia.
Qed.

(** ** Statistics *)

Lemma totalPnL_sumFrom (l : list Trade) (acc : number) :
  fold_left (fun a trade => (a + pnl trade)%num) l acc = Spec.sumFrom acc l.
Proof.
  revert acc. induction l as [| t l IH]; intros acc; simpl; auto.
Qed.

Lemma length_filter_count (p : Trade -> bool) (l : list Trade) :
  List.length (filter p l) = Spec.count p l.
Proof.
  induction l as [| t l IH]; simpl; [reflexivity |].
  destruct (p t); simpl; rewrite IH; reflexivity.
Qed.

Lemma count_complement (p : Trade -> bool) (l : list Trade) :
  (Spec.count p l + Spec.count (fun t => negb (p t)) l)%nat = List.length l.
Proof.
  induction l as [| t l IH]; simpl; [reflexivity |].
  destruct (p t); simpl; lia.
Qed.

(** The win rate of the code against the exactly rounded percentage. *)
Lemma winRate_against_exact (l : list Trade) :
  Z.of_nat (List.length l) < 2 ^ 32 ->
  (Spec.halfway l = false -> Page.winRate l = ofZ (Spec.winRate l))
  /\ (Spec.halfway l = true ->
      Page.winRate l = ofZ (Spec.winRate l)
      \/ Page.winRate l = ofZ (Spec.winRate l - 1)).
Proof.
  intros Hlen.
  unfold Page.winRate, Page.totalTrades, Page.winningTrades, Spec.winRate,
    Spec.halfway, Spec.round.
  rewrite length_filter_count.
  fold Spec.isWinning.
  change (fun trade : Trade => (pnl trade >? zero)%num) with Spec.isWinning.
  pose proof (count_complement Spec.isWinning l) as Hc.
  destruct (List.length l) as [| k] eqn:El.
  - split; [reflexivity | discriminate].
  - cbn [Nat.ltb Nat.leb]. rewrite <- El in *.
    set (n := Z.of_nat (List.length l)) in *.
    set (w := Z.of_nat (Spec.count Spec.isWinning l)) in *.
    assert (Hn : 0 < n) by (subst n; lia).
    assert (Hw : 0 <= w <= n) by (subst w n; lia).
    replace (2 * (w * 100) + n) with (200 * w + n) by ring.
    unfold ofNat. fold w n.
    destruct (Z.eq_dec w 0) as [Hz | Hnz].
    + rewrite Hz. change (ofZ 0) with zero.
      assert (Hq : (zero / ofZ n)%num = zero).
      { destruct (ofZ_normal n ltac:(split; [lia |];
                   apply Z.lt_trans with (2 ^ 32); [lia | reflexivity]))
          as (m & a & _ & -> & _). reflexivity. }
      rewrite Hq. change (Math_round (zero * ofZ 100)%num) with zero.
      replace (200 * 0 + n) with n by ring.
      assert (HR : n / (2 * n) = 0) by (apply Z.div_small; lia).
      rewrite HR. split; [reflexivity | left; reflexivity].
    + destruct (winRate_value w n ltac:(lia) Hlen) as (r & -> & Hr1 & Hr2).
      split.
      * intros Hh. apply Z.eqb_neq in Hh. now rewrite (Hr1 Hh).
      * intros Hh. apply Z.eqb_eq in Hh.
        destruct (Hr2 Hh) as [-> | ->]; auto.
Qed.

(** C3, as the code has it.  Over any (filtered) list of trades:
    totalTrades is the count, netProfitLoss the sum of the profitLoss
    values accumulated from 0 in list order, winningTrades the count of
    profitLoss > 0, losingTrades the rest (a zero profitLoss is a loss).
    The win rate and the average are taken in Number arithmetic: winRate is
    [Math.round] of the Number [(winningTrades / totalTrades) * 100] and
    averageProfitLoss the Number [netProfitLoss / totalTrades], both being 0
    on the empty list.  For a list of fewer than 2^32 trades, as every
    array is, winRate is the exactly rounded percentage
    round(winningTrades / totalTrades x 100) unless that percentage lies
    half-way between two whole numbers, where it is the rounded value or one
    below it. *)
Theorem C3_statistics_in_number_arithmetic :
  forall l : list Trade,
    Page.totalTrades l = List.length l
    /\ Page.totalPnL l = Spec.sumFrom zero l
    /\ Page.winningTrades l = Spec.count Spec.isWinning l
    /\ Page.losingTrades l = (Page.totalTrades l - Page.winningTrades l)%nat
    /\ Page.losingTrades l
       = Spec.count (fun t => negb (Spec.isWinning t)) l
    /\ (Page.winningTrades l + Page.losingTrades l)%nat = Page.totalTrades l
    /\ (forall t, Num.eqb (pnl t) zero = true -> Spec.isWinning t = false)
    /\ (Page.totalTrades l <> 0%nat ->
        Page.winRate l
        = Math_round ((ofNat (Page.winningTrades l)
                       / ofNat (Page.totalTrades l)) * ofZ 100)%num
        /\ Page.avgPnl l
           = (Page.totalPnL l / ofNat (Page.totalTrades l))%num)
    /\ (Z.of_nat (Page.totalTrades l) < 2 ^ 32 ->
        (Spec.halfway l = false -> Page.winRate l = ofZ (Spec.winRate l))
        /\ (Spec.halfway l = true ->
            Page.winRate l = ofZ (Spec.winRate l)
            \/ Page.winRate l = ofZ (Spec.winRate l - 1)))
    /\ (Page.totalTrades l = 0%nat ->
        Page.winRate l = zero /\ Page.avgPnl l = zero).
Proof.
  intros l.
  assert (Hw : Page.winningTrades l = Spec.count Spec.isWinning l)
    by apply length_filter_count.
  assert (Hs : Page.totalPnL l = Spec.sumFrom zero l)
    by apply totalPnL_sumFrom.
  pose proof (count_complement Spec.isWinning l) as Hc.
  split; [reflexivity | split; [exact Hs | split; [exact Hw |]]].
  split; [reflexivity |].
  split; [unfold Page.losingTrades, Page.totalTrades; rewrite Hw; lia |].
  split; [unfold Page.losingTrades, Page.totalTrades; rewrite Hw; lia |].
  split; [| split; [| split]].
  - intros t. unfold Spec.isWinning, Num.eqb, Num.gt, SFeqb, SFltb.
    destruct (pnl t) as [s | s | | s m e]; simpl; try discriminate;
      destruct s; auto; discriminate.
  - intros Hne. unfold Page.winRate, Page.avgPnl.
    destruct (Page.totalTrades l); [now elim Hne | split; reflexivity].
  - apply winRate_against_exact.
  - intros Hz. unfold Page.winRate, Page.avgPnl. now rewrite Hz.
Qed.

(** The formula read in exact arithmetic fails where the percentage lies
    half-way: of forty trades twenty-three win, 57.5 per cent, which rounds
    to 58; the Number [(23 / 40) * 100] lies just below 57.5 and the code
    answers 57. *)
Lemma C3_counterexample :
  Page.totalTrades Cases.fortyTrades = 40%nat
  /\ Page.winningTrades Cases.fortyTrades = 23%nat
  /\ Spec.winRate Cases.fortyTrades = Spec.round (23 * 100) 40
  /\ Spec.winRate Cases.fortyTrades = 58
  /\ Page.winRate Cases.fortyTrades = ofZ 57
  /\ Page.winRate Cases.fortyTrades <> ofZ (Spec.winRate Cases.fortyTrades).
Proof.
  split; [reflexivity | split; [vm_compute; reflexivity |]].
  split; [vm_compute; reflexivity | split; [vm_compute; reflexivity |]].
  split; [vm_compute; reflexivity | vm_compute; discriminate].
Qed.

(** ** The date range *)

Lemma lt_NaN_l (x y : number) : isNaN x = true -> (x <? y)%num = false.
Proof. destruct x; try discriminate. reflexivity. Qed.

Lemma gt_NaN_l (x y : number) : isNaN x = true -> (x >? y)%num = false.
Proof.
  destruct x; try discriminate. intros _. unfold Num.gt, SFltb.
  destruct y; reflexivity.
Qed.

Section DateRange.
Variable getTime : string -> number.

Lemma dateRange_of_valid_date (startBound endBound : string) (t : Trade) :
  isNaN (getTime (date t)) = false ->
  Spec.dateRange getTime startBound endBound t
  = Spec.dateRangeStated getTime startBound endBound t.
Proof.
  intros Ht. unfold Spec.dateRange, Spec.dateRangeStated, Spec.parseable.
  f_equal.
  - destruct (truthy startBound); [| reflexivity].
    destruct (isNaN (getTime startBound)) eqn:E; [reflexivity |].
    cbn [andb negb]. now apply not_lt_is_ge.
  - destruct (truthy endBound); [| reflexivity].
    destruct (isNaN (getTime endBound)) eqn:E; [reflexivity |].
    cbn [andb negb]. now apply not_gt_is_le.
Qed.

Lemma dateRange_of_invalid_date (startBound endBound : string) (t : Trade) :
  isNaN (getTime (date t)) = true ->
  Spec.dateRange getTime startBound endBound t = true.
Proof.
  intros Ht. unfold Spec.dateRange.
  rewrite (lt_NaN_l _ _ Ht), (gt_NaN_l _ _ Ht).
  destruct (Spec.parseable getTime startBound),
           (Spec.parseable getTime endBound); reflexivity.
Qed.
End DateRange.

Lemma filteredTrades_dates (getTime : string -> number)
    (trades : list Trade) (f : Page.TradeFilters) (t : Trade) :
  In t (Page.filteredTrades getTime trades f) <->
  In t (Page.filteredTrades getTime trades (Spec.withoutDates f))
  /\ Spec.dateRange getTime (Page.startDate f) (Page.endDate f) t = true.
Proof.
  unfold Page.filteredTrades.
  rewrite !filter_In, !filterCallback_iff. cbn. tauto.
Qed.

(** The callback does not look at a bound that is no parseable date. *)
Lemma filterCallback_start_ignored (getTime : string -> number)
    (f : Page.TradeFilters) (t : Trade) :
  Spec.parseable getTime (Page.startDate f) = false ->
  Page.filterCallback getTime f t
  = Page.filterCallback getTime
      (Page.mkTradeFilters (Page.filter_pair f) (Page.filter_direction f)
         (Page.filter_strategy f) "" (Page.endDate f)) t.
Proof.
  unfold Spec.parseable, Page.filterCallback.
  cbn [Page.filter_pair Page.filter_direction Page.filter_strategy
       Page.startDate Page.endDate].
  intros H.
  destruct (truthy (Page.startDate f)),
           (isNaN (getTime (Page.startDate f)));
    cbn in H; try discriminate; reflexivity.
Qed.

Lemma filterCallback_end_ignored (getTime : string -> number)
    (f : Page.TradeFilters) (t : Trade) :
  Spec.parseable getTime (Page.endDate f) = false ->
  Page.filterCallback getTime f t
  = Page.filterCallback getTime
      (Page.mkTradeFilters (Page.filter_pair f) (Page.filter_direction f)
         (Page.filter_strategy f) (Page.startDate f) "") t.
Proof.
  unfold Spec.parseable, Page.filterCallback.
  cbn [Page.filter_pair Page.filter_direction Page.filter_strategy
       Page.startDate Page.endDate].
  intros H.
  destruct (truthy (Page.endDate f)),
           (isNaN (getTime (Page.endDate f)));
    cbn in H; try discriminate; reflexivity.
Qed.

(** The filter reduced to its date bounds, on the input list. *)
Lemma filteredTrades_onlyDates (getTime : string -> number)
    (trades : list Trade) (f : Page.TradeFilters) (t : Trade) :
  In t (Page.filteredTrades getTime trades (Spec.onlyDates f)) <->
  In t trades
  /\ Spec.dateRange getTime (Page.startDate f) (Page.endDate f) t = true.
Proof.
  unfold Page.filteredTrades. rewrite filter_In, filterCallback_iff.
  cbn [Spec.onlyDates Page.filter_pair Page.filter_strategy
       Page.filter_direction Page.startDate Page.endDate
       Spec.directionPredicate].
  pose proof (textPredicate_blank "" (pair t) eq_refl).
  pose proof (textPredicate_blank "" (strategy t) eq_refl).
  tauto.
Qed.

(** C6, as the code has it.  Of the trades of the input list, the date
    bounds keep exactly those whose date is not before a start bound that
    is a parseable date and not after an end bound that is one; within the
    whole filter the bounds contribute exactly this rule.  For a trade whose
    own date parses this is the stated rule: the trade is kept exactly when
    its date is [>=] a parseable start and [<=] a parseable end.  A trade
    whose own date does not parse is kept whatever the bounds.  A bound that
    does not parse counts as an absent one: the filter gives the same list
    with that bound cleared, and the whole input list when the bounds are
    all there is. *)
Theorem C6_date_range_as_coded :
  forall (getTime : string -> number) (trades : list Trade)
         (f : Page.TradeFilters) (t : Trade),
    (In t (Page.filteredTrades getTime trades (Spec.onlyDates f)) <->
     In t trades
     /\ Spec.dateRange getTime (Page.startDate f) (Page.endDate f) t = true)
    /\ (In t (Page.filteredTrades getTime trades f) <->
        In t (Page.filteredTrades getTime trades (Spec.withoutDates f))
        /\ In t (Page.filteredTrades getTime trades (Spec.onlyDates f)))
    /\ (isNaN (getTime (date t)) = false ->
        (In t (Page.filteredTrades getTime trades (Spec.onlyDates f)) <->
         In t trades
         /\ Spec.dateRangeStated getTime (Page.startDate f) (Page.endDate f) t
            = true))
    /\ (isNaN (getTime (date t)) = true ->
        (In t (Page.filteredTrades getTime trades (Spec.onlyDates f)) <->
         In t trades)
        /\ (In t (Page.filteredTrades getTime trades f) <->
            In t (Page.filteredTrades getTime trades (Spec.withoutDates f))))
    /\ (Spec.parseable getTime (Page.startDate f) = false ->
        Page.filteredTrades getTime trades f
        = Page.filteredTrades getTime trades
            (Page.mkTradeFilters (Page.filter_pair f)
               (Page.filter_direction f) (Page.filter_strategy f)
               "" (Page.endDate f)))
    /\ (Spec.parseable getTime (Page.endDate f) = false ->
        Page.filteredTrades getTime trades f
        = Page.filteredTrades getTime trades
            (Page.mkTradeFilters (Page.filter_pair f)
               (Page.filter_direction f) (Page.filter_strategy f)
               (Page.startDate f) ""))
    /\ (Spec.parseable getTime (Page.startDate f) = false ->
        Spec.parseable getTime (Page.endDate f) = false ->
        Page.filteredTrades getTime trades (Spec.onlyDates f) = trades).
Proof.
  intros getTime trades f t.
  split; [apply filteredTrades_onlyDates
         | split; [| split; [| split; [| split; [| split]]]]].
  - rewrite filteredTrades_onlyDates, filteredTrades_dates.
    unfold Page.filteredTrades at 1 2. rewrite filter_In. tauto.
  - intros Ht. rewrite filteredTrades_onlyDates.
    now rewrite dateRange_of_valid_date.
  - intros Ht. split.
    + rewrite filteredTrades_onlyDates.
      rewrite dateRange_of_invalid_date by exact Ht. tauto.
    + rewrite filteredTrades_dates.
      rewrite dateRange_of_invalid_date by exact Ht. tauto.
  - intros Hs. unfold Page.filteredTrades. apply filter_ext. intros u.
    now apply filterCallback_start_ignored.
  - intros He. unfold Page.filteredTrades. apply filter_ext. intros u.
    now apply filterCallback_end_ignored.
  - intros Hs He. unfold Page.filteredTrades.
    apply filter_all_true. intros u.
    rewrite (filterCallback_start_ignored getTime (Spec.onlyDates f) u)
      by exact Hs.
    cbn [Spec.onlyDates Page.filter_pair Page.filter_direction
         Page.filter_strategy Page.startDate Page.endDate].
    rewrite (filterCallback_end_ignored getTime
               (Page.mkTradeFilters "" Page.All "" "" (Page.endDate f)) u)
      by exact He.
    reflexivity.
Qed.

(** The rule as the specification states it fails on a trade whose own
    date does not parse: the filter from 2024-01-01 on keeps the trade
    dated [n/a], which the stated rule leaves out. *)
Lemma C6_counterexample :
  Spec.parseable isoDateTime (Page.startDate Samples.fromNewYear) = true
  /\ In Samples.undatedTrade
       (Page.filteredTrades isoDateTime [Samples.undatedTrade]
          Samples.fromNewYear)
  /\ Spec.dateRangeStated isoDateTime
       (Page.startDate Samples.fromNewYear)
       (Page.endDate Samples.fromNewYear) Samples.undatedTrade
     = false.
Proof.
  split; [vm_compute; reflexivity | split].
  - vm_compute. left. reflexivity.
  - vm_compute. reflexivity.
Qed.

(** ** The theorems at the sample inputs *)

Lemma C1_profit_loss_formula_witness :
  (In (DbInsert Samples.payload) (snd (Samples.pageSubmit Samples.filledForm))
   /\ Page.payload_pnl Samples.payload
      = Spec.profitLoss (Page.payload_direction Samples.payload)
          (Page.payload_entry_price Samples.payload)
          (Page.payload_exit_price Samples.payload)
          (Page.payload_position_size Samples.payload))
  /\ (In Samples.createdTrade
        (Legacy.trades
           (fst (Legacy.handleSubmit Samples.today "1712880000000"
                   (Samples.legacyState Samples.filledForm))))
      /\ (In Samples.createdTrade Legacy.initialTrades
          \/ Spec.profitLossHolds Samples.createdTrade)).
Proof.
  assert (H1 : In (DbInsert Samples.payload)
                 (snd (Samples.pageSubmit Samples.filledForm)))
    by (vm_compute; left; reflexivity).
  assert (H2 : In Samples.createdTrade
                 (Legacy.trades
                    (fst (Legacy.handleSubmit Samples.today "1712880000000"
                            (Samples.legacyState Samples.filledForm)))))
    by (vm_compute; left; reflexivity).
  split; split.
  - exact H1.
  - exact (proj1 C1_profit_loss_formula _ _ _ _ _ _ _ H1
             (or_introl eq_refl)).
  - exact H2.
  - exact (proj1 (proj2 C1_profit_loss_formula) _ _ _ _ H2).
Defined.

Lemma C10_calculatePnL_guard_witness :
  calculatePnL Long NaN (ofZ 63100) (ofDecimal false 5 (-1)) = zero
  /\ calculatePnL Short (ofZ 3120) Infinity (ofZ 20) = zero
  /\ Page.payload_pnl Samples.payload
     = calculatePnL (Page.payload_direction Samples.payload)
         (Page.payload_entry_price Samples.payload)
         (Page.payload_exit_price Samples.payload)
         (Page.payload_position_size Samples.payload)
  /\ (In Samples.createdTrade Legacy.initialTrades
      \/ pnl Samples.createdTrade
         = calculatePnL (direction Samples.createdTrade)
             (entryPrice Samples.createdTrade)
             (exitPrice Samples.createdTrade)
             (positionSize Samples.createdTrade)).
Proof.
  assert (H1 : In (DbInsert Samples.payload)
                 (snd (Samples.pageSubmit Samples.filledForm)))
    by (vm_compute; left; reflexivity).
  assert (H2 : In Samples.createdTrade
                 (Legacy.trades
                    (fst (Legacy.handleSubmit Samples.today "1712880000000"
                            (Samples.legacyState Samples.filledForm)))))
    by (vm_compute; left; reflexivity).
  split; [| split; [| split]].
  - exact (proj1 C10_calculatePnL_guard Long NaN _ _ (or_introl eq_refl)).
  - exact (proj1 C10_calculatePnL_guard Short _ Infinity _
             (or_intror (or_introl eq_refl))).
  - exact (proj1 (proj2 C10_calculatePnL_guard) _ _ _ _ _ _ _ H1
             (or_introl eq_refl)).
  - exact (proj2 (proj2 C10_calculatePnL_guard) _ _ _ _ H2).
Defined.

Lemma C8_preview_undefined_witness :
  calculatedPnL Samples.filledForm = Some (ofZ 925)
  /\ calculatedPnL Samples.garbledForm = None
  /\ Page.parseNumericField
       (Page.RawString (form_entryPrice Samples.garbledForm)) = zero.
Proof.
  assert (H1 : ~ Spec.previewUndefined Samples.filledForm).
  { intros [H | [H | [H | H]]]; vm_compute in H; discriminate. }
  assert (H2 : Spec.parses (form_entryPrice Samples.garbledForm) = false)
    by (vm_compute; reflexivity).
  split; [| exact (proj2 (proj2 (C8_preview_undefined Samples.garbledForm))
                     H2)].
  rewrite (proj1 (proj2 (C8_preview_undefined Samples.filledForm)) H1).
  vm_compute. reflexivity.
Defined.

Lemma C9_validation_failure_is_atomic_witness :
  (exists text,
      Samples.pageSubmit Samples.blankPairForm
      = (Samples.pageState Samples.blankPairForm, [Alert text]))
  /\ (exists text,
      Legacy.handleSubmit Samples.today "1712880000000"
        (Samples.legacyState Samples.garbledForm)
      = (Samples.legacyState Samples.garbledForm, [Alert text])).
Proof.
  split.
  - apply (proj1 C9_validation_failure_is_atomic).
    left. vm_compute. reflexivity.
  - apply (proj2 C9_validation_failure_is_atomic).
    right. right. left. vm_compute. reflexivity.
Defined.

Lemma C2_normalizer_total_witness :
  Page.parseNumericField (Page.RawString "3120") = ofZ 3120
  /\ Page.parseNumericField (Page.RawString "n/a") = zero
  /\ sentiment (Page.mapRowToTrade Samples.row) = ""
  /\ pnl (Page.mapRowToTrade Samples.row) = zero.
Proof.
  pose proof C2_normalizer_total
    as (_ & _ & Hparsed & Hfailed & _ & _ & Hrow).
  pose proof (Hrow Samples.row) as (_ & _ & Hpnl & _ & Habsent & _).
  split; [| split; [| split]].
  - rewrite (Hparsed "3120"); vm_compute; reflexivity.
  - apply (Hfailed "n/a"). vm_compute. reflexivity.
  - apply Habsent. reflexivity.
  - rewrite Hpnl. vm_compute. reflexivity.
Defined.

Lemma C3_statistics_in_number_arithmetic_witness :
  Spec.isWinning Samples.flatTrade = false
  /\ Page.losingTrades [Samples.flatTrade] = 1%nat
  /\ Page.winRate [] = zero
  /\ Page.avgPnl [] = zero
  /\ Page.winRate Legacy.initialTrades = ofZ 75
  /\ (Page.winRate Cases.fortyTrades = ofZ 58
      \/ Page.winRate Cases.fortyTrades = ofZ 57)
  /\ Page.avgPnl Legacy.initialTrades
     = (Page.totalPnL Legacy.initialTrades / ofZ 4)%num.
Proof.
  pose proof (C3_statistics_in_number_arithmetic Legacy.initialTrades)
    as (_ & _ & _ & _ & _ & _ & _ & Havg & _).
  pose proof (C3_statistics_in_number_arithmetic [Samples.flatTrade])
    as (_ & _ & _ & _ & Hl & _ & Hz & _).
  pose proof (C3_statistics_in_number_arithmetic [])
    as (_ & _ & _ & _ & _ & _ & _ & _ & _ & He).
  pose proof (C3_statistics_in_number_arithmetic Legacy.initialTrades)
    as (_ & _ & _ & _ & _ & _ & _ & _ & Hsample & _).
  pose proof (C3_statistics_in_number_arithmetic Cases.fortyTrades)
    as (_ & _ & _ & _ & _ & _ & _ & _ & Hforty & _).
  split; [| split; [| split; [| split; [| split; [| split]]]]].
  - apply Hz. vm_compute. reflexivity.
  - rewrite Hl. vm_compute. reflexivity.
  - apply He. reflexivity.
  - apply He. reflexivity.
  - apply (proj1 (Hsample ltac:(vm_compute; reflexivity))).
    vm_compute. reflexivity.
  - apply (proj2 (Hforty ltac:(vm_compute; reflexivity))).
    vm_compute. reflexivity.
  - apply (proj2 (Havg ltac:(vm_compute; discriminate))).
Defined.

Lemma C4_filter_conjunctive_witness :
  Page.filteredTrades isoDateTime Legacy.initialTrades
    Page.createDefaultFilters = Legacy.initialTrades
  /\ Spec.textPredicate (Page.filter_pair Samples.btcOnly)
       (pair Samples.btcLong).
Proof.
  split.
  - apply (proj1 (proj2 (proj2 (C4_filter_conjunctive isoDateTime
                           Legacy.initialTrades Page.createDefaultFilters))));
      reflexivity.
  - assert (H : In Samples.btcLong
                  (Page.filteredTrades isoDateTime Legacy.initialTrades
                     Samples.btcOnly))
      by (vm_compute; left; reflexivity).
    apply (proj1 (C4_filter_conjunctive isoDateTime Legacy.initialTrades
                    Samples.btcOnly)) in H.
    exact (proj1 (proj2 H)).
Defined.

Lemma C5_text_predicates_witness :
  In Samples.btcLong
    (Page.filteredTrades isoDateTime Legacy.initialTrades
       (Spec.onlyPair Samples.btcOnly))
  /\ Page.filteredTrades isoDateTime Legacy.initialTrades
       (Spec.onlyPair Cases.blankOnly)
     = Legacy.initialTrades
  /\ Page.filteredTrades isoDateTime Legacy.initialTrades
       (Spec.onlyStrategy Cases.blankOnly)
     = Legacy.initialTrades.
Proof.
  split; [| split].
  - apply (proj1 (proj2 (proj2 (proj2 (proj2 (proj2 (proj2
             (C5_text_predicates isoDateTime Legacy.initialTrades
                Samples.btcOnly)))))))).
    + vm_compute. left. reflexivity.
    + apply includes_iff. vm_compute. reflexivity.
  - apply (proj1 (proj2 (proj2 (proj2
             (C5_text_predicates isoDateTime Legacy.initialTrades
                Cases.blankOnly))))).
    vm_compute. reflexivity.
  - apply (proj1 (proj2 (proj2 (proj2 (proj2
             (C5_text_predicates isoDateTime Legacy.initialTrades
                Cases.blankOnly)))))).
    vm_compute. reflexivity.
Defined.

Lemma C6_date_range_as_coded_witness :
  In Samples.ethShort
    (Page.filteredTrades isoDateTime Legacy.initialTrades
       (Spec.onlyDates Samples.midApril))
  /\ In Samples.undatedTrade
       (Page.filteredTrades isoDateTime
          (Samples.undatedTrade :: Legacy.initialTrades)
          (Spec.onlyDates Samples.midApril))
  /\ Page.filteredTrades isoDateTime Legacy.initialTrades
       (Spec.onlyDates Cases.garbledBounds)
     = Legacy.initialTrades.
Proof.
  split; [| split].
  - apply (proj1 (proj2 (proj2 (C6_date_range_as_coded isoDateTime
                                  Legacy.initialTrades Samples.midApril
                                  Samples.ethShort)))).
    + vm_compute. reflexivity.
    + split; [vm_compute; right; left; reflexivity
             | vm_compute; reflexivity].
  - apply (proj1 (proj1 (proj2 (proj2 (proj2
             (C6_date_range_as_coded isoDateTime
                (Samples.undatedTrade :: Legacy.initialTrades)
                Samples.midApril Samples.undatedTrade))))
             ltac:(vm_compute; reflexivity))).
    left. reflexivity.
  - apply (proj2 (proj2 (proj2 (proj2 (proj2 (proj2
             (C6_date_range_as_coded isoDateTime Legacy.initialTrades
                Cases.garbledBounds Samples.btcLong)))))));
      vm_compute; reflexivity.
Defined.

Lemma C7_pnl_sort_reversal_witness :
  Spec.precedes Samples.btcLong Samples.ethShort
    (Page.sortedTrades isoDateTime Legacy.initialTrades Page.pnl_asc)
  <-> Spec.precedes Samples.ethShort Samples.btcLong
        (Page.sortedTrades isoDateTime Legacy.initialTrades Page.pnl_desc).
Proof.
  refine (proj1 (C7_pnl_sort_reversal isoDateTime Legacy.initialTrades
                   Samples.btcLong Samples.ethShort _ _ _ _)).
  - intros t [<- | [<- | [<- | [<- | []]]]]; split; vm_compute; reflexivity.
  - vm_compute. left. reflexivity.
  - vm_compute. right. left. reflexivity.
  - vm_compute. reflexivity.
Defined.

(** * Further properties of the component *)

(** ** Numbers: negation, and the sign of a product *)

Lemma binary_round_aux_opp (s : bool) (m e : Z) (l : location) :
  binary_round_aux prec emax (negb s) m e l
  = SFopp (binary_round_aux prec emax s m e l).
Proof.
  unfold binary_round_aux.
  destruct (shr_fexp prec emax m e l) as [mrs' e'].
  destruct (shr_fexp prec emax _ e' loc_Exact) as [mrs'' e''].
  destruct (shr_m mrs''); try reflexivity.
  destruct (e'' <=? emax - prec); reflexivity.
Qed.

Lemma binary_round_opp (s : bool) (m : positive) (e : Z) :
  binary_round prec emax (negb s) m e = SFopp (binary_round prec emax s m e).
Proof.
  unfold binary_round.
  destruct (shl_align m e _) as [mz ez]. apply binary_round_aux_opp.
Qed.

Lemma mul_opp_l (d s : number) : (Num.opp d * s)%num = Num.opp (d * s)%num.
Proof.
  unfold Num.mul, Num.opp.
  destruct d as [sd | sd | | sd md ed], s as [ss | ss | | ss ms es];
    cbn [SFmul SFopp]; rewrite <- ?negb_xorb_l; try reflexivity.
  apply binary_round_aux_opp.
Qed.

(** Swapping the operands of a subtraction negates the result; an exact
    zero is [+0] both ways. *)
Lemma sub_swap (x y : number) :
  (y - x)%num = Num.opp (x - y)%num
  \/ ((x - y)%num = zero /\ (y - x)%num = zero).
Proof.
  unfold Num.sub, Num.opp, zero.
  destruct x as [sx | sx | | sx mx ex], y as [sy | sy | | sy my ey];
    cbn [SFsub SFopp];
    try (left; reflexivity);
    try (destruct sx, sy; cbn; auto; fail);
    try (destruct sx; cbn; auto; fail);
    try (destruct sy; cbn; auto; fail).
  rewrite (Z.min_comm ey ex).
  set (a := cond_Zopp sx (Zpos (fst (shl_align mx ex (Z.min ex ey))))).
  set (b := cond_Zopp sy (Zpos (fst (shl_align my ey (Z.min ex ey))))).
  replace (b - a) with (- (a - b)) by lia.
  destruct (a - b) as [| p | p]; cbn [Z.opp binary_normalize].
  - right. auto.
  - left. apply (binary_round_opp false).
  - left. rewrite <- (binary_round_opp true). reflexivity.
Qed.

Lemma shr_fexp_nonneg (m e : Z) (l : location) :
  0 <= m -> 0 <= shr_m (fst (shr_fexp prec emax m e l)).
Proof.
  intros Hm. unfold shr_fexp, shr.
  destruct (fexp prec emax (Zdigits2 m + e) - e) as [| n | n];
    cbn [fst]; rewrite ?shr_record_of_loc_m; try lia.
  rewrite iter_shr_1_m, shr_record_of_loc_m
    by (rewrite shr_record_of_loc_m; lia).
  apply Z.div_pos; lia.
Qed.

(** Rounding a positive integer gives a zero, a finite value or an
    infinity of the sign asked for, never NaN. *)
Lemma binary_round_aux_sign (sx : bool) (m e : Z) (l : location) :
  0 <= m ->
  binary_round_aux prec emax sx m e l = S754_zero sx
  \/ (exists m' e', binary_round_aux prec emax sx m e l = S754_finite sx m' e')
  \/ binary_round_aux prec emax sx m e l = S754_infinity sx.
Proof.
  intros Hm. unfold binary_round_aux.
  pose proof (shr_fexp_nonneg m e l Hm) as H1.
  destruct (shr_fexp prec emax m e l) as [mrs' e']. cbn [fst] in H1.
  pose proof (round_nearest_even_ge (shr_m mrs') (loc_of_shr_record mrs'))
    as Hr.
  pose proof (shr_fexp_nonneg
                (round_nearest_even (shr_m mrs') (loc_of_shr_record mrs'))
                e' loc_Exact ltac:(lia)) as H3.
  destruct (shr_fexp prec emax _ e' loc_Exact) as [mrs'' e''].
  cbn [fst] in H3.
  destruct (shr_m mrs'') as [| q | q]; try lia; auto.
  destruct (e'' <=? emax - prec); eauto.
Qed.

(** A positive Number times a positive finite Number is not negative. *)
Lemma mul_positive (d s : number) :
  (d >? zero)%num = true -> isFinite s = true -> (s >? zero)%num = true ->
  (d * s >=? zero)%num = true.
Proof.
  unfold Num.gt, Num.ge, Num.mul, zero.
  destruct d as [sd | sd | | sd md ed], s as [ss | ss | | ss ms es];
    cbn [isFinite]; try discriminate;
    try (destruct sd; discriminate);
    try (destruct ss; discriminate);
    destruct sd, ss; try discriminate; intros _ _ _; try reflexivity.
  cbn [SFmul xorb].
  destruct (binary_round_aux_sign false (Zpos (md * ms)) (ed + es) loc_Exact
              ltac:(lia))
    as [-> | [(m' & e' & ->) | ->]]; reflexivity.
Qed.

Lemma opp_ge_zero (x : number) :
  (x >=? zero)%num = true -> (Num.opp x <=? zero)%num = true.
Proof.
  unfold Num.ge, Num.le, Num.opp, zero.
  destruct x as [s | s | | s m e]; cbn; try discriminate;
    destruct s; cbn; auto.
Qed.

Lemma sub_self (x : number) : isFinite x = true -> (x - x)%num = zero.
Proof.
  unfold Num.sub, zero.
  destruct x as [s | s | | s m e]; cbn [isFinite SFsub]; try discriminate;
    intros _.
  - destruct s; reflexivity.
  - rewrite Z.sub_diag. reflexivity.
Qed.

Lemma mul_zero_l (s : number) :
  isFinite s = true -> Reading.isZero (zero * s)%num = true.
Proof.
  destruct s as [ss | ss | | ss ms es]; cbn; try discriminate; reflexivity.
Qed.

Lemma isZero_not_positive (x : number) :
  Reading.isZero x = true ->
  (x >? zero)%num = false /\ (x <? zero)%num = false.
Proof.
  destruct x as [s | s | | s m e]; cbn; try discriminate.
  split; reflexivity.
Qed.

(** ** calculatePnL: what the direction means *)

(** X1.  A trade closed at its entry price, with finite price and size, has
    a profit/loss that is a zero: it is neither above nor below zero,
    whatever the direction. *)
Theorem X_calculatePnL_flat :
  forall (d : TradeDirection) (price size : number),
    isFinite price = true -> isFinite size = true ->
    Reading.isZero (calculatePnL d price price size) = true
    /\ (calculatePnL d price price size >? zero)%num = false
    /\ (calculatePnL d price price size <? zero)%num = false.
Proof.
  intros d price size Hp Hs.
  assert (Hz : Reading.isZero (calculatePnL d price price size) = true).
  { rewrite calculatePnL_finite by assumption.
    destruct d; cbn [Spec.profitLoss]; rewrite sub_self by assumption;
      now apply mul_zero_l. }
  split; [exact Hz | now apply isZero_not_positive].
Qed.

(** X2.  For the same entry, exit and size the Short profit/loss is the
    negation of the Long one; the only exception is a zero result (equal
    prices, or inputs that are not finite), where both are zeros. *)
Theorem X_calculatePnL_mirror :
  forall entry exit size : number,
    calculatePnL Short entry exit size
    = Num.opp (calculatePnL Long entry exit size)
    \/ (Reading.isZero (calculatePnL Short entry exit size) = true
        /\ Reading.isZero (calculatePnL Long entry exit size) = true).
Proof.
  intros entry exit size.
  destruct (isFinite entry) eqn:He;
    [| right; rewrite !calculatePnL_guarded by auto; split; reflexivity].
  destruct (isFinite exit) eqn:Hx;
    [| right; rewrite !calculatePnL_guarded by auto; split; reflexivity].
  destruct (isFinite size) eqn:Hs;
    [| right; rewrite !calculatePnL_guarded by auto; split; reflexivity].
  rewrite !calculatePnL_finite by assumption. cbn [Spec.profitLoss].
  destruct (sub_swap exit entry) as [-> | [-> ->]].
  - left. apply mul_opp_l.
  - right. split; now apply mul_zero_l.
Qed.

(** X3.  With finite prices and a finite size above zero, a Long trade that
    exits above its entry (a Short one that exits below) never has a
    negative profit/loss, and one that moves the other way never has a
    positive one. *)
Theorem X_calculatePnL_sign :
  forall (d : TradeDirection) (entry exit size : number),
    wf entry -> wf exit ->
    isFinite entry = true -> isFinite exit = true ->
    isFinite size = true -> (size >? zero)%num = true ->
    let gain := match d with
                | Long => (exit >? entry)%num
                | Short => (entry >? exit)%num
                end in
    let loss := match d with
                | Long => (entry >? exit)%num
                | Short => (exit >? entry)%num
                end in
    (gain = true -> (calculatePnL d entry exit size >=? zero)%num = true)
    /\ (loss = true -> (calculatePnL d entry exit size <=? zero)%num = true).
Proof.
  intros d entry exit size We Wx He Hx Hs Hpos gain loss.
  rewrite calculatePnL_finite by assumption.
  subst gain loss.
  assert (Hup : forall a b : number, wf a -> wf b ->
            (a >? b)%num = true -> ((a - b) * size >=? zero)%num = true).
  { intros a b Wa Wb Hgt. apply mul_positive; auto.
    now rewrite sub_positive_iff. }
  assert (Hdown : forall a b : number, wf a -> wf b ->
            (a >? b)%num = true -> ((b - a) * size <=? zero)%num = true).
  { intros a b Wa Wb Hgt.
    pose proof (sub_positive_iff a b Wa Wb) as Hd. rewrite Hgt in Hd.
    destruct (sub_swap a b) as [-> | [Hz _]].
    - rewrite mul_opp_l. apply opp_ge_zero. now apply Hup.
    - rewrite Hz in Hd. discriminate. }
  destruct d; cbn [Spec.profitLoss]; split; intros H; auto.
Qed.

(** ** Paging *)

(** X4.  The visible trades are a prefix of the sorted trades: all of them
    when 'show all' is on, the first pageSize of them otherwise, so their
    number is the smaller of pageSize and the number of sorted trades. *)
Theorem X_visibleTrades_paging :
  forall (showAllTrades : bool) (pageSize : nat) (sortedTrades : list Trade),
    (exists rest,
        sortedTrades
        = Page.visibleTrades showAllTrades pageSize sortedTrades ++ rest)
    /\ List.length (Page.visibleTrades showAllTrades pageSize sortedTrades)
       = (if showAllTrades then List.length sortedTrades
          else Nat.min pageSize (List.length sortedTrades))
    /\ Page.visibleTrades true pageSize sortedTrades = sortedTrades
    /\ Page.visibleTrades false pageSize sortedTrades
       = firstn pageSize sortedTrades.
Proof.
  intros showAll n l.
  assert (Hfalse : Page.visibleTrades false n l = firstn n l).
  { unfold Page.visibleTrades. cbn [orb].
    destruct (n <? List.length l)%nat eqn:E; cbn [negb]; [reflexivity |].
    apply Nat.ltb_ge in E. symmetry. now apply firstn_all2. }
  assert (Htrue : Page.visibleTrades true n l = l) by reflexivity.
  split; [| split; [| split]]; auto.
  - destruct showAll.
    + exists []. rewrite Htrue. now rewrite app_nil_r.
    + exists (skipn n l). rewrite Hfalse. symmetry. apply firstn_skipn.
  - destruct showAll.
    + now rewrite Htrue.
    + rewrite Hfalse. apply length_firstn.
Qed.

(** ** Sorting by any key *)

Section AnySort.
Variable getTime : string -> number.

Lemma after_sortValue (key : Page.SortKey) (a b : Trade) :
  wf (Reading.sortValue getTime key a) ->
  wf (Reading.sortValue getTime key b) ->
  (SortCompare (Page.compareTrades getTime key) a b >? zero)%num
  = if Reading.ascending key
    then (Reading.sortValue getTime key a >? Reading.sortValue getTime key b)%num
    else (Reading.sortValue getTime key b >? Reading.sortValue getTime key a)%num.
Proof.
  intros Ha Hb. rewrite SortCompare_positive.
  destruct key; cbn in *; now apply sub_positive_iff.
Qed.

Lemma sortedTrades_sorted (key : Page.SortKey) (l : list Trade) :
  Forall (fun t => Spec.isNumber (Reading.sortValue getTime key t)) l ->
  StronglySorted
    (fun a b =>
       (SortCompare (Page.compareTrades getTime key) a b >? zero)%num = false)
    (Page.sortedTrades getTime l key).
Proof.
  intros HP.
  apply Array_sort_sorted
    with (P := fun t => Spec.isNumber (Reading.sortValue getTime key t));
    [| | exact HP].
  - intros x y [Hx _] [Hy _]. rewrite !after_sortValue by assumption.
    destruct (Reading.ascending key); apply lt_asym.
  - intros x y z [Hx _] [Hy Hny] [Hz _].
    rewrite !after_sortValue by assumption.
    destruct (Reading.ascending key).
    + now apply lt_negtrans.
    + intros H1 H2. exact (lt_negtrans _ _ _ Hny H2 H1).
Qed.
End AnySort.

(** X5.  Sorting, by any key, neither drops nor duplicates a trade: the
    sorted list is a permutation of the filtered list, of the same length
    and with the same members. *)
Theorem X_sortedTrades_permutation :
  forall (getTime : string -> number) (l : list Trade) (key : Page.SortKey),
    Permutation l (Page.sortedTrades getTime l key)
    /\ List.length (Page.sortedTrades getTime l key) = List.length l
    /\ (forall t, In t (Page.sortedTrades getTime l key) <-> In t l).
Proof.
  intros getTime l key.
  assert (Hp : Permutation l (Page.sortedTrades getTime l key))
    by apply Array_sort_perm.
  split; [exact Hp | split].
  - symmetry. now apply Permutation_length.
  - intros t. split; apply Permutation_in; [symmetry |]; exact Hp.
Qed.

Lemma sortedTrades_precedes :
  forall (getTime : string -> number) (key : Page.SortKey)
         (l : list Trade) (a b : Trade),
    (forall t, In t l -> Spec.isNumber (Reading.sortValue getTime key t)) ->
    Spec.precedes a b (Page.sortedTrades getTime l key) ->
    if Reading.ascending key
    then (Reading.sortValue getTime key a >? Reading.sortValue getTime key b)%num
         = false
    else (Reading.sortValue getTime key a <? Reading.sortValue getTime key b)%num
         = false.
Proof.
  intros getTime key l a b HP Hpre.
  assert (Hin : forall t, In t (Page.sortedTrades getTime l key) -> In t l).
  { intros t. apply Permutation_in. symmetry. apply Array_sort_perm. }
  assert (Ha : In a l).
  { apply Hin. destruct Hpre as (l1 & l2 & l3 & ->).
    apply in_or_app. right. now left. }
  assert (Hb : In b l).
  { apply Hin. destruct Hpre as (l1 & l2 & l3 & ->).
    apply in_or_app. right. right. apply in_or_app. right. now left. }
  pose proof (sorted_precedes (Page.compareTrades getTime key) a b _
                (sortedTrades_sorted getTime key l
                   (proj2 (Forall_forall _ _) HP)) Hpre) as H.
  cbv beta in H.
  rewrite after_sortValue in H by (now apply HP).
  destruct (Reading.ascending key); exact H.
Qed.

(** X6.  When the values of the sort field are Numbers other than NaN, the
    sorted list is in order for each of the six keys: under an ascending key
    no trade stands before one with a smaller value, under a descending key
    none stands before one with a larger value. *)
Theorem X_sortedTrades_ordered :
  forall (getTime : string -> number) (key : Page.SortKey)
         (l : list Trade) (a b : Trade),
    (forall t, In t l -> Spec.isNumber (Reading.sortValue getTime key t)) ->
    Spec.precedes a b (Page.sortedTrades getTime l key) ->
    if Reading.ascending key
    then (Reading.sortValue getTime key a >? Reading.sortValue getTime key b)%num
         = false
    else (Reading.sortValue getTime key a <? Reading.sortValue getTime key b)%num
         = false.
Proof. exact sortedTrades_precedes. Qed.

Lemma sortTradesByDateDesc_precedes (getTime : string -> number)
    (l : list Trade) (a b : Trade) :
  (forall t, In t (Page.sortTradesByDateDesc getTime l) ->
             Spec.isNumber (getTime (date t))) ->
  Spec.precedes a b (Page.sortTradesByDateDesc getTime l) ->
  (getTime (date a) <? getTime (date b))%num = false.
Proof.
  intros HP Hpre.
  apply (sortedTrades_precedes getTime Page.date_desc l a b); [| exact Hpre].
  intros t Ht. apply HP.
  apply (Permutation_in _ (Array_sort_perm _ l)). exact Ht.
Qed.

(** ** Filters: inactive filters, letter case, date bounds *)

(** X7.  When hasActiveFilters is false the filtered list is the whole trade
    list; resetFilters leaves no active filter, turns 'show all' off and
    keeps the trades. *)
Theorem X_hasActiveFilters_inactive :
  forall (getTime : string -> number) (trades : list Trade)
         (f : Page.TradeFilters) (s : Page.AppState),
    (PageUI.hasActiveFilters f = false ->
     Page.filteredTrades getTime trades f = trades)
    /\ PageUI.hasActiveFilters (Page.filters (PageUI.resetFilters s)) = false
    /\ Page.showAllTrades (PageUI.resetFilters s) = false
    /\ Page.trades (PageUI.resetFilters s) = Page.trades s.
Proof.
  intros getTime trades f s. split; [| repeat split].
  unfold PageUI.hasActiveFilters.
  rewrite !orb_false_iff, !truthy_false_iff.
  intros [[[[Hd Hp] Hs] Hb] He].
  unfold Page.filteredTrades. apply filter_all_true. intros t.
  apply filterCallback_iff. rewrite Hb, He.
  repeat split; try (now apply textPredicate_blank).
  destruct (Page.filter_direction f); [discriminate | exact I].
Qed.

Lemma lowerChar_idem (c : ascii) : lowerChar (lowerChar c) = lowerChar c.
Proof. destruct c as [[] [] [] [] [] [] [] []]; reflexivity. Qed.

Lemma isWhiteSpace_lowerChar (c : ascii) :
  isWhiteSpace (lowerChar c) = isWhiteSpace c.
Proof. destruct c as [[] [] [] [] [] [] [] []]; reflexivity. Qed.

Lemma truthy_toLowerCase (s : string) : truthy (toLowerCase s) = truthy s.
Proof. destruct s; reflexivity. Qed.

Lemma trimStart_toLowerCase (s : string) :
  trimStart (toLowerCase s) = toLowerCase (trimStart s).
Proof.
  induction s as [| c s IH]; [reflexivity |].
  cbn [toLowerCase trimStart]. rewrite isWhiteSpace_lowerChar.
  destruct (isWhiteSpace c); [exact IH | reflexivity].
Qed.

Lemma trimEnd_toLowerCase (s : string) :
  trimEnd (toLowerCase s) = toLowerCase (trimEnd s).
Proof.
  induction s as [| c s IH]; [reflexivity |].
  cbn [toLowerCase trimEnd].
  rewrite isWhiteSpace_lowerChar, IH, truthy_toLowerCase.
  destruct (isWhiteSpace c && negb (truthy (trimEnd s))); reflexivity.
Qed.

Lemma trim_toLowerCase (s : string) :
  trim (toLowerCase s) = toLowerCase (trim s).
Proof.
  unfold trim. now rewrite trimStart_toLowerCase, trimEnd_toLowerCase.
Qed.

(** X8.  The filter does not see letter case: two filters whose pair and
    strategy texts differ only in case, applied to two trades whose pair and
    strategy differ only in case, give the same answer. *)
Theorem X_filter_ignores_case :
  forall (getTime : string -> number) (f f' : Page.TradeFilters)
         (t t' : Trade),
    toLowerCase (Page.filter_pair f) = toLowerCase (Page.filter_pair f') ->
    toLowerCase (Page.filter_strategy f)
    = toLowerCase (Page.filter_strategy f') ->
    Page.filter_direction f = Page.filter_direction f' ->
    Page.startDate f = Page.startDate f' ->
    Page.endDate f = Page.endDate f' ->
    toLowerCase (pair t) = toLowerCase (pair t') ->
    toLowerCase (strategy t) = toLowerCase (strategy t') ->
    direction t = direction t' ->
    date t = date t' ->
    Page.filterCallback getTime f t = Page.filterCallback getTime f' t'.
Proof.
  intros getTime f f' t t' Hp Hs Hd Hb He Htp Hts Htd Htt.
  unfold Page.filterCallback.
  rewrite <- !trim_toLowerCase.
  rewrite <- (truthy_toLowerCase (Page.filter_pair f)),
          <- (truthy_toLowerCase (Page.filter_strategy f)),
          <- (truthy_toLowerCase (Page.filter_pair f')),
          <- (truthy_toLowerCase (Page.filter_strategy f')).
  now rewrite Hp, Hs, Hd, Hb, He, Htp, Hts, Htd, Htt.
Qed.

Lemma lt_irrefl (x : number) : (x <? x)%num = false.
Proof.
  destruct (x <? x)%num eqn:E; [| reflexivity].
  pose proof (lt_asym _ _ E). congruence.
Qed.

(** X9.  The date bounds are inclusive: a range that starts and ends on a
    trade's own date keeps that trade. A range whose parseable end lies
    before its parseable start rejects every trade whose date parses. *)
Theorem X_date_range_bounds :
  forall (getTime : string -> number) (t : Trade),
    Page.filterCallback getTime
      (Page.mkTradeFilters "" Page.All "" (date t) (date t)) t = true
    /\ (forall f : Page.TradeFilters,
        Spec.parseable getTime (Page.startDate f) = true ->
        Spec.parseable getTime (Page.endDate f) = true ->
        (getTime (Page.endDate f) <? getTime (Page.startDate f))%num = true ->
        isNaN (getTime (date t)) = false ->
        Page.filterCallback getTime f t = false).
Proof.
  intros getTime t. split.
  - unfold Page.filterCallback. cbn.
    unfold Num.gt. rewrite !lt_irrefl, !andb_false_r. reflexivity.
  - intros f Hs He Hinv Ht.
    destruct (Page.filterCallback getTime f t) eqn:E; [| reflexivity].
    apply filterCallback_iff in E as (_ & _ & _ & Hr).
    unfold Spec.dateRange in Hr. rewrite Hs, He in Hr.
    apply andb_true_iff in Hr as [H1 H2].
    apply negb_true_iff in H1, H2. unfold Num.gt in H2.
    pose proof (lt_negtrans _ _ _ Ht H1 H2). congruence.
Qed.

(** ** Submitting a valid form *)

Lemma invalidForm_dec (fd : TradeFormData) :
  Spec.invalidForm fd \/ ~ Spec.invalidForm fd.
Proof.
  rewrite invalidForm_tests.
  destruct (negb (truthy (trim (form_pair fd)))); [auto |].
  destruct (negb (truthy (trim (form_strategy fd)))); [auto |].
  destruct (negb (isFinite (parseFloat (form_entryPrice fd)))
            || negb (isFinite (parseFloat (form_exitPrice fd)))); [auto |].
  destruct (negb (isFinite (parseFloat (form_positionSize fd)))
            || (parseFloat (form_positionSize fd) <=? zero)%num); [auto |].
  right. intuition discriminate.
Qed.

Section PageSubmitValid.
Variable getTime : string -> number.
Variable today : string.
Variable db_insert : Page.Payload -> Page.Response.
Variable db_update : string -> Page.Payload -> Page.Response.

Let handleSubmit := Page.handleSubmit getTime today db_insert db_update.

(** What a valid form is turned into, and the four ways the handler can
    end after the call. *)
Lemma Page_handleSubmit_valid (s : Page.AppState) :
  ~ Spec.invalidForm (Page.formData s) ->
  exists p : Page.Payload,
    (Page.payload_pair p = form_pair (Page.formData s)
     /\ Page.payload_direction p = form_direction (Page.formData s)
     /\ Page.payload_strategy p = form_strategy (Page.formData s)
     /\ Page.payload_entry_price p
        = parseFloat (form_entryPrice (Page.formData s))
     /\ Page.payload_exit_price p
        = parseFloat (form_exitPrice (Page.formData s))
     /\ Page.payload_position_size p
        = parseFloat (form_positionSize (Page.formData s))
     /\ Page.payload_sentiment p
        = (if truthy (trim (form_sentiment (Page.formData s)))
           then Some (form_sentiment (Page.formData s)) else None)
     /\ Page.payload_trade_date p = form_date (Page.formData s))
    /\ handleSubmit s
       = match truthyKey (Page.editingTradeId s) with
         | Some key =>
             match Page.error (db_update key p) with
             | Some e =>
                 (Page.setIsSubmitting false s,
                  [DbUpdate key p; ConsoleError e;
                   Alert (Page.submitFailureText e)])
             | None =>
                 (Page.setIsSubmitting false
                    (Page.closeModal today
                       match Page.data (db_update key p) with
                       | Some row =>
                           Page.setTrades
                             (Page.sortTradesByDateDesc getTime
                                (map (fun trade =>
                                        if String.eqb (id trade) key
                                        then Page.mapRowToTrade row
                                        else trade)
                                   (Page.trades s)))
                             s
                       | None => s
                       end),
                  [DbUpdate key p])
             end
         | None =>
             match Page.error (db_insert p) with
             | Some e =>
                 (Page.setIsSubmitting false s,
                  [DbInsert p; ConsoleError e;
                   Alert (Page.submitFailureText e)])
             | None =>
                 (Page.setIsSubmitting false
                    (Page.closeModal today
                       match Page.data (db_insert p) with
                       | Some row =>
                           Page.setTrades
                             (Page.sortTradesByDateDesc getTime
                                (Page.mapRowToTrade row :: Page.trades s))
                             s
                       | None => s
                       end),
                  [DbInsert p])
             end
         end.
Proof.
  intros Hvalid. rewrite invalidForm_tests in Hvalid.
  unfold handleSubmit, Page.handleSubmit.
  destruct (negb (truthy (trim (form_pair (Page.formData s))))) eqn:E1;
    [exfalso; auto |].
  destruct (negb (truthy (trim (form_strategy (Page.formData s))))) eqn:E2;
    [exfalso; auto |].
  destruct (negb (isFinite (parseFloat (form_entryPrice (Page.formData s))))
            || negb (isFinite (parseFloat (form_exitPrice (Page.formData s)))))
    eqn:E3; [exfalso; auto |].
  destruct (negb (isFinite (parseFloat (form_positionSize (Page.formData s))))
            || (parseFloat (form_positionSize (Page.formData s)) <=? zero)%num)
    eqn:E4; [exfalso; auto 6 |].
  apply orb_false_iff in E3 as [E3a E3b].
  apply orb_false_iff in E4 as [E4a E4b].
  apply negb_false_iff in E3a, E3b, E4a.
  rewrite E3a, E3b, E4a.
  cbv zeta.
  match goal with
  | |- context [db_insert ?q] => exists q
  end.
  split; [repeat split |].
  destruct (truthyKey (Page.editingTradeId s)) as [key |];
    match goal with
    | |- context [Page.error ?r] => destruct (Page.error r)
    end; try reflexivity;
    match goal with
    | |- context [Page.data ?r] => destruct (Page.data r)
    end; reflexivity.
Qed.
End PageSubmitValid.

Section PageSubmitFacts.
Variable getTime : string -> number.
Variable today : string.
Variable db_insert : Page.Payload -> Page.Response.
Variable db_update : string -> Page.Payload -> Page.Response.

Let handleSubmit := Page.handleSubmit getTime today db_insert db_update.

Lemma Page_handleSubmit_invalid_events (s : Page.AppState) :
  Spec.invalidForm (Page.formData s) ->
  forall ev, In ev (snd (handleSubmit s)) -> exists text, ev = Alert text.
Proof.
  intros Hinv ev Hin.
  destruct (Page_handleSubmit_invalid getTime today db_insert db_update s Hinv)
    as [text Heq].
  unfold handleSubmit in Hin. rewrite Heq in Hin.
  destruct Hin as [<- | []]. now exists text.
Qed.

(** The payload of a call is the one the valid form was turned into. *)
Lemma Page_handleSubmit_call (s : Page.AppState)
    (ev : Event Page.Payload) (q : Page.Payload) :
  In ev (snd (handleSubmit s)) ->
  ev = DbInsert q \/ (exists key, ev = DbUpdate key q) ->
  ~ Spec.invalidForm (Page.formData s)
  /\ Page.payload_pair q = form_pair (Page.formData s)
  /\ Page.payload_strategy q = form_strategy (Page.formData s)
  /\ Page.payload_sentiment q
     = (if truthy (trim (form_sentiment (Page.formData s)))
        then Some (form_sentiment (Page.formData s)) else None)
  /\ Page.payload_position_size q
     = parseFloat (form_positionSize (Page.formData s)).
Proof.
  intros Hin Hev.
  destruct (invalidForm_dec (Page.formData s)) as [Hinv | Hval].
  { destruct (Page_handleSubmit_invalid_events s Hinv ev Hin) as [text ->].
    destruct Hev as [Hev | [key Hev]]; discriminate. }
  split; [exact Hval |].
  destruct (Page_handleSubmit_valid getTime today db_insert db_update s Hval)
    as (p & (Hp & _ & Hs & _ & _ & Hz & Hn & _) & Heq).
  unfold handleSubmit in Hin. rewrite Heq in Hin.
  assert (q = p).
  { destruct (truthyKey (Page.editingTradeId s)) as [key |];
      match type of Hin with
      | context [Page.error ?r] => destruct (Page.error r)
      end; cbn [snd] in Hin;
      repeat (destruct Hin as [<- | Hin]; [| try contradiction]);
      destruct Hev as [Hev | [k Hev]]; try discriminate;
      inversion Hev; reflexivity. }
  subst q. auto.
Qed.
End PageSubmitFacts.

(** X10.  Every payload handed to the collaborator has a pair and a strategy
    that are not blank, finite entry and exit prices, a finite position size
    above zero, and a sentiment that is either null or a text that is not
    blank. *)
Theorem X_payload_wellformed :
  forall getTime today db_insert db_update s ev p,
    In ev (snd (Page.handleSubmit getTime today db_insert db_update s)) ->
    ev = DbInsert p \/ (exists key, ev = DbUpdate key p) ->
    trim (Page.payload_pair p) <> ""
    /\ trim (Page.payload_strategy p) <> ""
    /\ isFinite (Page.payload_entry_price p) = true
    /\ isFinite (Page.payload_exit_price p) = true
    /\ isFinite (Page.payload_position_size p) = true
    /\ (Page.payload_position_size p >? zero)%num = true
    /\ (Page.payload_sentiment p = None
        \/ exists text,
            Page.payload_sentiment p = Some text /\ trim text <> "").
Proof.
  intros getTime today db_insert db_update s ev p Hin Hev.
  destruct (Page_handleSubmit_payload _ _ _ _ _ _ _ Hin Hev)
    as (He & Hx & Hs & _).
  destruct (Page_handleSubmit_call _ _ _ _ _ _ _ Hin Hev)
    as (Hval & Hp & Hst & Hn & Hz).
  unfold Spec.invalidForm, Spec.parses in Hval.
  rewrite Hp, Hst, Hn.
  repeat split; auto.
  - rewrite Hz in *.
    destruct (parseFloat (form_positionSize (Page.formData s)) >? zero)%num
      eqn:E; [reflexivity |].
    exfalso. apply Hval. right. right. right. right.
    intros [_ H]. discriminate.
  - destruct (truthy (trim (form_sentiment (Page.formData s)))) eqn:E;
      [right | left; reflexivity].
    exists (form_sentiment (Page.formData s)). split; [reflexivity |].
    now apply truthy_true_iff.
Qed.

(** X11.  A submission calls the collaborator never when the form is invalid
    and exactly once when it is valid: update with the identifier under edit
    when there is one, insert otherwise. *)
Theorem X_submit_calls_once :
  forall getTime today db_insert db_update (s : Page.AppState),
    (Spec.invalidForm (Page.formData s) ->
     filter Reading.isCall
       (snd (Page.handleSubmit getTime today db_insert db_update s)) = [])
    /\ (~ Spec.invalidForm (Page.formData s) ->
        exists p,
          filter Reading.isCall
            (snd (Page.handleSubmit getTime today db_insert db_update s))
          = [match truthyKey (Page.editingTradeId s) with
             | Some key => DbUpdate key p
             | None => DbInsert p
             end]).
Proof.
  intros getTime today db_insert db_update s. split.
  - intros Hinv.
    destruct (Page_handleSubmit_invalid getTime today db_insert db_update s
                Hinv) as [text ->].
    reflexivity.
  - intros Hval.
    destruct (Page_handleSubmit_valid getTime today db_insert db_update s
                Hval) as (p & _ & ->).
    exists p.
    destruct (truthyKey (Page.editingTradeId s)) as [key |];
      match goal with
      | |- context [Page.error ?r] => destruct (Page.error r)
      end; reflexivity.
Qed.

(** X12.  When the collaborator call of a submission fails, the trades, the
    form and the open modal are left as they were (only isSubmitting is
    reset) and the user is shown the error's message. *)
Theorem X_submit_failure_keeps_state :
  forall getTime today db_insert db_update (s : Page.AppState) (e : JsError),
    In (ConsoleError e)
       (snd (Page.handleSubmit getTime today db_insert db_update s)) ->
    fst (Page.handleSubmit getTime today db_insert db_update s)
    = Page.setIsSubmitting false s
    /\ In (Alert (Page.submitFailureText e))
          (snd (Page.handleSubmit getTime today db_insert db_update s))
    /\ Page.trades
         (fst (Page.handleSubmit getTime today db_insert db_update s))
       = Page.trades s
    /\ Page.formData
         (fst (Page.handleSubmit getTime today db_insert db_update s))
       = Page.formData s
    /\ Page.isModalOpen
         (fst (Page.handleSubmit getTime today db_insert db_update s))
       = Page.isModalOpen s.
Proof.
  intros getTime today db_insert db_update s e Hin.
  destruct (invalidForm_dec (Page.formData s)) as [Hinv | Hval].
  { destruct (Page_handleSubmit_invalid_events _ _ _ _ s Hinv _ Hin)
      as [text H]. discriminate. }
  destruct (Page_handleSubmit_valid getTime today db_insert db_update s Hval)
    as (p & _ & Heq).
  rewrite Heq in *.
  destruct (truthyKey (Page.editingTradeId s)) as [key |];
    match type of Hin with
    | context [Page.error ?r] => destruct (Page.error r) as [e' |]
    end; cbn [fst snd] in *;
    repeat (destruct Hin as [Hin | Hin]; try discriminate; try contradiction);
    injection Hin as <-; repeat split; auto; cbn; auto.
Qed.

Section PageSubmitSuccess.
Variable getTime : string -> number.
Variable today : string.
Variable db_insert : Page.Payload -> Page.Response.
Variable db_update : string -> Page.Payload -> Page.Response.

Let handleSubmit := Page.handleSubmit getTime today db_insert db_update.

(** The state after a call that the collaborator answered with a row. *)
Lemma Page_handleSubmit_stored (s : Page.AppState) (p : Page.Payload)
    (row : Page.TradeRow) :
  (In (DbInsert p) (snd (handleSubmit s)) ->
   Page.error (db_insert p) = None ->
   Page.data (db_insert p) = Some row ->
   fst (handleSubmit s)
   = Page.setIsSubmitting false
       (Page.closeModal today
          (Page.setTrades
             (Page.sortTradesByDateDesc getTime
                (Page.mapRowToTrade row :: Page.trades s))
             s)))
  /\ (forall key,
      In (DbUpdate key p) (snd (handleSubmit s)) ->
      Page.error (db_update key p) = None ->
      Page.data (db_update key p) = Some row ->
      fst (handleSubmit s)
      = Page.setIsSubmitting false
          (Page.closeModal today
             (Page.setTrades
                (Page.sortTradesByDateDesc getTime
                   (map (fun trade =>
                           if String.eqb (id trade) key
                           then Page.mapRowToTrade row else trade)
                      (Page.trades s)))
                s))).
Proof.
  destruct (invalidForm_dec (Page.formData s)) as [Hinv | Hval].
  { split; [intros Hin | intros key Hin];
      destruct (Page_handleSubmit_invalid_events getTime today db_insert
                  db_update s Hinv _ Hin) as [text H]; discriminate. }
  destruct (Page_handleSubmit_valid getTime today db_insert db_update s Hval)
    as (p0 & _ & Heq).
  unfold handleSubmit. rewrite Heq.
  split; [intros Hin He Hd | intros key Hin He Hd];
    destruct (truthyKey (Page.editingTradeId s)) as [key0 |];
    match type of Hin with
    | context [Page.error ?r] => destruct (Page.error r) eqn:E0
    end; cbn [fst snd] in *;
    repeat (destruct Hin as [Hin | Hin]; try discriminate;
            try contradiction);
    inversion Hin; subst; try congruence;
    rewrite Hd; reflexivity.
Qed.
End PageSubmitSuccess.

(** X13.  When the collaborator answers a row, a create adds exactly that
    row to the trades and an update replaces the trades with the edited
    identifier, keeping the count; in both cases the modal is closed, the
    edited identifier cleared, the form emptied and isSubmitting reset. *)
Theorem X_submit_success :
  forall getTime today db_insert db_update (s : Page.AppState)
         (p : Page.Payload) (row : Page.TradeRow),
    let s' := fst (Page.handleSubmit getTime today db_insert db_update s) in
    let events := snd (Page.handleSubmit getTime today db_insert db_update s) in
    (In (DbInsert p) events ->
     Page.error (db_insert p) = None ->
     Page.data (db_insert p) = Some row ->
     Permutation (Page.mapRowToTrade row :: Page.trades s) (Page.trades s')
     /\ Page.isModalOpen s' = false
     /\ Page.editingTradeId s' = None
     /\ Page.formData s' = createEmptyFormState today
     /\ Page.isSubmitting s' = false)
    /\ (forall key,
        In (DbUpdate key p) events ->
        Page.error (db_update key p) = None ->
        Page.data (db_update key p) = Some row ->
        Permutation
          (map (fun trade =>
                  if String.eqb (id trade) key
                  then Page.mapRowToTrade row else trade)
             (Page.trades s))
          (Page.trades s')
        /\ List.length (Page.trades s') = List.length (Page.trades s)
        /\ Page.isModalOpen s' = false
        /\ Page.editingTradeId s' = None
        /\ Page.formData s' = createEmptyFormState today
        /\ Page.isSubmitting s' = false).
Proof.
  intros getTime today db_insert db_update s p row s' events.
  destruct (Page_handleSubmit_stored getTime today db_insert db_update
              s p row) as [Hins Hupd].
  subst s' events. split.
  - intros Hin He Hd. rewrite (Hins Hin He Hd).
    cbn -[Page.sortTradesByDateDesc].
    repeat split. apply Array_sort_perm.
  - intros key Hin He Hd. rewrite (Hupd key Hin He Hd).
    cbn -[Page.sortTradesByDateDesc].
    repeat split.
    + apply Array_sort_perm.
    + unfold Page.sortTradesByDateDesc.
      rewrite <- (Permutation_length (Array_sort_perm _ _)).
      apply length_map.
Qed.

(** X14.  With a collaborator that stores the payload as it is, creating a
    trade from a valid form puts into the collection a trade with the form's
    pair, direction, strategy and date, the parsed prices and size, the
    profit/loss of the formula, and the form's sentiment (the empty string
    when it was blank). *)
Theorem X_create_round_trip :
  forall getTime today db_update (key : string) (s : Page.AppState),
    ~ Spec.invalidForm (Page.formData s) ->
    truthyKey (Page.editingTradeId s) = None ->
    exists t,
      In t (Page.trades
              (fst (Page.handleSubmit getTime today (Reading.stores key)
                      db_update s)))
      /\ id t = key
      /\ pair t = form_pair (Page.formData s)
      /\ direction t = form_direction (Page.formData s)
      /\ strategy t = form_strategy (Page.formData s)
      /\ entryPrice t = parseFloat (form_entryPrice (Page.formData s))
      /\ exitPrice t = parseFloat (form_exitPrice (Page.formData s))
      /\ positionSize t = parseFloat (form_positionSize (Page.formData s))
      /\ pnl t
         = Spec.profitLoss (form_direction (Page.formData s))
             (parseFloat (form_entryPrice (Page.formData s)))
             (parseFloat (form_exitPrice (Page.formData s)))
             (parseFloat (form_positionSize (Page.formData s)))
      /\ date t = form_date (Page.formData s)
      /\ sentiment t
         = (if truthy (trim (form_sentiment (Page.formData s)))
            then form_sentiment (Page.formData s) else "").
Proof.
  intros getTime today db_update key s Hval Hkey.
  destruct (Page_handleSubmit_valid getTime today (Reading.stores key)
              db_update s Hval)
    as (p & (Hp & Hd & Hs & He & Hx & Hz & Hn & Ht) & Heq).
  rewrite Hkey in Heq. cbn -[Page.sortTradesByDateDesc] in Heq.
  assert (Hin : In (DbInsert p)
                  (snd (Page.handleSubmit getTime today (Reading.stores key)
                          db_update s)))
    by (rewrite Heq; now left).
  destruct (Page_handleSubmit_payload _ _ _ _ _ _ _ Hin (or_introl eq_refl))
    as (Fe & Fx & Fz & Hpnl).
  exists (Page.mapRowToTrade (Reading.storedRow key p)).
  split.
  - rewrite Heq. cbn [fst Page.trades Page.setIsSubmitting Page.closeModal
                      Page.setTrades].
    apply (Permutation_in _ (Array_sort_perm _ _)). now left.
  - cbn. rewrite Hpnl, calculatePnL_finite by assumption.
    rewrite Hp, Hd, Hs, He, Hx, Hz, Hn, Ht.
    repeat split.
    destruct (truthy (trim (form_sentiment (Page.formData s)))); reflexivity.
Qed.

(** X15.  After a successful load and after a create or update that the
    collaborator answered with a row, the collection is ordered newest
    first: no trade stands before one with a later date, provided the dates
    parse. *)
Theorem X_collection_newest_first :
  forall getTime today db_insert db_update (s : Page.AppState)
         (p : Page.Payload) (row : Page.TradeRow)
         (response : PageUI.ListResponse) (a b : Trade),
    let submitted :=
      fst (Page.handleSubmit getTime today db_insert db_update s) in
    let events := snd (Page.handleSubmit getTime today db_insert db_update s) in
    let fetched := fst (PageUI.fetchTrades getTime response s) in
    ((In (DbInsert p) events /\ Page.error (db_insert p) = None
      /\ Page.data (db_insert p) = Some row)
     \/ (exists key,
          In (DbUpdate key p) events /\ Page.error (db_update key p) = None
          /\ Page.data (db_update key p) = Some row) ->
     (forall t, In t (Page.trades submitted) ->
                Spec.isNumber (getTime (date t))) ->
     Spec.precedes a b (Page.trades submitted) ->
     (getTime (date a) <? getTime (date b))%num = false)
    /\ (PageUI.list_error response = None ->
        (forall t, In t (Page.trades fetched) ->
                   Spec.isNumber (getTime (date t))) ->
        Spec.precedes a b (Page.trades fetched) ->
        (getTime (date a) <? getTime (date b))%num = false).
Proof.
  intros getTime today db_insert db_update s p row response a b
         submitted events fetched.
  destruct (Page_handleSubmit_stored getTime today db_insert db_update
              s p row) as [Hins Hupd].
  subst submitted events fetched. split.
  - intros [(Hin & He & Hd) | (key & Hin & He & Hd)].
    + rewrite (Hins Hin He Hd). cbn -[Page.sortTradesByDateDesc].
      apply sortTradesByDateDesc_precedes.
    + rewrite (Hupd key Hin He Hd). cbn -[Page.sortTradesByDateDesc].
      apply sortTradesByDateDesc_precedes.
  - intros He. unfold PageUI.fetchTrades. rewrite He.
    cbn -[Page.sortTradesByDateDesc].
    apply sortTradesByDateDesc_precedes.
Qed.

(** X16.  Loading always ends with isLoading false. On an error the trades
    are untouched and the error message (or 'Failed to load trades.') is
    recorded; on success the error is cleared and every returned row appears
    exactly once, normalized (no rows when the data is null). *)
Theorem X_fetchTrades_outcome :
  forall getTime (response : PageUI.ListResponse) (s : Page.AppState),
    let s' := fst (PageUI.fetchTrades getTime response s) in
    let events := snd (PageUI.fetchTrades getTime response s) in
    Page.isLoading s' = false
    /\ (forall e, PageUI.list_error response = Some e ->
        Page.trades s' = Page.trades s
        /\ Page.loadError s'
           = Some (if instanceofError e then message e
                   else "Failed to load trades.")
        /\ events = [ConsoleError e])
    /\ (PageUI.list_error response = None ->
        Page.loadError s' = None
        /\ events = []
        /\ Permutation
             (map Page.mapRowToTrade
                match PageUI.list_data response with
                | Some rows => rows
                | None => []
                end)
             (Page.trades s')).
Proof.
  intros getTime response s s' events. subst s' events.
  unfold PageUI.fetchTrades.
  destruct (PageUI.list_error response) as [e |];
    cbn -[Page.sortTradesByDateDesc].
  - split; [reflexivity | split; [| discriminate]].
    intros e' H. injection H as <-. auto.
  - split; [reflexivity | split; [discriminate |]].
    intros _. repeat split.
    destruct (PageUI.list_data response); apply Array_sort_perm.
Qed.

(** ** Deleting *)

Lemma filter_other_ids (key : string) (l : list Trade) :
  (forall t, In t l -> id t <> key) ->
  filter (fun item => negb (String.eqb (id item) key)) l = l.
Proof.
  intros H. induction l as [| t l IH]; [reflexivity |].
  cbn [filter].
  destruct (String.eqb_spec (id t) key) as [Heq | Hne].
  - exfalso. apply (H t); [now left | exact Heq].
  - cbn [negb]. rewrite IH; [reflexivity |].
    intros u Hu. apply H. now right.
Qed.

Lemma filter_other_ids_In (key : string) (l : list Trade) (t : Trade) :
  In t (filter (fun item => negb (String.eqb (id item) key)) l)
  <-> In t l /\ id t <> key.
Proof.
  rewrite filter_In, negb_true_iff, String.eqb_neq. tauto.
Qed.

Ltac delete_cases :=
  try discriminate; try congruence; auto;
  try (now apply filter_other_ids);
  try (apply filter_other_ids_In; tauto);
  try match goal with
      | H : In _ (filter _ _) |- _ =>
          apply filter_other_ids_In in H; tauto
      | H : _ \/ _ |- _ => destruct H; try discriminate; try congruence;
                           try contradiction
      | H : In _ (_ :: _) |- _ => cbn [In] in H; intuition discriminate
      | |- In _ (_ :: _) => cbn [In]; auto
      end.

(** X17.  Deleting never adds a trade and never removes one with another
    identifier; the collaborator is called exactly when the user confirms; a
    declined confirmation or a failed call leaves the state unchanged; a
    confirmed, successful delete leaves no trade with that identifier;
    deleting an identifier that is not there leaves the trades as they were. *)
Theorem X_handleDelete_page :
  forall (formatDate : string -> string) (confirm : string -> bool)
         (db_delete : string -> option JsError)
         (key : string) (s : Page.AppState),
    let s' := fst (PageUI.handleDelete formatDate confirm db_delete key s) in
    let events :=
      snd (PageUI.handleDelete formatDate confirm db_delete key s) in
    let asked :=
      confirm (PageUI.confirmationMessage formatDate key (Page.trades s)) in
    (forall t, In t (Page.trades s') -> In t (Page.trades s))
    /\ (forall t, In t (Page.trades s) -> id t <> key ->
                  In t (Page.trades s'))
    /\ (In (PageUI.DbDelete key) events <-> asked = true)
    /\ (asked = false \/ db_delete key <> None -> s' = s)
    /\ (asked = true -> db_delete key = None ->
        s' = Page.setTrades
               (filter (fun item => negb (String.eqb (id item) key))
                  (Page.trades s)) s
        /\ forall t, In t (Page.trades s') -> id t <> key)
    /\ ((forall t, In t (Page.trades s) -> id t <> key) ->
        Page.trades s' = Page.trades s).
Proof.
  intros formatDate confirm db_delete key s s' events asked.
  subst s' events asked. unfold PageUI.handleDelete.
  destruct (confirm (PageUI.confirmationMessage formatDate key
                       (Page.trades s))) eqn:Ec; cbn [negb].
  - destruct (db_delete key) as [e |] eqn:Ed;
      cbn [fst snd Page.trades Page.setTrades];
      repeat split; intros; delete_cases.
  - cbn [fst snd]. repeat split; intros; delete_cases.
Qed.

(** X18.  In the in-memory journal the delete handler asks one question,
    the one made of the pair and the date of the trade to delete.  Deleting
    never adds a trade and never removes one with another identifier; if the
    user declines that question nothing changes; if the user confirms it,
    exactly the trades with that identifier are removed; an identifier that
    is not there leaves the trades as they were. *)
Theorem X_handleDelete_legacy :
  forall (formatDate : string -> string) (confirm : string -> bool)
         (key : string) (s : Legacy.AppState),
    let s' := fst (LegacyUI.handleDelete formatDate confirm key s) in
    let question :=
      LegacyUI.confirmationMessage formatDate key (Legacy.trades s) in
    let asked := confirm question in
    snd (LegacyUI.handleDelete formatDate confirm key s) = [question]
    /\ (forall t, In t (Legacy.trades s') -> In t (Legacy.trades s))
    /\ (forall t, In t (Legacy.trades s) -> id t <> key ->
                  In t (Legacy.trades s'))
    /\ (asked = false -> s' = s)
    /\ (asked = true ->
        s' = Legacy.setTrades
               (filter (fun item => negb (String.eqb (id item) key))
                  (Legacy.trades s)) s
        /\ forall t, In t (Legacy.trades s') -> id t <> key)
    /\ ((forall t, In t (Legacy.trades s) -> id t <> key) ->
        Legacy.trades s' = Legacy.trades s).
Proof.
  intros formatDate confirm key s s' question asked.
  subst s' question asked. unfold LegacyUI.handleDelete.
  destruct (confirm (LegacyUI.confirmationMessage formatDate key
                       (Legacy.trades s))) eqn:Ec;
    cbn [fst snd Legacy.trades Legacy.setTrades];
    repeat split; intros; delete_cases.
Qed.

(** ** The in-memory journal: what a submission does to the collection *)

Section LegacySubmitShape.
Variable today : string.
Variable now : string.

Let handleSubmit := Legacy.handleSubmit today now.

Lemma Legacy_handleSubmit_shape (s : Legacy.AppState) :
  (forall key, truthyKey (Legacy.editingTradeId s) = Some key ->
     exists f : Trade -> Trade,
       (forall trade, id (f trade) = id trade)
       /\ Legacy.trades (fst (handleSubmit s))
          = map (fun trade =>
                   if String.eqb (id trade) key then f trade else trade)
              (Legacy.trades s))
  /\ (truthyKey (Legacy.editingTradeId s) = None ->
      (Spec.invalidForm (Legacy.formData s) ->
       Legacy.trades (fst (handleSubmit s)) = Legacy.trades s)
      /\ (~ Spec.invalidForm (Legacy.formData s) ->
          exists t,
            id t = now
            /\ Legacy.trades (fst (handleSubmit s)) = t :: Legacy.trades s)).
Proof.
  assert (Hid : forall key (l : list Trade),
            l = map (fun trade =>
                       if String.eqb (id trade) key then trade else trade) l).
  { intros key l. induction l as [| t l IH]; [reflexivity |].
    cbn [map]. rewrite <- IH. now destruct (String.eqb (id t) key). }
  pose proof (invalidForm_tests (Legacy.formData s)) as Htest.
  unfold handleSubmit, Legacy.handleSubmit.
  destruct (negb (truthy (trim (form_pair (Legacy.formData s))))) eqn:E1;
    [| destruct (negb (truthy (trim (form_strategy (Legacy.formData s)))))
         eqn:E2;
       [| destruct (negb (isFinite (parseFloat
                                      (form_entryPrice (Legacy.formData s))))
                    || negb (isFinite (parseFloat
                                         (form_exitPrice (Legacy.formData s)))))
            eqn:E3;
          [| destruct (negb (isFinite (parseFloat
                                         (form_positionSize
                                            (Legacy.formData s))))
                       || (parseFloat (form_positionSize (Legacy.formData s))
                           <=? zero)%num) eqn:E4]]].
  1-4: (split;
        [intros key _; exists (fun t => t); split; [reflexivity | apply Hid]
        | intros _; split; [reflexivity |];
          intros Hval; exfalso; apply Hval, Htest; auto 6]).
  destruct (truthyKey (Legacy.editingTradeId s)) as [key0 |];
    cbn [fst Legacy.trades Legacy.closeModal Legacy.setTrades].
  - split; [| discriminate].
    intros key H. injection H as <-.
    eexists (fun trade => mkTrade (id trade) _ _ _ _ _ _ _ _ _).
    split; reflexivity.
  - split; [discriminate |]. intros _. split.
    + intros Hinv. exfalso. apply Htest in Hinv.
      intuition congruence.
    + intros _. eexists. split; [| reflexivity]. reflexivity.
Qed.
End LegacySubmitShape.

Lemma Forall2_map_same {A : Type} (R : A -> A -> Prop) (g : A -> A)
    (l : list A) :
  (forall x, R x (g x)) -> Forall2 R l (map g l).
Proof.
  intros H. induction l as [| x l IH]; cbn [map]; constructor; auto.
Qed.

(** X19.  In the in-memory journal a submission made while editing keeps the
    number, the order and the identifiers of the trades and changes none
    whose identifier differs from the edited one; if no trade has the edited
    identifier nothing changes. *)
Theorem X_legacy_edit_touches_only_key :
  forall (today now key : string) (s : Legacy.AppState),
    truthyKey (Legacy.editingTradeId s) = Some key ->
    let s' := fst (Legacy.handleSubmit today now s) in
    Forall2 (fun old new => id new = id old /\ (id old <> key -> new = old))
      (Legacy.trades s) (Legacy.trades s')
    /\ List.length (Legacy.trades s') = List.length (Legacy.trades s)
    /\ ((forall t, In t (Legacy.trades s) -> id t <> key) ->
        Legacy.trades s' = Legacy.trades s).
Proof.
  intros today now key s Hkey s'. subst s'.
  destruct (proj1 (Legacy_handleSubmit_shape today now s) key Hkey)
    as (f & Hf & ->).
  split; [| split].
  - apply Forall2_map_same. intros x.
    destruct (String.eqb_spec (id x) key) as [Heq | Hne].
    + split; [apply Hf | congruence].
    + split; reflexivity.
  - apply length_map.
  - intros Habsent.
    induction (Legacy.trades s) as [| t l IH]; [reflexivity |].
    cbn [map].
    destruct (String.eqb_spec (id t) key) as [Heq | Hne].
    + exfalso. apply (Habsent t); [now left | exact Heq].
    + f_equal. apply IH. intros u Hu. apply Habsent. now right.
Qed.

(** X20.  In the in-memory journal creating a trade from a valid form puts
    it at the head of the collection under the identifier
    [Date.now().toString()], and the delete question for that identifier
    is then made of the pair and the date of the new trade.  If the user
    confirms that question, the delete removes every trade with that
    identifier: what is left are the trades of the collection before the
    creation that carry another identifier, hence that collection itself
    provided no trade in it already had the identifier.  If the user declines
    the question the created trade stays. *)
Theorem X_legacy_create_then_delete :
  forall (today now : string) (formatDate : string -> string)
         (confirm : string -> bool) (s : Legacy.AppState),
    ~ Spec.invalidForm (Legacy.formData s) ->
    truthyKey (Legacy.editingTradeId s) = None ->
    let created := fst (Legacy.handleSubmit today now s) in
    let question :=
      LegacyUI.confirmationMessage formatDate now (Legacy.trades created) in
    let asked := confirm question in
    let s' := fst (LegacyUI.handleDelete formatDate confirm now created) in
    (exists t,
        id t = now
        /\ Legacy.trades created = t :: Legacy.trades s
        /\ question
           = ("Delete trade " ++ pair t ++ " on " ++ formatDate (date t)
              ++ "? This cannot be undone.")%string)
    /\ (asked = true ->
        Legacy.trades s'
        = filter (fun item => negb (String.eqb (id item) now))
            (Legacy.trades s))
    /\ (asked = true ->
        (forall t, In t (Legacy.trades s) -> id t <> now) ->
        Legacy.trades s' = Legacy.trades s)
    /\ (asked = false -> s' = created).
Proof.
  intros today now formatDate confirm s Hval Hkey created question asked s'.
  destruct (proj2 (proj2 (Legacy_handleSubmit_shape today now s) Hkey) Hval)
    as (t & Hid & Heq).
  assert (Hq : question
               = ("Delete trade " ++ pair t ++ " on " ++ formatDate (date t)
                  ++ "? This cannot be undone.")%string).
  { subst question created. unfold LegacyUI.confirmationMessage.
    rewrite Heq. cbn [find]. now rewrite Hid, String.eqb_refl. }
  assert (Hdel : filter (fun item => negb (String.eqb (id item) now))
                   (Legacy.trades created)
                 = filter (fun item => negb (String.eqb (id item) now))
                     (Legacy.trades s)).
  { subst created. rewrite Heq. cbn [filter].
    now rewrite Hid, String.eqb_refl. }
  split; [exists t; subst created; auto |].
  subst s' asked question. unfold LegacyUI.handleDelete.
  destruct (confirm (LegacyUI.confirmationMessage formatDate now
                       (Legacy.trades created))) eqn:Ec;
    cbn [fst Legacy.trades Legacy.setTrades].
  - split; [intros _; exact Hdel | split; [| discriminate]].
    intros _ Hfresh. rewrite Hdel. now apply filter_other_ids.
  - split; [discriminate | split; [discriminate | reflexivity]].
Qed.

(** ** The preview and the submission; the page and the ordering *)

(** X21.  The live preview shows exactly the profit/loss a submission
    persists: whenever a payload reaches the collaborator the preview of the
    same form is that payload's pnl, and a form whose preview is undefined
    is rejected without any call. *)
Theorem X_preview_matches_submit :
  forall getTime today db_insert db_update (s : Page.AppState),
    (forall ev p,
        In ev (snd (Page.handleSubmit getTime today db_insert db_update s)) ->
        ev = DbInsert p \/ (exists key, ev = DbUpdate key p) ->
        calculatedPnL (Page.formData s) = Some (Page.payload_pnl p))
    /\ (calculatedPnL (Page.formData s) = None ->
        exists text,
          Page.handleSubmit getTime today db_insert db_update s
          = (s, [Alert text])).
Proof.
  intros getTime today db_insert db_update s. split.
  - intros ev p Hin Hev.
    destruct (Page_handleSubmit_payload _ _ _ _ _ _ _ Hin Hev)
      as (Fe & Fx & Fz & Hpnl).
    destruct (Page_handleSubmit_call _ _ _ _ _ _ _ Hin Hev)
      as (Hval & _).
    destruct (Page_handleSubmit_valid getTime today db_insert db_update s
                Hval) as (p0 & (_ & Hd & _ & He & Hx & Hz & _) & Heq).
    assert (p = p0).
    { rewrite Heq in Hin.
      destruct (truthyKey (Page.editingTradeId s)) as [key |];
        match type of Hin with
        | context [Page.error ?r] => destruct (Page.error r)
        end; cbn [snd] in Hin;
        repeat (destruct Hin as [<- | Hin]; [| try contradiction]);
        destruct Hev as [Hev | [k Hev]]; try discriminate;
        inversion Hev; reflexivity. }
    subst p0. rewrite Hpnl, Hd, He, Hx, Hz.
    rewrite He in Fe. rewrite Hx in Fx. rewrite Hz in Fz.
    unfold calculatedPnL. rewrite Fe, Fx, Fz. cbn [negb orb].
    destruct (parseFloat (form_positionSize (Page.formData s)) <=? zero)%num
      eqn:E; [| reflexivity].
    exfalso. apply Hval. right. right. right. right.
    intros [_ Hgt].
    rewrite (le_zero_iff_not_gt _ (isFinite_not_NaN _ Fz)), Hgt in E.
    discriminate.
  - intros Hnone. apply Page_handleSubmit_invalid.
    unfold calculatedPnL in Hnone.
    destruct (negb (isFinite (parseFloat (form_entryPrice (Page.formData s))))
              || negb (isFinite (parseFloat (form_exitPrice (Page.formData s))))
              || negb (isFinite
                         (parseFloat (form_positionSize (Page.formData s))))
              || (parseFloat (form_positionSize (Page.formData s)) <=? zero)%num)
      eqn:E; [| discriminate].
    apply invalidForm_tests.
    rewrite !orb_true_iff in E. rewrite !orb_true_iff. tauto.
Qed.

Lemma firstn_skipn_precedes {A : Type} (n : nat) (l : list A) (a b : A) :
  In a (firstn n l) -> In b (skipn n l) -> Spec.precedes a b l.
Proof.
  intros Ha Hb.
  apply in_split in Ha as (l1 & l2 & Ha).
  apply in_split in Hb as (l3 & l4 & Hb).
  exists l1, (l2 ++ l3), l4.
  rewrite <- (firstn_skipn n l), Ha, Hb.
  now rewrite <- !app_assoc.
Qed.

(** X22.  The page shows the top of the ordering: under a descending key no
    visible trade has a smaller sort value than a trade left off the page,
    under an ascending key none has a larger one (the sort values being
    Numbers other than NaN). *)
Theorem X_page_shows_top :
  forall (getTime : string -> number) (key : Page.SortKey)
         (pageSize : nat) (l : list Trade) (shown hidden : Trade),
    (forall t, In t l -> Spec.isNumber (Reading.sortValue getTime key t)) ->
    In shown
       (Page.visibleTrades false pageSize (Page.sortedTrades getTime l key)) ->
    In hidden (skipn pageSize (Page.sortedTrades getTime l key)) ->
    if Reading.ascending key
    then (Reading.sortValue getTime key shown
          >? Reading.sortValue getTime key hidden)%num = false
    else (Reading.sortValue getTime key shown
          <? Reading.sortValue getTime key hidden)%num = false.
Proof.
  intros getTime key n l shown hidden HP Hs Hh.
  apply (sortedTrades_precedes getTime key l shown hidden HP).
  apply firstn_skipn_precedes with n; [| exact Hh].
  unfold Page.visibleTrades in Hs. cbn [orb] in Hs.
  destruct (n <? List.length (Page.sortedTrades getTime l key))%nat eqn:E;
    cbn [negb] in Hs; [exact Hs |].
  apply Nat.ltb_ge in E. now rewrite firstn_all2.
Qed.

(** ** The further properties at the sample inputs *)

Ltac sample_form_valid :=
  let H := fresh "H" in
  intros [H | [H | [H | [H | H]]]];
  [ vm_compute in H; discriminate
  | vm_compute in H; discriminate
  | vm_compute in H; discriminate
  | vm_compute in H; discriminate
  | apply H; split; vm_compute; reflexivity ].

Ltac sample_numbers :=
  let t := fresh "t" in
  let H := fresh "H" in
  intros t H; vm_compute in H;
  repeat (destruct H as [<- | H]; [split; vm_compute; reflexivity |]);
  contradiction.

Lemma X_calculatePnL_flat_witness :
  Reading.isZero (calculatePnL Long (ofZ 142) (ofZ 142) (ofZ 30)) = true.
Proof.
  apply (proj1 (X_calculatePnL_flat Long (ofZ 142) (ofZ 30)
                  eq_refl eq_refl)).
Defined.

Lemma X_calculatePnL_sign_witness :
  (calculatePnL Long (ofZ 61250) (ofZ 63100) (ofDecimal false 5 (-1))
   >=? zero)%num = true
  /\ (calculatePnL Short (ofZ 61250) (ofZ 63100) (ofDecimal false 5 (-1))
      <=? zero)%num = true.
Proof.
  split.
  - apply (proj1 (X_calculatePnL_sign Long (ofZ 61250) (ofZ 63100)
                    (ofDecimal false 5 (-1))
                    eq_refl eq_refl eq_refl eq_refl eq_refl eq_refl)).
    vm_compute. reflexivity.
  - apply (proj2 (X_calculatePnL_sign Short (ofZ 61250) (ofZ 63100)
                    (ofDecimal false 5 (-1))
                    eq_refl eq_refl eq_refl eq_refl eq_refl eq_refl)).
    vm_compute. reflexivity.
Defined.

Lemma X_sortedTrades_ordered_witness :
  (pnl Samples.ethShort <? pnl Samples.btcLong)%num = false.
Proof.
  refine (X_sortedTrades_ordered isoDateTime Page.pnl_desc
            Legacy.initialTrades Samples.ethShort Samples.btcLong _ _).
  - sample_numbers.
  - exists [], [], [Cases.btcShort; Cases.solLong]. vm_compute. reflexivity.
Defined.

Lemma X_hasActiveFilters_inactive_witness :
  Page.filteredTrades isoDateTime Legacy.initialTrades Cases.blankOnly
  = Legacy.initialTrades.
Proof.
  apply (proj1 (X_hasActiveFilters_inactive isoDateTime Legacy.initialTrades
                  Cases.blankOnly (Samples.pageState Samples.filledForm))).
  vm_compute. reflexivity.
Defined.

Lemma X_filter_ignores_case_witness :
  Page.filterCallback isoDateTime Cases.upperBtc Samples.btcLong
  = Page.filterCallback isoDateTime Cases.lowerBtc Samples.btcLong.
Proof.
  apply X_filter_ignores_case; vm_compute; reflexivity.
Defined.

Lemma X_date_range_bounds_witness :
  Page.filterCallback isoDateTime Cases.inverted Samples.ethShort = false.
Proof.
  apply (proj2 (X_date_range_bounds isoDateTime Samples.ethShort));
    vm_compute; reflexivity.
Defined.

Lemma X_payload_wellformed_witness :
  trim (Page.payload_pair Samples.payload) <> ""
  /\ (Page.payload_position_size Samples.payload >? zero)%num = true.
Proof.
  assert (H : In (DbInsert Samples.payload)
                (snd (Samples.pageSubmit Samples.filledForm)))
    by (vm_compute; left; reflexivity).
  pose proof (X_payload_wellformed _ _ _ _ _ _ _ H (or_introl eq_refl))
    as (Hp & _ & _ & _ & _ & Hz & _).
  split; assumption.
Defined.

Lemma X_submit_calls_once_witness :
  (exists p,
      filter Reading.isCall (snd (Samples.pageSubmit Samples.filledForm))
      = [DbInsert p])
  /\ filter Reading.isCall (snd (Samples.pageSubmit Samples.blankPairForm))
     = [].
Proof.
  split.
  - apply (proj2 (X_submit_calls_once isoDateTime Samples.today
                    (fun _ => Samples.silent) (fun _ _ => Samples.silent)
                    (Samples.pageState Samples.filledForm))).
    sample_form_valid.
  - apply (proj1 (X_submit_calls_once isoDateTime Samples.today
                    (fun _ => Samples.silent) (fun _ _ => Samples.silent)
                    (Samples.pageState Samples.blankPairForm))).
    left. vm_compute. reflexivity.
Defined.

Lemma X_submit_failure_keeps_state_witness :
  Page.trades
    (fst (Page.handleSubmit isoDateTime Samples.today
            (fun _ => Cases.refuses) (fun _ _ => Cases.refuses)
            (Samples.pageState Samples.filledForm)))
  = Legacy.initialTrades.
Proof.
  refine (proj1 (proj2 (proj2
            (X_submit_failure_keeps_state isoDateTime Samples.today
               (fun _ => Cases.refuses) (fun _ _ => Cases.refuses)
               (Samples.pageState Samples.filledForm) Cases.offline _)))).
  vm_compute. right. left. reflexivity.
Defined.

Lemma X_submit_success_witness :
  List.length
    (Page.trades
       (fst (Page.handleSubmit isoDateTime Samples.today
               (Reading.stores "9") (Reading.stores) Cases.editState)))
  = 4%nat.
Proof.
  refine (proj1 (proj2
            (proj2 (X_submit_success isoDateTime Samples.today
                      (Reading.stores "9") (Reading.stores) Cases.editState
                      Samples.payload
                      (Reading.storedRow "2" Samples.payload))
               "2" _ eq_refl eq_refl))).
  vm_compute. left. reflexivity.
Defined.

Lemma X_create_round_trip_witness :
  exists t,
    In t (Page.trades
            (fst (Page.handleSubmit isoDateTime Samples.today
                    (Reading.stores "9") (Reading.stores)
                    (Samples.pageState Samples.filledForm))))
    /\ id t = "9" /\ pnl t = ofZ 925 /\ sentiment t = "high conviction".
Proof.
  assert (Hv : ~ Spec.invalidForm
                   (Page.formData (Samples.pageState Samples.filledForm)))
    by sample_form_valid.
  destruct (X_create_round_trip isoDateTime Samples.today (Reading.stores)
              "9" (Samples.pageState Samples.filledForm) Hv eq_refl)
    as (t & Hin & Hid & _ & _ & _ & _ & _ & _ & Hpnl & _ & Hs).
  exists t. repeat split; assumption.
Defined.

Lemma X_collection_newest_first_witness :
  (isoDateTime (date (Page.mapRowToTrade
                        (Reading.storedRow "9" Samples.payload)))
   <? isoDateTime (date (Page.mapRowToTrade Samples.row)))%num = false.
Proof.
  refine (proj2 (X_collection_newest_first isoDateTime Samples.today
                   (fun _ => Samples.silent) (fun _ _ => Samples.silent)
                   (Samples.pageState Samples.filledForm)
                   Samples.payload Samples.row Cases.listed
                   (Page.mapRowToTrade (Reading.storedRow "9" Samples.payload))
                   (Page.mapRowToTrade Samples.row))
            eq_refl _ _).
  - sample_numbers.
  - exists [], [], []. vm_compute. reflexivity.
Defined.

Lemma X_fetchTrades_outcome_witness :
  Page.trades
    (fst (PageUI.fetchTrades isoDateTime Cases.unlisted
            (Samples.pageState Samples.filledForm)))
  = Legacy.initialTrades
  /\ Page.loadError
       (fst (PageUI.fetchTrades isoDateTime Cases.listed
               (Samples.pageState Samples.filledForm)))
     = None.
Proof.
  split.
  - apply (proj1 (proj2 (X_fetchTrades_outcome isoDateTime Cases.unlisted
                           (Samples.pageState Samples.filledForm)))
             Cases.offline eq_refl).
  - apply (proj2 (proj2 (X_fetchTrades_outcome isoDateTime Cases.listed
                           (Samples.pageState Samples.filledForm)))
             eq_refl).
Defined.

Lemma X_handleDelete_page_witness :
  (forall t,
      In t (Page.trades
              (fst (PageUI.handleDelete Cases.plainDate Cases.yes
                      Cases.succeeds "2"
                      (Samples.pageState Samples.filledForm)))) ->
      id t <> "2")
  /\ fst (PageUI.handleDelete Cases.plainDate Cases.no Cases.succeeds "2"
            (Samples.pageState Samples.filledForm))
     = Samples.pageState Samples.filledForm
  /\ Page.trades
       (fst (PageUI.handleDelete Cases.plainDate Cases.yes Cases.succeeds
               "absent" (Samples.pageState Samples.filledForm)))
     = Legacy.initialTrades.
Proof.
  split; [| split].
  - apply (proj1 (proj2 (proj2 (proj2 (proj2
             (X_handleDelete_page Cases.plainDate Cases.yes Cases.succeeds
                "2" (Samples.pageState Samples.filledForm)))))));
      reflexivity.
  - apply (proj1 (proj2 (proj2 (proj2
             (X_handleDelete_page Cases.plainDate Cases.no Cases.succeeds
                "2" (Samples.pageState Samples.filledForm)))))).
    left. reflexivity.
  - apply (proj2 (proj2 (proj2 (proj2 (proj2
             (X_handleDelete_page Cases.plainDate Cases.yes Cases.succeeds
                "absent" (Samples.pageState Samples.filledForm))))))).
    intros t H. vm_compute in H.
    repeat (destruct H as [<- | H]; [discriminate |]). contradiction.
Defined.

Lemma X_handleDelete_legacy_witness :
  (forall t,
      In t (Legacy.trades
              (fst (LegacyUI.handleDelete Cases.plainDate
                      (Cases.confirmsOnly Cases.ethQuestion) "2"
                      (Samples.legacyState Samples.filledForm)))) ->
      id t <> "2")
  /\ fst (LegacyUI.handleDelete Cases.plainDate
            (Cases.confirmsOnly Cases.ethQuestion) "1"
            (Samples.legacyState Samples.filledForm))
     = Samples.legacyState Samples.filledForm
  /\ Legacy.trades
       (fst (LegacyUI.handleDelete Cases.plainDate Cases.yes "absent"
               (Samples.legacyState Samples.filledForm)))
     = Legacy.initialTrades.
Proof.
  split; [| split].
  - apply (proj1 (proj2 (proj2 (proj2 (proj2
             (X_handleDelete_legacy Cases.plainDate
                (Cases.confirmsOnly Cases.ethQuestion) "2"
                (Samples.legacyState Samples.filledForm))))))).
    vm_compute. reflexivity.
  - apply (proj1 (proj2 (proj2 (proj2
             (X_handleDelete_legacy Cases.plainDate
                (Cases.confirmsOnly Cases.ethQuestion) "1"
                (Samples.legacyState Samples.filledForm)))))).
    vm_compute. reflexivity.
  - apply (proj2 (proj2 (proj2 (proj2 (proj2
             (X_handleDelete_legacy Cases.plainDate Cases.yes "absent"
                (Samples.legacyState Samples.filledForm))))))).
    intros t H. vm_compute in H.
    repeat (destruct H as [<- | H]; [discriminate |]). contradiction.
Defined.

Lemma X_legacy_edit_touches_only_key_witness :
  List.length
    (Legacy.trades
       (fst (Legacy.handleSubmit Samples.today "1712880000000"
               Cases.legacyEditState)))
  = 4%nat.
Proof.
  apply (proj1 (proj2 (X_legacy_edit_touches_only_key Samples.today
                         "1712880000000" "2" Cases.legacyEditState
                         eq_refl))).
Defined.

Lemma X_legacy_create_then_delete_witness :
  Legacy.trades
    (fst (LegacyUI.handleDelete Cases.plainDate
            (Cases.confirmsOnly Cases.newQuestion) "1712880000000"
            (fst (Legacy.handleSubmit Samples.today "1712880000000"
                    (Samples.legacyState Samples.filledForm)))))
  = Legacy.initialTrades
  /\ fst (LegacyUI.handleDelete Cases.plainDate
            (Cases.confirmsOnly Cases.ethQuestion) "1712880000000"
            (fst (Legacy.handleSubmit Samples.today "1712880000000"
                    (Samples.legacyState Samples.filledForm))))
     = fst (Legacy.handleSubmit Samples.today "1712880000000"
              (Samples.legacyState Samples.filledForm)).
Proof.
  assert (Hval : ~ Spec.invalidForm
                     (Legacy.formData (Samples.legacyState Samples.filledForm)))
    by sample_form_valid.
  split.
  - refine (proj1 (proj2 (proj2
              (X_legacy_create_then_delete Samples.today "1712880000000"
                 Cases.plainDate (Cases.confirmsOnly Cases.newQuestion)
                 (Samples.legacyState Samples.filledForm) Hval eq_refl)))
              _ _).
    + vm_compute. reflexivity.
    + intros t H. vm_compute in H.
      repeat (destruct H as [<- | H]; [discriminate |]). contradiction.
  - apply (proj2 (proj2 (proj2
             (X_legacy_create_then_delete Samples.today "1712880000000"
                Cases.plainDate (Cases.confirmsOnly Cases.ethQuestion)
                (Samples.legacyState Samples.filledForm) Hval eq_refl)))).
    vm_compute. reflexivity.
Defined.

Lemma X_preview_matches_submit_witness :
  calculatedPnL Samples.filledForm
  = Some (Page.payload_pnl Samples.payload)
  /\ exists text,
      Samples.pageSubmit Samples.garbledForm
      = (Samples.pageState Samples.garbledForm, [Alert text]).
Proof.
  split.
  - refine (proj1 (X_preview_matches_submit isoDateTime Samples.today
                     (fun _ => Samples.silent) (fun _ _ => Samples.silent)
                     (Samples.pageState Samples.filledForm))
              (DbInsert Samples.payload) Samples.payload _
              (or_introl eq_refl)).
    vm_compute. left. reflexivity.
  - apply (proj2 (X_preview_matches_submit isoDateTime Samples.today
                    (fun _ => Samples.silent) (fun _ _ => Samples.silent)
                    (Samples.pageState Samples.garbledForm))).
    vm_compute. reflexivity.
Defined.

Lemma X_page_shows_top_witness :
  (pnl Samples.ethShort <? pnl Cases.solLong)%num = false.
Proof.
  refine (X_page_shows_top isoDateTime Page.pnl_desc 2 Legacy.initialTrades
            Samples.ethShort Cases.solLong _ _ _).
  - sample_numbers.
  - vm_compute. left. reflexivity.
  - vm_compute. right. left. reflexivity.
Defined.
